(** * Tour booking widget: room configurations and price computation

    A shallow embedding of the two computations of the booking widget,
    - [generateRoomConfigurations] of [components/RoomConfiguration.tsx], and
    - the price breakdown, the event handlers and [handleBooking] of
      [components/TourDetail.tsx],
    followed by the properties established about them.

    Numbers.  The widget computes on JavaScript numbers.  Head counts, room
    counts and loop counters are integers and are modelled by [Z]; prices are
    modelled by exact rationals [Q], so that [Math.round] is a real rounding
    and not the identity.  NaN, the infinities and the precision loss of
    IEEE doubles beyond 2^53 are outside the model. *)

From Stdlib Require Import ZArith QArith Qround List String Bool Lia.
From Stdlib Require Import Sorted Permutation DecimalString FinFun.
From Stdlib Require DecimalZ DecimalPos.
Import ListNotations.

Open Scope Z_scope.

(** ** JavaScript primitives used by the widget *)

Module JS.

(** [Math.round]: the nearest integer, halves going up. *)
Definition Math_round (x : Q) : Z := Qfloor (x + (1 # 2)).

(** [x || y] where [x] is a possibly [undefined] number and [y] a number:
    [undefined] and [0] are falsy. *)
Definition or_num (x : option Q) (y : Q) : Q :=
  match x with
  | Some q => if Qeq_bool q 0 then y else q
  | None => y
  end.

(** [x || y] where [x] is a possibly [undefined] array: every array, the
    empty one included, is truthy. *)
Definition or_array {A : Type} (x : option (list A)) (y : list A) : list A :=
  match x with
  | Some l => l
  | None => y
  end.

(** Truthiness of a string: only the empty string is falsy. *)
Definition truthy_str (s : string) : bool :=
  match s with
  | EmptyString => false
  | String _ _ => true
  end.

(** The integers [0, 1, ..., hi] visited by
    [for (let i = 0; i <= hi; i++)]; none when [hi < 0]. *)
Definition upto (hi : Z) : list Z :=
  map Z.of_nat (seq 0 (Z.to_nat (hi + 1))).

(** [for (let i = 0; i <= hi; i++) body], threading the mutable state. *)
Definition for_upto {S : Type} (hi : Z) (body : Z -> S -> S) (st : S) : S :=
  fold_left (fun acc i => body i acc) (upto hi) st.

(** [Array.prototype.sort(compare)].  The language requires the sort to be
    stable; for a comparator that is a consistent ordering its result is
    the one of a stable insertion sort: an element is placed before the
    first later element it does not compare greater than. *)
Fixpoint sort_insert {A : Type} (compare : A -> A -> Q) (x : A) (l : list A)
  : list A :=
  match l with
  | [] => [x]
  | y :: r =>
      if Qle_bool (compare x y) 0 then x :: l
      else y :: sort_insert compare x r
  end.

Fixpoint Array_sort {A : Type} (compare : A -> A -> Q) (l : list A)
  : list A :=
  match l with
  | [] => []
  | x :: r => sort_insert compare x (Array_sort compare r)
  end.

(** The order a comparator [(a, b) => key(a) - key(b)] sorts by. *)
Definition leBy {A : Type} (key : A -> Q) (a b : A) : Prop :=
  (key a <= key b)%Q.

(** [Array.prototype.find]. *)
Definition Array_find {A : Type} (p : A -> bool) (l : list A) : option A :=
  List.find p l.

(** Decimal rendering of an integer inside a template literal. *)
Definition toString (n : Z) : string :=
  NilZero.string_of_int (Z.to_int n).

End JS.

(** ** [RoomConfiguration.tsx] *)

Record RoomConfig : Type := mkRoomConfig {
  id : string;
  single : Z;
  double : Z;
  twin : Z;
  priceDifference : Q
}.

(** The helper [isValid] of [generateRoomConfigurations]. *)
Definition isValid (pax single double twin : Z) : bool :=
  single + double * 2 + twin * 2 =? pax.

(** The body of the innermost loop: the mutable state is the array [configs]
    and the counter [id]. *)
Definition pushConfig (pax single double twin : Z)
    (st : list RoomConfig * Z) : list RoomConfig * Z :=
  let '(configs, id) := st in
  if isValid pax single double twin then
    let roomBaseCost := inject_Z ((single + double + twin) * 500) in
    let priceDifference := roomBaseCost in
    (configs ++ [mkRoomConfig ("config-" ++ JS.toString id)
                              single double twin priceDifference],
     id + 1)
  else st.

(** The three nested loops, before the final sort. *)
Definition enumerateConfigs (pax : Z) : list RoomConfig * Z :=
  JS.for_upto pax (fun single =>
    JS.for_upto ((pax - single) / 2) (fun double =>
      JS.for_upto ((pax - single - double * 2) / 2) (fun twin =>
        pushConfig pax single double twin)))
    ([], 0).

Definition generateRoomConfigurations (pax : Z) : list RoomConfig :=
  let configs := fst (enumerateConfigs pax) in
  JS.Array_sort (fun a b => priceDifference a - priceDifference b)%Q configs.

(** The triples the loops push, in the order they are visited, and the
    records built from them with identifiers counted from [n]: a functional
    reading of the loops, shown below to agree with [enumerateConfigs]. *)
Definition validTriples (pax : Z) : list (Z * Z * Z) :=
  flat_map (fun single =>
    flat_map (fun double =>
      flat_map (fun twin =>
        if isValid pax single double twin then [(single, double, twin)]
        else [])
        (JS.upto ((pax - single - double * 2) / 2)))
      (JS.upto ((pax - single) / 2)))
    (JS.upto pax).

Fixpoint numberFrom (n : Z) (l : list (Z * Z * Z)) : list RoomConfig :=
  match l with
  | [] => []
  | (single, double, twin) :: r =>
      mkRoomConfig ("config-" ++ JS.toString n) single double twin
                   (inject_Z ((single + double + twin) * 500))
      :: numberFrom (n + 1) r
  end.

Definition pushAll (l : list (Z * Z * Z)) (st : list RoomConfig * Z)
  : list RoomConfig * Z :=
  (fst st ++ numberFrom (snd st) l, snd st + Z.of_nat (List.length l)).

(** The rooms of a configuration, without its identifier and price. *)
Definition rooms (c : RoomConfig) : Z * Z * Z := (single c, double c, twin c).

Definition roomCount (c : RoomConfig) : Z := single c + double c + twin c.

Definition beds (c : RoomConfig) : Z := single c + 2 * double c + 2 * twin c.

(** ** [App.tsx]: the tour record, restricted to the fields the booking
    computations read *)

Record PricingTier : Type := mkPricingTier {
  tier_pax : Z;
  tier_pricePerPerson : Q
}.

Record Addon : Type := mkAddon {
  addon_id : string;
  addon_name : string;
  price : Q;
  description : option string
}.

Inductive DepartureStatus : Type := available | limited | sold_out.

(** A departure of the schedule.  Fields declared optional ([?:]) in the
    source are options; [None] is an absent field. *)
Record Departure : Type := mkDeparture {
  dep_id : string;
  date : string;
  dep_pricePerPerson : Q;
  status : DepartureStatus;
  dep_pricingTiers : option (list PricingTier);
  dep_childWithBed : option Q;
  dep_childWithoutBed : option Q;
  dep_addons : option (list Addon)
}.

Record Tour : Type := mkTour {
  tour_id : string;
  slug : string;
  name : string;
  tour_pricePerPerson : Q;
  minTravelers : Z;
  maxTravelers : Z;
  availableDates : list string;
  tour_pricingTiers : list PricingTier;
  tour_childWithBed : Q;
  tour_childWithoutBed : Q;
  tour_addons : list Addon;
  departureSchedule : option (list Departure)
}.

(** ** [TourDetail.tsx]: component state *)

(** The [useState] cells of [TourDetail] that the booking logic reads, and
    the [configurations] cell of its child [RoomConfiguration].  The month
    and year pickers only filter the list of dates shown and are left out. *)
Record State : Type := mkState {
  selectedDate : string;
  adults : Z;
  childrenWithBed : Z;
  childrenWithoutBed : Z;
  selectedRoomConfig : option RoomConfig;
  selectedAddons : list string;
  customerName : string;
  customerEmail : string;
  customerPhone : string;
  error : string;
  isProcessing : bool;
  configurations : list RoomConfig
}.

Definition initialState : State :=
  mkState "" 2 0 0 None [] "" "" "" "" false [].

Definition setSelectedDate (v : string) (s : State) : State :=
  mkState v (adults s) (childrenWithBed s) (childrenWithoutBed s)
    (selectedRoomConfig s) (selectedAddons s) (customerName s)
    (customerEmail s) (customerPhone s) (error s) (isProcessing s)
    (configurations s).

Definition setAdults (v : Z) (s : State) : State :=
  mkState (selectedDate s) v (childrenWithBed s) (childrenWithoutBed s)
    (selectedRoomConfig s) (selectedAddons s) (customerName s)
    (customerEmail s) (customerPhone s) (error s) (isProcessing s)
    (configurations s).

Definition setChildrenWithBed (v : Z) (s : State) : State :=
  mkState (selectedDate s) (adults s) v (childrenWithoutBed s)
    (selectedRoomConfig s) (selectedAddons s) (customerName s)
    (customerEmail s) (customerPhone s) (error s) (isProcessing s)
    (configurations s).

Definition setChildrenWithoutBed (v : Z) (s : State) : State :=
  mkState (selectedDate s) (adults s) (childrenWithBed s) v
    (selectedRoomConfig s) (selectedAddons s) (customerName s)
    (customerEmail s) (customerPhone s) (error s) (isProcessing s)
    (configurations s).

Definition setSelectedRoomConfig (v : option RoomConfig) (s : State) : State :=
  mkState (selectedDate s) (adults s) (childrenWithBed s)
    (childrenWithoutBed s) v (selectedAddons s) (customerName s)
    (customerEmail s) (customerPhone s) (error s) (isProcessing s)
    (configurations s).

Definition setSelectedAddons (v : list string) (s : State) : State :=
  mkState (selectedDate s) (adults s) (childrenWithBed s)
    (childrenWithoutBed s) (selectedRoomConfig s) v (customerName s)
    (customerEmail s) (customerPhone s) (error s) (isProcessing s)
    (configurations s).

Definition setCustomerName (v : string) (s : State) : State :=
  mkState (selectedDate s) (adults s) (childrenWithBed s)
    (childrenWithoutBed s) (selectedRoomConfig s) (selectedAddons s) v
    (customerEmail s) (customerPhone s) (error s) (isProcessing s)
    (configurations s).

Definition setCustomerEmail (v : string) (s : State) : State :=
  mkState (selectedDate s) (adults s) (childrenWithBed s)
    (childrenWithoutBed s) (selectedRoomConfig s) (selectedAddons s)
    (customerName s) v (customerPhone s) (error s) (isProcessing s)
    (configurations s).

Definition setCustomerPhone (v : string) (s : State) : State :=
  mkState (selectedDate s) (adults s) (childrenWithBed s)
    (childrenWithoutBed s) (selectedRoomConfig s) (selectedAddons s)
    (customerName s) (customerEmail s) v (error s) (isProcessing s)
    (configurations s).

Definition setError (v : string) (s : State) : State :=
  mkState (selectedDate s) (adults s) (childrenWithBed s)
    (childrenWithoutBed s) (selectedRoomConfig s) (selectedAddons s)
    (customerName s) (customerEmail s) (customerPhone s) v (isProcessing s)
    (configurations s).

Definition setIsProcessing (v : bool) (s : State) : State :=
  mkState (selectedDate s) (adults s) (childrenWithBed s)
    (childrenWithoutBed s) (selectedRoomConfig s) (selectedAddons s)
    (customerName s) (customerEmail s) (customerPhone s) (error s) v
    (configurations s).

Definition setConfigurations (v : list RoomConfig) (s : State) : State :=
  mkState (selectedDate s) (adults s) (childrenWithBed s)
    (childrenWithoutBed s) (selectedRoomConfig s) (selectedAddons s)
    (customerName s) (customerEmail s) (customerPhone s) (error s)
    (isProcessing s) v.

(** ** [TourDetail.tsx]: values derived on every render *)

Section Render.

Variable tour : Tour.
Variable s : State.

Definition totalTravelers : Z :=
  adults s + childrenWithBed s + childrenWithoutBed s.

Definition totalPaxForRooms : Z := adults s + childrenWithBed s.

Definition getSelectedDeparture : option Departure :=
  if negb (JS.truthy_str (selectedDate s)) then None
  else
    match departureSchedule tour with
    | None => None
    | Some departures =>
        JS.Array_find (fun d => String.eqb (date d) (selectedDate s))
                      departures
    end.

Definition selectedDeparture : option Departure := getSelectedDeparture.

(** [selectedDeparture?.pricePerPerson || tour.pricePerPerson || 0] *)
Definition flatPricePerPerson : Q :=
  JS.or_num (option_map dep_pricePerPerson selectedDeparture)
    (JS.or_num (Some (tour_pricePerPerson tour)) 0).

(** [selectedDeparture?.pricingTiers || tour.pricingTiers] *)
Definition pricingTiers : list PricingTier :=
  JS.or_array (match selectedDeparture with
               | Some d => dep_pricingTiers d
               | None => None
               end)
              (tour_pricingTiers tour).

Definition getPriceForPax (pax : Z) : Q :=
  if (List.length pricingTiers =? 0)%nat then flatPricePerPerson
  else
    let tier :=
      match JS.Array_find (fun t => tier_pax t =? pax) pricingTiers with
      | Some t => Some t
      | None => nth_error pricingTiers (List.length pricingTiers - 1)
      end in
    JS.or_num (option_map tier_pricePerPerson tier) flatPricePerPerson.

Definition pricePerPerson : Q := getPriceForPax (adults s).

Definition basePrice : Z :=
  JS.Math_round (inject_Z (adults s) * pricePerPerson).

Definition childWithBedPrice : Q :=
  JS.or_num (match selectedDeparture with
             | Some d => dep_childWithBed d
             | None => None
             end)
            (tour_childWithBed tour).

Definition childWithoutBedPrice : Q :=
  JS.or_num (match selectedDeparture with
             | Some d => dep_childWithoutBed d
             | None => None
             end)
            (tour_childWithoutBed tour).

Definition childrenPrice : Z :=
  JS.Math_round (inject_Z (childrenWithBed s) * childWithBedPrice
                 + inject_Z (childrenWithoutBed s) * childWithoutBedPrice).

Definition roomPrice : Z :=
  match selectedRoomConfig s with
  | Some c => JS.Math_round (priceDifference c)
  | None => 0
  end.

Definition availableAddons : list Addon :=
  JS.or_array (match selectedDeparture with
               | Some d => dep_addons d
               | None => None
               end)
              (tour_addons tour).

(** [addon?.price || 0] for the [addon] found by
    [availableAddons.find((a) => a.id === addonId)]. *)
Definition addonPriceOrZero (addonId : string) : Q :=
  let addon :=
    JS.Array_find (fun a => String.eqb (addon_id a) addonId)
                  availableAddons in
  JS.or_num (option_map price addon) 0.

(** The reducer of [selectedAddons.reduce]. *)
Definition addonReducer (sum : Q) (addonId : string) : Q :=
  sum + addonPriceOrZero addonId.

Definition addonsPrice : Z :=
  JS.Math_round (fold_left addonReducer (selectedAddons s) 0%Q).

Definition totalPrice : Z :=
  JS.Math_round
    (inject_Z (basePrice + childrenPrice + roomPrice + addonsPrice)).

End Render.

(** ** [TourDetail.tsx]: event handlers *)

(** The payload handed to [onBookingComplete]. *)
Record BookingData : Type := mkBookingData {
  bd_tourId : string;
  bd_tourSlug : string;
  bd_tourName : string;
  bd_customerName : string;
  bd_customerEmail : string;
  bd_customerPhone : string;
  bd_departureDate : string;
  bd_adults : Z;
  bd_childrenWithBed : Z;
  bd_childrenWithoutBed : Z;
  bd_roomConfiguration : option RoomConfig;
  bd_addons : list string;
  bd_basePrice : Z;
  bd_childrenPrice : Z;
  bd_roomPrice : Q;
  bd_addonsPrice : Z;
  bd_totalPrice : Z;
  bd_specialRequests : string
}.

Definition handlePassengerChange (s : State) : State :=
  setSelectedRoomConfig None s.

Definition handleAddonToggle (addonId : string) (s : State) : State :=
  let prev := selectedAddons s in
  setSelectedAddons
    (if existsb (String.eqb addonId) prev
     then filter (fun id => negb (String.eqb id addonId)) prev
     else prev ++ [addonId])
    s.

Definition isNull {A : Type} (x : option A) : bool :=
  match x with
  | Some _ => false
  | None => true
  end.

(** The synchronous part of [handleBooking]: the state after it and the
    payload passed to [onBookingComplete], if any. *)
Definition handleBooking (tour : Tour) (s : State)
  : State * option BookingData :=
  let s1 := setError "" s in
  if negb (JS.truthy_str (selectedDate s)) then
    (setError "Please select a departure date" s1, None)
  else if isNull (selectedRoomConfig s) && (0 <? adults s) then
    (setError "Please select a room configuration" s1, None)
  else if totalTravelers s <? minTravelers tour then
    (setError ("Minimum " ++ JS.toString (minTravelers tour)
               ++ " travelers required") s1, None)
  else if maxTravelers tour <? totalTravelers s then
    (setError ("Maximum " ++ JS.toString (maxTravelers tour)
               ++ " travelers allowed") s1, None)
  else if negb (JS.truthy_str (customerName s))
          || negb (JS.truthy_str (customerEmail s))
          || negb (JS.truthy_str (customerPhone s)) then
    (setError "Please fill in all contact details" s1, None)
  else
    (setIsProcessing true s1,
     Some (mkBookingData
             (tour_id tour) (slug tour) (name tour)
             (customerName s) (customerEmail s) (customerPhone s)
             (selectedDate s)
             (adults s) (childrenWithBed s) (childrenWithoutBed s)
             (selectedRoomConfig s)
             (selectedAddons s)
             (basePrice tour s)
             (childrenPrice tour s)
             (JS.or_num (option_map priceDifference (selectedRoomConfig s)) 0)
             (addonsPrice tour s)
             (totalPrice tour s)
             "")).

(** ** The widget as a transition system *)

(** User interface events, and the two ways the promise returned by
    [onBookingComplete] settles. *)
Inductive Event : Type :=
  | ClickDate (dateStr : string)
  | ClickAdultsMinus
  | ClickAdultsPlus
  | ClickChildrenWithBedMinus
  | ClickChildrenWithBedPlus
  | ClickChildrenWithoutBedMinus
  | ClickChildrenWithoutBedPlus
  | ClickRoom (config : RoomConfig)
  | ClickAddon (addonId : string)
  | ChangeName (v : string)
  | ChangeEmail (v : string)
  | ChangePhone (v : string)
  | ClickBook
  | BookingResolved
  | BookingThrew (message : string).

(** The [onClick] and [onChange] bodies. *)
Definition handler (tour : Tour) (e : Event) (s : State) : State :=
  match e with
  | ClickDate dateStr => setSelectedDate dateStr s
  | ClickAdultsMinus =>
      handlePassengerChange (setAdults (Z.max 1 (adults s - 1)) s)
  | ClickAdultsPlus =>
      handlePassengerChange (setAdults (Z.min 10 (adults s + 1)) s)
  | ClickChildrenWithBedMinus =>
      handlePassengerChange
        (setChildrenWithBed (Z.max 0 (childrenWithBed s - 1)) s)
  | ClickChildrenWithBedPlus =>
      handlePassengerChange (setChildrenWithBed (childrenWithBed s + 1) s)
  | ClickChildrenWithoutBedMinus =>
      handlePassengerChange
        (setChildrenWithoutBed (Z.max 0 (childrenWithoutBed s - 1)) s)
  | ClickChildrenWithoutBedPlus =>
      handlePassengerChange
        (setChildrenWithoutBed (childrenWithoutBed s + 1) s)
  | ClickRoom config => setSelectedRoomConfig (Some config) s
  | ClickAddon addonId => handleAddonToggle addonId s
  | ChangeName v => setCustomerName v s
  | ChangeEmail v => setCustomerEmail v s
  | ChangePhone v => setCustomerPhone v s
  | ClickBook => fst (handleBooking tour s)
  | BookingResolved => setIsProcessing false s
  | BookingThrew message =>
      setIsProcessing false
        (setError (if JS.truthy_str message then message
                   else "Failed to initiate payment. Please try again.") s)
  end.

(** [RoomConfiguration] is rendered under [selectedDate && adults > 0]. *)
Definition roomPanelShown (s : State) : bool :=
  JS.truthy_str (selectedDate s) && (0 <? adults s).

(** The [useEffect] of [RoomConfiguration], with dependencies
    [[totalPax, onSelectRoom]]: it runs after the render that mounts the
    component and after every render in which [totalPax] differs from the
    previous one ([onSelectRoom] is the state setter, whose identity never
    changes).  It regenerates [configurations] and calls
    [onSelectRoom(null)]. *)
Definition RoomConfiguration_effect (prev next : State) : State :=
  if roomPanelShown next
     && (negb (roomPanelShown prev)
         || negb (totalPaxForRooms prev =? totalPaxForRooms next))
  then
    setSelectedRoomConfig None
      (setConfigurations (generateRoomConfigurations (totalPaxForRooms next))
                         next)
  else next.

(** One event: the handler, then the effects of the render it causes. *)
Definition step (tour : Tour) (s : State) (e : Event) : State :=
  RoomConfiguration_effect s (handler tour e s).

(** [departure?.status || 'available'] of the date list. *)
Definition dateStatus (tour : Tour) (dateStr : string) : DepartureStatus :=
  match departureSchedule tour with
  | None => available
  | Some departures =>
      match JS.Array_find (fun d => String.eqb (date d) dateStr) departures with
      | Some d => status d
      | None => available
      end
  end.

Definition isSoldOut (st : DepartureStatus) : bool :=
  match st with
  | sold_out => true
  | _ => false
  end.

(** Which events the rendered page can deliver: a control must be rendered
    and not [disabled]. *)
Definition enabled (tour : Tour) (s : State) (e : Event) : Prop :=
  match e with
  | ClickDate dateStr =>
      In dateStr (availableDates tour)
      /\ isSoldOut (dateStatus tour dateStr) = false
  | ClickAdultsMinus =>
      JS.truthy_str (selectedDate s) = true /\ ~ adults s <= 1
  | ClickAdultsPlus =>
      JS.truthy_str (selectedDate s) = true /\ ~ 10 <= adults s
  | ClickChildrenWithBedMinus =>
      JS.truthy_str (selectedDate s) = true /\ ~ childrenWithBed s <= 0
  | ClickChildrenWithBedPlus => JS.truthy_str (selectedDate s) = true
  | ClickChildrenWithoutBedMinus =>
      JS.truthy_str (selectedDate s) = true /\ ~ childrenWithoutBed s <= 0
  | ClickChildrenWithoutBedPlus => JS.truthy_str (selectedDate s) = true
  | ClickRoom config =>
      roomPanelShown s = true /\ In config (configurations s)
  | ClickAddon addonId =>
      exists a, In a (availableAddons tour s) /\ addon_id a = addonId
  | ChangeName _ | ChangeEmail _ | ChangePhone _ => True
  | ClickBook => isProcessing s = false
  | BookingResolved | BookingThrew _ => isProcessing s = true
  end.

(** States the widget can be in, starting from the initial [useState]
    values. *)
Inductive reachable (tour : Tour) : State -> Prop :=
  | reachable_init : reachable tour initialState
  | reachable_step : forall s e,
      reachable tour s -> enabled tour s e ->
      reachable tour (step tour s e).

(** Events whose handler sets a passenger count. *)
Definition isPassengerEvent (e : Event) : bool :=
  match e with
  | ClickAdultsMinus | ClickAdultsPlus
  | ClickChildrenWithBedMinus | ClickChildrenWithBedPlus
  | ClickChildrenWithoutBedMinus | ClickChildrenWithoutBedPlus => true
  | _ => false
  end.

(** ** Auxiliary sums over the selected add-ons *)

(** The price contributed by one selected id, looked up in a given array:
    that of the first entry with the id, 0 if there is none. *)
Definition priceIn (available : list Addon) (addonId : string) : Q :=
  JS.or_num
    (option_map price
       (JS.Array_find (fun a => String.eqb (addon_id a) addonId) available))
    0.

Definition sumOver (f : string -> Q) (l : list string) : Q :=
  fold_right Qplus 0%Q (map f l).

(** ** Invariants of the reachable states *)

(** The part of the state the room panel depends on. *)
Definition sameParty (s s' : State) : Prop :=
  selectedDate s' = selectedDate s
  /\ adults s' = adults s
  /\ childrenWithBed s' = childrenWithBed s.

(** A selected configuration is one of those generated for the current
    party. *)
Definition selectionFits (s : State) : Prop :=
  forall c, selectedRoomConfig s = Some c ->
            In c (generateRoomConfigurations (totalPaxForRooms s)).

(** While the room panel is shown, its list of cards is the one generated
    for the current party. *)
Definition panelCurrent (s : State) : Prop :=
  roomPanelShown s = true ->
  configurations s = generateRoomConfigurations (totalPaxForRooms s).

(** ** Properties as the specification words them

    These definitions follow the specification's sentences, not the code;
    the theorems below compare the code with them. *)

Module Spec.

(** "The tier with the largest pax value." *)
Fixpoint largestPaxTier (tiers : list PricingTier) : option PricingTier :=
  match tiers with
  | [] => None
  | t :: r =>
      match largestPaxTier r with
      | Some m => if tier_pax m <? tier_pax t then Some t else Some m
      | None => Some t
      end
  end.

(** "The tier whose pax exactly equals adults; if none matches, the tier
    with the largest pax value; if no tiers exist at all, the flat
    per-person rate." *)
Definition resolvedRate (tiers : list PricingTier) (flat : Q) (adults : Z)
  : Q :=
  match List.find (fun t => tier_pax t =? adults) tiers with
  | Some t => tier_pricePerPerson t
  | None =>
      match largestPaxTier tiers with
      | Some t => tier_pricePerPerson t
      | None => flat
      end
  end.

(** "Tiers in ascending-pax order." *)
Definition ascendingPax (tiers : list PricingTier) : Prop :=
  StronglySorted (fun a b => tier_pax a <= tier_pax b) tiers.

(** "The sum of price for every entry in availableAddons whose id is
    present in selectedAddonIds." *)
Definition addonsSum (available : list Addon) (selected : list string) : Q :=
  fold_right Qplus 0%Q
    (map price
       (filter (fun a => existsb (String.eqb (addon_id a)) selected)
               available)).

(** "A specific departure's fields, when present, override the tour-level
    defaults." *)
Definition departureOverrides (tour : Tour) (s : State) : Prop :=
  forall d, selectedDeparture tour s = Some d ->
    (forall v, dep_pricingTiers d = Some v -> pricingTiers tour s = v)
    /\ (flatPricePerPerson tour s == dep_pricePerPerson d)%Q
    /\ (forall v, dep_childWithBed d = Some v ->
                  (childWithBedPrice tour s == v)%Q)
    /\ (forall v, dep_childWithoutBed d = Some v ->
                  (childWithoutBedPrice tour s == v)%Q)
    /\ (forall v, dep_addons d = Some v -> availableAddons tour s = v).

(** "The unique cheapest is [r]." *)
Definition uniqueCheapest (pax : Z) (r : Z * Z * Z) : Prop :=
  forall c, In c (generateRoomConfigurations pax) ->
    (forall c', In c' (generateRoomConfigurations pax) ->
                (priceDifference c <= priceDifference c')%Q) ->
    rooms c = r.

(** "Selecting a new date or changing a passenger count must reset the
    selected room configuration to no selection." *)
Definition resetsSelection (tour : Tour) : Prop :=
  forall s e,
    isPassengerEvent e = true
    \/ (exists dateStr, e = ClickDate dateStr /\ dateStr <> selectedDate s) ->
    selectedRoomConfig (step tour s e) = None.

(** The selection-validity rules of the booking flow. *)
Definition validBooking (tour : Tour) (s : State) : Prop :=
  selectedDate s <> ""%string
  /\ (0 < adults s ->
      exists c, selectedRoomConfig s = Some c
                /\ single c + 2 * double c + 2 * twin c
                   = adults s + childrenWithBed s)
  /\ minTravelers tour
     <= adults s + childrenWithBed s + childrenWithoutBed s
     <= maxTravelers tour
  /\ customerName s <> ""%string
  /\ customerEmail s <> ""%string
  /\ customerPhone s <> ""%string.

End Spec.

(** ** Sample data for the concrete cases *)

Module Examples.

Definition tourWith (tiers : list PricingTier)
    (flat childWithBed childWithoutBed : Q) (addons : list Addon)
    (departures : option (list Departure)) : Tour :=
  mkTour "101" "himachal" "Himachal" flat 2 10
         ["2026-01-10"%string; "2026-02-14"%string]
         tiers childWithBed childWithoutBed addons departures.

Definition stateWith (dateStr : string)
    (adults childrenWithBed childrenWithoutBed : Z)
    (config : option RoomConfig) (addonIds : list string) : State :=
  mkState dateStr adults childrenWithBed childrenWithoutBed config addonIds
          "" "" "" "" false [].

Definition departureWith (dateStr : string) (flat : Q)
    (tiers : option (list PricingTier))
    (childWithBed childWithoutBed : option Q)
    (addons : option (list Addon)) : Departure :=
  mkDeparture "d1" dateStr flat available tiers
              childWithBed childWithoutBed addons.

(** A tour without departure schedule, and the states of a visit: a date
    is picked, the card "1 x Double Room" is chosen, the contact form is
    filled in. *)
Definition plainTour : Tour :=
  tourWith [mkPricingTier 2 25000] 25000 14900 9900 [] None.

Definition doubleRoom : RoomConfig := mkRoomConfig "config-1" 0 1 0 500.

Definition afterRoomChoice : State :=
  step plainTour
    (step plainTour initialState (ClickDate "2026-01-10"))
    (ClickRoom doubleRoom).

Definition afterContact : State :=
  step plainTour
    (step plainTour
       (step plainTour afterRoomChoice (ChangeName "Asha"))
       (ChangeEmail "asha@example.org"))
    (ChangePhone "+91 98765 43210").

End Examples.

(** ** [RoomConfiguration.tsx]: what a card shows *)

(** [Math.min(...values)]; [None] stands for the [Infinity] returned for an
    empty argument list. *)
Fixpoint Math_min (values : list Q) : option Q :=
  match values with
  | [] => None
  | x :: r =>
      match Math_min r with
      | None => Some x
      | Some m => if Qle_bool x m then Some x else Some m
      end
  end.

Definition formatRoomConfig (config : RoomConfig) : list string :=
  let parts := [] in
  let parts :=
    if 0 <? single config
    then parts ++ [JS.toString (single config) ++ " x Single Room"]%string
    else parts in
  let parts :=
    if 0 <? double config
    then parts ++ [JS.toString (double config) ++ " x Double Room"]%string
    else parts in
  let parts :=
    if 0 <? twin config
    then parts ++ [JS.toString (twin config) ++ " x Twin Room"]%string
    else parts in
  parts.

(** [selectedConfig?.id === config.id] *)
Definition isSelected (selectedConfig : option RoomConfig)
    (config : RoomConfig) : bool :=
  match selectedConfig with
  | Some c => String.eqb (id c) (id config)
  | None => false
  end.

(** [config.priceDifference
     === Math.min(...configurations.map(c => c.priceDifference))] *)
Definition isRecommended (configurations : list RoomConfig)
    (config : RoomConfig) : bool :=
  match Math_min (map priceDifference configurations) with
  | Some m => Qeq_bool (priceDifference config) m
  | None => false
  end.

(** The "Best Value" badge is rendered under
    [isRecommended && !isSelected]. *)
Definition showsBestValue (configurations : list RoomConfig)
    (selectedConfig : option RoomConfig) (config : RoomConfig) : bool :=
  isRecommended configurations config && negb (isSelected selectedConfig config).

(** The same triples listed by number of two-bed rooms [k = double + twin],
    used to count them. *)
Definition triplesByPairs (pax : Z) : list (Z * Z * Z) :=
  flat_map (fun k => map (fun d => (pax - 2 * k, d, k - d)) (JS.upto k))
           (JS.upto (pax / 2)).

(** ** [services/api.ts]: the tour record built by [toursAPI.getById]

    The object literal [transformedTour], restricted to the fields of
    [Tour]; its inputs are the WordPress post and the departure schedule
    read from its ACF field ([None] when the field is absent or does not
    parse). *)

Record ScheduleMetadata : Type := mkScheduleMetadata {
  meta_minTravelers : option Z;
  meta_maxTravelers : option Z
}.

Record DepartureSchedule : Type := mkDepartureSchedule {
  departures : list Departure;
  metadata : option ScheduleMetadata
}.

Record WpTour : Type := mkWpTour {
  wp_id : Z;
  wp_slug : string;
  wp_title : string
}.

(** [x || y] on a possibly [undefined] integer, and on strings. *)
Definition or_int (x : option Z) (y : Z) : Z :=
  match x with
  | Some z => if z =? 0 then y else z
  | None => y
  end.

Definition or_str (x y : string) : string :=
  if JS.truthy_str x then x else y.

(** [departureSchedule?.departures?.[0]] *)
Definition firstDeparture (departureSchedule : option DepartureSchedule)
  : option Departure :=
  match departureSchedule with
  | Some sch => nth_error (departures sch) 0
  | None => None
  end.

Definition transformedTour (id : string) (wpTour : WpTour)
    (departureSchedule : option DepartureSchedule) : Tour :=
  let first := firstDeparture departureSchedule in
  let meta := match departureSchedule with
              | Some sch => metadata sch
              | None => None
              end in
  mkTour
    (JS.toString (wp_id wpTour))
    (or_str (wp_slug wpTour) id)
    (wp_title wpTour)
    (JS.or_num (option_map dep_pricePerPerson first) 0)
    (or_int (match meta with Some m => meta_minTravelers m | None => None end)
            2)
    (or_int (match meta with Some m => meta_maxTravelers m | None => None end)
            15)
    (match departureSchedule with
     | Some sch =>
         map date
             (filter (fun d => negb (isSoldOut (status d))) (departures sch))
     | None => []
     end)
    (JS.or_array (match first with Some d => dep_pricingTiers d | None => None end)
                 [])
    (JS.or_num (match first with Some d => dep_childWithBed d | None => None end)
               0)
    (JS.or_num (match first with Some d => dep_childWithoutBed d | None => None end)
               0)
    (JS.or_array (match first with Some d => dep_addons d | None => None end) [])
    (Some (match departureSchedule with
           | Some sch => departures sch
           | None => []
           end)).

(** Sample data: a schedule whose first departure is sold out, the tour
    built from it, and the state after picking the second departure. *)
Module Samples.

Definition schedule : DepartureSchedule :=
  mkDepartureSchedule
    [mkDeparture "d1" "2026-03-01" 21900 sold_out
                 (Some [mkPricingTier 2 21900]) (Some 12500%Q) None None;
     mkDeparture "d2" "2026-04-05" 23900 limited
                 (Some [mkPricingTier 2 23900; mkPricingTier 4 22900])
                 (Some 13500%Q) (Some 9500%Q) None]
    (Some (mkScheduleMetadata (Some 2) None)).

Definition tour : Tour :=
  transformedTour "himachal" (mkWpTour 101 "himachal" "Himachal")
                  (Some schedule).

Definition afterDate : State := step tour initialState (ClickDate "2026-04-05").

End Samples.

(** ** Network calls and the flows built on them

    The asynchronous functions are embedded as functions of the outcomes of
    the requests they await, returning the component state they leave and
    the effects they perform, in order.  Values the code only passes along
    (a parsed JSON document, a booking object sent by the server) are kept
    abstract. *)

Record AxiosError : Type := mkAxiosError {
  responseDataError : option string;   (* error.response?.data?.error *)
  errMessage : string;                 (* error.message *)
  errCode : option string;             (* error.code *)
  responseStatus : option Z            (* error.response?.status *)
}.

Inductive Outcome (A : Type) : Type :=
  | Resolved (data : A)
  | Rejected (error : AxiosError).

Arguments Resolved {A} data.
Arguments Rejected {A} error.

(** [x || y] where [x] is a possibly [undefined] string: [undefined] and
    the empty string are falsy. *)
Definition or_ostr (x : option string) (y : string) : string :=
  match x with
  | Some v => if JS.truthy_str v then v else y
  | None => y
  end.

(** A possibly [null] string seen as a condition: its value when truthy. *)
Definition whenTruthy (x : option string) : option string :=
  match x with
  | Some v => if JS.truthy_str v then Some v else None
  | None => None
  end.

(** [URLSearchParams.get] and the object filled by
    [searchParams.forEach((value, key) => params[key] = value)]. *)
Definition searchParams_get (key : string) (searchParams : list (string * string))
  : option string :=
  option_map snd (List.find (fun p => String.eqb (fst p) key) searchParams).

Fixpoint objectSet (key value : string) (obj : list (string * string))
  : list (string * string) :=
  match obj with
  | [] => [(key, value)]
  | (k, v) :: r =>
      if String.eqb k key then (k, value) :: r
      else (k, v) :: objectSet key value r
  end.

Definition paramsObject (searchParams : list (string * string))
  : list (string * string) :=
  fold_left (fun params p => objectSet (fst p) (snd p) params) searchParams [].

(** [searchParams.get('order_id') || searchParams.get('orderId')]; [None]
    when the result is falsy. *)
Definition urlOrderId (searchParams : list (string * string)) : option string :=
  match whenTruthy (searchParams_get "order_id" searchParams) with
  | Some v => Some v
  | None => whenTruthy (searchParams_get "orderId" searchParams)
  end.

Section Flows.

Variable Json : Type.
Variable JSON_parse : string -> option Json.
Variable ServerBooking : Type.

(** *** [PaymentResponse.tsx] *)

Inductive PaymentStatus : Type :=
  | StatusLoading | StatusSuccess | StatusFailed | StatusPending.

Record VerifyData : Type := mkVerifyData {
  vd_success : bool;
  vd_error : option string;
  vd_paymentMode : option string;
  vd_paymentStatus : option string
}.

Record BookingResponse : Type := mkBookingResponse {
  br_success : bool;
  br_booking : option ServerBooking
}.

Record PaymentPage : Type := mkPaymentPage {
  pp_status : PaymentStatus;
  pp_message : string;
  pp_orderDetails : option VerifyData
}.

Definition initialPaymentPage : PaymentPage :=
  mkPaymentPage StatusLoading "Processing your payment..." None.

Inductive PaymentEffect : Type :=
  | PostVerify (params : list (string * string))
  | PostBooking (bookingData : Json) (orderId : string)
                (paymentMode paymentStatus : option string)
                (verifiedAt : string)
  | RemovePendingBooking
  | NavigateHome (booking : option ServerBooking).

(** [verifyPayment]: [pendingBooking] is the item of the session storage,
    [now] the reading of [new Date().toISOString()]. *)
Definition verifyPayment (searchParams : list (string * string))
    (verifyResult : Outcome VerifyData) (pendingBooking : option string)
    (bookingResult : Outcome BookingResponse) (now : string)
  : PaymentPage * list PaymentEffect :=
  let orderId := urlOrderId searchParams in
  match orderId with
  | None =>
      (mkPaymentPage StatusFailed
         "Payment verification failed: No order ID found" None, [])
  | Some orderId =>
      let params := paramsObject searchParams in
      match verifyResult with
      | Rejected error =>
          (mkPaymentPage StatusFailed
             (or_ostr (responseDataError error) "Payment verification failed")
             None,
           [PostVerify params])
      | Resolved data =>
          if vd_success data then
            match whenTruthy pendingBooking with
            | None =>
                (mkPaymentPage StatusFailed
                   ("Booking data not found. Please contact support with Order ID: "
                    ++ orderId)
                   (Some data),
                 [PostVerify params])
            | Some pending =>
                let bookingFailed :=
                  mkPaymentPage StatusFailed
                    ("Payment successful but booking failed. Please contact support with Order ID: "
                     ++ orderId)
                    (Some data) in
                match JSON_parse pending with
                | None => (bookingFailed, [PostVerify params])
                | Some bookingData =>
                    let post :=
                      PostBooking bookingData orderId (vd_paymentMode data)
                                  (vd_paymentStatus data) now in
                    match bookingResult with
                    | Rejected _ => (bookingFailed, [PostVerify params; post])
                    | Resolved response =>
                        if br_success response then
                          (mkPaymentPage StatusSuccess
                             "Booking confirmed! Redirecting..." (Some data),
                           [PostVerify params; post; RemovePendingBooking;
                            NavigateHome (br_booking response)])
                        else (bookingFailed, [PostVerify params; post])
                    end
                end
            end
          else
            (mkPaymentPage StatusFailed
               (or_ostr (vd_error data) "Payment verification failed")
               (Some data),
             [PostVerify params])
      end
  end.

End Flows.

Arguments verifyPayment {Json} JSON_parse {ServerBooking}.
Arguments PostVerify {Json ServerBooking}.
Arguments PostBooking {Json ServerBooking}.
Arguments RemovePendingBooking {Json ServerBooking}.
Arguments NavigateHome {Json ServerBooking}.
Arguments br_success {ServerBooking}.
Arguments br_booking {ServerBooking}.
Arguments mkBookingResponse {ServerBooking}.

Section Widget.

Variable ServerBooking : Type.

(** *** [services/api.ts]: wrappers that simulate a backend that fails *)

Inductive PaymentDetails : Type :=
  | TestDetails (orderId paymentId : string)            (* testMode: true *)
  | RazorpayDetails (orderId paymentId signature : string).

(** [{...bookingData, paymentId, paymentStatus, paymentDetails}] *)
Record BookingRequest : Type := mkBookingRequest {
  rq_bookingData : BookingData;
  rq_paymentId : string;
  rq_paymentStatus : string;
  rq_paymentDetails : PaymentDetails
}.

(** A booking object: the one the server sent, or the one
    [bookingsAPI.create] makes up, with status ['pending']. *)
Inductive Booking : Type :=
  | ServerSent (booking : ServerBooking)
  | Simulated (id bookingId : string) (request : BookingRequest).

Record CreateResponse : Type := mkCreateResponse {
  cr_success : bool;
  cr_booking : option Booking
}.

(** [bookingsAPI.create]; [t1], [t2] are its two readings of
    [Date.now()]. *)
Definition bookingsAPI_create (data : BookingRequest)
    (post : Outcome (BookingResponse ServerBooking)) (t1 t2 : Z)
  : CreateResponse :=
  match post with
  | Resolved response =>
      mkCreateResponse (br_success response)
                       (option_map ServerSent (br_booking response))
  | Rejected _ =>
      mkCreateResponse true
        (Some (Simulated ("BK-" ++ JS.toString t1) ("BK-" ++ JS.toString t2)
                         data))
  end.

Record OrderRequest : Type := mkOrderRequest {
  oq_amount : Z;
  oq_currency : option string;
  oq_receipt : option string;
  oq_bookingId : string;
  oq_customerEmail : string;
  oq_customerPhone : string;
  oq_notesTourId : string;
  oq_notesTourName : string;
  oq_notesCustomerEmail : string
}.

Record Order : Type := mkOrder {
  order_id : string;
  order_amount : Z;
  order_currency : string
}.

Record OrderData : Type := mkOrderData {
  od_success : bool;
  od_error : option string;
  od_order : option Order;
  od_paymentMode : option string;
  od_paymentLink : option string;
  od_redirectUrl : option string;
  od_key : option string
}.

(** [paymentsAPI.createOrder]; [t] is its reading of [Date.now()]. *)
Definition paymentsAPI_createOrder (data : OrderRequest)
    (post : Outcome OrderData) (t : Z) : OrderData :=
  match post with
  | Resolved response => response
  | Rejected _ =>
      mkOrderData true None
        (Some (mkOrder ("order_" ++ JS.toString t) (oq_amount data)
                       (or_ostr (oq_currency data) "INR")))
        None None None None
  end.

(** [paymentsAPI.verify]: the [success] flag of its answer. *)
Definition paymentsAPI_verify (post : Outcome bool) : bool :=
  match post with
  | Resolved success => success
  | Rejected _ => true
  end.

(** *** [BookingWidget.tsx] *)

Record RazorpayOptions : Type := mkRazorpayOptions {
  rz_key : option string;
  rz_amount : Z;
  rz_currency : string;
  rz_description : string;
  rz_order_id : string;
  rz_prefillName : string;
  rz_prefillEmail : string;
  rz_prefillContact : string
}.

Inductive WidgetEffect : Type :=
  | PostBookings (request : BookingRequest)
  | SetConfirmedBooking (booking : option Booking)
  | PostCreateOrder (request : OrderRequest)
  | StorePendingBooking (bookingData : BookingData) (orderId : string)
  | RedirectTo (url : string)
  | OpenRazorpay (options : RazorpayOptions)
  | PostVerifyPayment (orderId paymentId signature : string)
  | RedirectLater (url : string) (delay : Z)
  | Alert (message : string).

(** What a [try] block throws. *)
Inductive Thrown : Type :=
  | ThrownError (message : string)
  | ThrownTypeError
  | ThrownAxios (error : AxiosError).

(** The [try] block of [handleBooking].  [clock k] is the [k]-th reading of
    [Date.now()]; [razorpayLoaded] tells whether [window.Razorpay] is
    defined. *)
Definition handleBooking_try (bookingData : BookingData)
    (testModeEnv : option string) (clock : nat -> Z)
    (bookingPost : Outcome (BookingResponse ServerBooking))
    (orderPost : Outcome OrderData)
    (razorpayKeyEnv : option string) (razorpayLoaded : bool)
  : list WidgetEffect * option Thrown :=
  let isTestMode :=
    match testModeEnv with
    | Some v => String.eqb v "true"
    | None => false
    end in
  if isTestMode then
    let request :=
      mkBookingRequest bookingData
        ("test_payment_" ++ JS.toString (clock 0%nat)) "confirmed"
        (TestDetails ("test_order_" ++ JS.toString (clock 1%nat))
                     ("test_payment_" ++ JS.toString (clock 2%nat))) in
    let bookingResponse :=
      bookingsAPI_create request bookingPost (clock 3%nat) (clock 4%nat) in
    if cr_success bookingResponse then
      match cr_booking bookingResponse with
      | None => ([PostBookings request], Some ThrownTypeError)
      | Some booking =>
          ([PostBookings request; SetConfirmedBooking (Some booking)], None)
      end
    else
      ([PostBookings request],
       Some (ThrownError "Failed to create test booking"))
  else
    let request :=
      mkOrderRequest (bd_totalPrice bookingData) (Some "INR"%string)
        (Some ("booking_" ++ JS.toString (clock 0%nat))%string)
        ("booking_" ++ JS.toString (clock 1%nat))
        (bd_customerEmail bookingData) (bd_customerPhone bookingData)
        (bd_tourId bookingData) (bd_tourName bookingData)
        (bd_customerEmail bookingData) in
    let data := paymentsAPI_createOrder request orderPost (clock 2%nat) in
    if negb (od_success data) then
      ([PostCreateOrder request],
       Some (ThrownError (or_ostr (od_error data)
                                  "Failed to create payment order")))
    else
      let link :=
        match whenTruthy (od_paymentLink data) with
        | Some v => Some v
        | None => whenTruthy (od_redirectUrl data)
        end in
      let paymentModeIs (mode : string) :=
        match od_paymentMode data with
        | Some m => String.eqb m mode
        | None => false
        end in
      match paymentModeIs "HDFC"%string, link with
      | true, Some url =>
          match od_order data with
          | None => ([PostCreateOrder request], Some ThrownTypeError)
          | Some order =>
              ([PostCreateOrder request;
                StorePendingBooking bookingData (order_id order);
                RedirectTo url], None)
          end
      | _, _ =>
          if paymentModeIs "RAZORPAY"%string then
            match od_order data with
            | None => ([PostCreateOrder request], Some ThrownTypeError)
            | Some order =>
                if razorpayLoaded then
                  ([PostCreateOrder request;
                    OpenRazorpay
                      (mkRazorpayOptions
                         (match whenTruthy (od_key data) with
                          | Some k => Some k
                          | None => razorpayKeyEnv
                          end)
                         (order_amount order) (order_currency order)
                         (bd_tourName bookingData) (order_id order)
                         (bd_customerName bookingData)
                         (bd_customerEmail bookingData)
                         (bd_customerPhone bookingData))],
                   None)
                else ([PostCreateOrder request], Some ThrownTypeError)
            end
          else ([PostCreateOrder request], None)
      end.

(** The [catch] of [handleBooking]: the message of the error it rethrows. *)
Definition rethrownMessage (err : Thrown) : string :=
  match err with
  | ThrownAxios error =>
      or_ostr (responseDataError error)
              "Failed to initiate payment. Please try again."
  | ThrownError _ | ThrownTypeError =>
      "Failed to initiate payment. Please try again."
  end.

(** [BookingWidget.handleBooking]: its effects and, if the promise rejects,
    the message of the error. *)
Definition widgetHandleBooking (bookingData : BookingData)
    (testModeEnv : option string) (clock : nat -> Z)
    (bookingPost : Outcome (BookingResponse ServerBooking))
    (orderPost : Outcome OrderData)
    (razorpayKeyEnv : option string) (razorpayLoaded : bool)
  : list WidgetEffect * option string :=
  let '(effects, thrown) :=
    handleBooking_try bookingData testModeEnv clock bookingPost orderPost
                      razorpayKeyEnv razorpayLoaded in
  (effects, option_map rethrownMessage thrown).

(** The [handler] passed to Razorpay, called with the ids of a payment. *)
Definition razorpayHandler (bookingData : BookingData)
    (orderId paymentId signature : string)
    (verifyPost : Outcome bool)
    (bookingPost : Outcome (BookingResponse ServerBooking)) (clock : nat -> Z)
  : list WidgetEffect :=
  let failed :=
    Alert ("Payment successful but booking failed. Please contact support with payment ID: "
           ++ paymentId) in
  if paymentsAPI_verify verifyPost then
    let request :=
      mkBookingRequest bookingData paymentId "confirmed"
                       (RazorpayDetails orderId paymentId signature) in
    let bookingResponse :=
      bookingsAPI_create request bookingPost (clock 0%nat) (clock 1%nat) in
    if cr_success bookingResponse then
      [PostVerifyPayment orderId paymentId signature; PostBookings request;
       SetConfirmedBooking (cr_booking bookingResponse);
       RedirectLater "https://immersivetrips.in" 9000]
    else
      [PostVerifyPayment orderId paymentId signature; PostBookings request;
       failed]
  else [PostVerifyPayment orderId paymentId signature; failed].

End Widget.

Arguments ServerSent {ServerBooking}.
Arguments Simulated {ServerBooking}.
Arguments mkCreateResponse {ServerBooking}.
Arguments cr_success {ServerBooking}.
Arguments cr_booking {ServerBooking}.
Arguments bookingsAPI_create {ServerBooking}.
Arguments PostBookings {ServerBooking}.
Arguments SetConfirmedBooking {ServerBooking}.
Arguments PostCreateOrder {ServerBooking}.
Arguments StorePendingBooking {ServerBooking}.
Arguments RedirectTo {ServerBooking}.
Arguments OpenRazorpay {ServerBooking}.
Arguments PostVerifyPayment {ServerBooking}.
Arguments RedirectLater {ServerBooking}.
Arguments Alert {ServerBooking}.
Arguments handleBooking_try {ServerBooking}.
Arguments widgetHandleBooking {ServerBooking}.
Arguments razorpayHandler {ServerBooking}.

(** *** Loading the tour: [toursAPI.getById] and [BookingWidget.fetchTour] *)












(** * Properties *)

(** ** JavaScript primitives *)

Lemma Math_round_inject_Z (z : Z) : JS.Math_round (inject_Z z) = z.
Proof.
  unfold JS.Math_round.
  assert (H : (inject_Z z + (1 # 2) == (2 * z + 1) # 2)%Q).
  { unfold Qeq, Qplus, inject_Z; cbn [Qnum Qden]. lia. }
  rewrite H. unfold Qfloor.
  symmetry. apply Z.div_unique with (r := 1).
  - left. lia.
  - change (Z.pos 2) with 2. ring.
Qed.

Lemma Math_round_bounds (x : Q) :
  (x - (1 # 2) < inject_Z (JS.Math_round x) /\
   inject_Z (JS.Math_round x) <= x + (1 # 2))%Q.
Proof.
  unfold JS.Math_round. split.
  - pose proof (Qlt_floor (x + (1 # 2))) as H.
    rewrite inject_Z_plus in H.
    apply Qplus_lt_l with (z := 1%Q).
    eapply Qle_lt_trans; [| exact H].
    ring_simplify. apply Qle_refl.
  - apply Qfloor_le.
Qed.

Lemma in_upto (hi i : Z) : In i (JS.upto hi) <-> 0 <= i <= hi.
Proof.
  unfold JS.upto. rewrite in_map_iff. split.
  - intros (n & <- & Hn). apply in_seq in Hn. lia.
  - intros Hi. exists (Z.to_nat i). split; [lia |]. apply in_seq. lia.
Qed.

Lemma NoDup_upto (hi : Z) : NoDup (JS.upto hi).
Proof.
  unfold JS.upto. apply Injective_map_NoDup.
  - intros a b. apply Nat2Z.inj.
  - apply seq_NoDup.
Qed.

(** ** The enumeration of [generateRoomConfigurations] *)

Section Enumeration.

Lemma numberFrom_app (l1 l2 : list (Z * Z * Z)) : forall n,
  numberFrom n (l1 ++ l2)
  = numberFrom n l1 ++ numberFrom (n + Z.of_nat (List.length l1)) l2.
Proof.
  induction l1 as [| [[a b] c] l1 IH]; intros n; simpl.
  - now rewrite Z.add_0_r.
  - rewrite IH. do 3 f_equal. lia.
Qed.

Lemma pushAll_nil st : pushAll [] st = st.
Proof.
  destruct st as [cs n]. unfold pushAll. simpl.
  now rewrite app_nil_r, Z.add_0_r.
Qed.

Lemma pushAll_app l1 l2 st : pushAll (l1 ++ l2) st = pushAll l2 (pushAll l1 st).
Proof.
  destruct st as [cs n]. unfold pushAll. simpl.
  rewrite numberFrom_app, app_assoc, length_app. f_equal. lia.
Qed.

Lemma pushConfig_pushAll pax single double twin st :
  pushConfig pax single double twin st
  = pushAll (if isValid pax single double twin
             then [(single, double, twin)] else []) st.
Proof.
  unfold pushConfig. destruct st as [cs n].
  destruct (isValid pax single double twin).
  - reflexivity.
  - now rewrite pushAll_nil.
Qed.

(** A loop whose body pushes [f i] pushes the concatenation of the
    [f i]. *)
Lemma for_upto_pushAll (f : Z -> list (Z * Z * Z))
    (body : Z -> list RoomConfig * Z -> list RoomConfig * Z) :
  (forall i st, body i st = pushAll (f i) st) ->
  forall hi st, JS.for_upto hi body st = pushAll (flat_map f (JS.upto hi)) st.
Proof.
  intros Hbody hi. unfold JS.for_upto.
  induction (JS.upto hi) as [| i l IH]; intros st; simpl.
  - now rewrite pushAll_nil.
  - now rewrite IH, Hbody, pushAll_app.
Qed.

Lemma enumerateConfigs_validTriples pax :
  fst (enumerateConfigs pax) = numberFrom 0 (validTriples pax).
Proof.
  unfold enumerateConfigs, validTriples.
  rewrite for_upto_pushAll with
    (f := fun single =>
      flat_map (fun double =>
        flat_map (fun twin =>
          if isValid pax single double twin then [(single, double, twin)]
          else [])
          (JS.upto ((pax - single - double * 2) / 2)))
        (JS.upto ((pax - single) / 2))).
  - reflexivity.
  - intros single st. apply for_upto_pushAll.
    intros double st'. apply for_upto_pushAll.
    intros twin st''. apply pushConfig_pushAll.
Qed.

Lemma map_rooms_numberFrom l : forall n, map rooms (numberFrom n l) = l.
Proof.
  induction l as [| [[a b] c] l IH]; intros n; simpl.
  - reflexivity.
  - now rewrite IH.
Qed.

Lemma numberFrom_priceDifference l : forall n c,
  In c (numberFrom n l) ->
  priceDifference c = inject_Z (roomCount c * 500).
Proof.
  induction l as [| [[a b] d] l IH]; intros n c; simpl.
  - tauto.
  - intros [<- | Hc]; [reflexivity | eauto].
Qed.

Lemma in_validTriples pax single double twin :
  In (single, double, twin) (validTriples pax)
  <-> 0 <= single /\ 0 <= double /\ 0 <= twin
      /\ single + 2 * double + 2 * twin = pax.
Proof.
  unfold validTriples. rewrite in_flat_map. split.
  - intros (s' & Hs & H). apply in_flat_map in H as (d' & Hd & H).
    apply in_flat_map in H as (t' & Ht & H).
    apply in_upto in Hs, Hd, Ht.
    unfold isValid in H.
    destruct (Z.eqb_spec (s' + d' * 2 + t' * 2) pax) as [E | E];
      simpl in H; [| tauto].
    destruct H as [H | []]. inversion H; subst. lia.
  - intros (Hs & Hd & Ht & E).
    exists single. split; [apply in_upto; lia |].
    apply in_flat_map. exists double. split.
    { apply in_upto. split; [lia |]. apply Z.div_le_lower_bound; lia. }
    apply in_flat_map. exists twin. split.
    { apply in_upto. split; [lia |]. apply Z.div_le_lower_bound; lia. }
    unfold isValid.
    destruct (Z.eqb_spec (single + double * 2 + twin * 2) pax);
      [now left | lia].
Qed.

Lemma NoDup_flat_map_disjoint {A B : Type} (f : A -> list B) (l : list A) :
  NoDup l ->
  (forall a, In a l -> NoDup (f a)) ->
  (forall a a' b, In a l -> In a' l -> In b (f a) -> In b (f a') -> a = a') ->
  NoDup (flat_map f l).
Proof.
  induction l as [| a l IH]; intros Hl Hf Hdis; simpl.
  - constructor.
  - inversion Hl as [| ? ? Hnotin Hl']; subst.
    apply NoDup_app.
    + apply Hf. now left.
    + apply IH; auto.
      * intros a0 Ha0. apply Hf. now right.
      * intros a0 a' b Ha0 Ha'. apply Hdis; now right.
    + intros b Hb Hb'. apply in_flat_map in Hb' as (a' & Ha' & Hb').
      assert (a = a') by (eapply Hdis; eauto; [now left | now right]).
      subst. contradiction.
Qed.

Lemma NoDup_validTriples pax : NoDup (validTriples pax).
Proof.
  unfold validTriples.
  apply NoDup_flat_map_disjoint; [apply NoDup_upto | |].
  - intros single _. apply NoDup_flat_map_disjoint; [apply NoDup_upto | |].
    + intros double _.
      apply NoDup_flat_map_disjoint; [apply NoDup_upto | |].
      * intros twin _. destruct (isValid pax single double twin);
          repeat constructor; simpl; tauto.
      * intros t t' b _ _ Hb Hb'.
        destruct (isValid pax single double t); [| destruct Hb].
        destruct (isValid pax single double t'); [| destruct Hb'].
        destruct Hb as [<- | []]. destruct Hb' as [Hb' | []]. congruence.
    + intros d d' b _ _ Hb Hb'.
      apply in_flat_map in Hb as (t & _ & Hb).
      apply in_flat_map in Hb' as (t' & _ & Hb').
      destruct (isValid pax single d t); [| destruct Hb].
      destruct (isValid pax single d' t'); [| destruct Hb'].
      destruct Hb as [<- | []]. destruct Hb' as [Hb' | []]. congruence.
  - intros s' s'' b _ _ Hb Hb'.
    apply in_flat_map in Hb as (d & _ & Hb).
    apply in_flat_map in Hb as (t & _ & Hb).
    apply in_flat_map in Hb' as (d' & _ & Hb').
    apply in_flat_map in Hb' as (t' & _ & Hb').
    destruct (isValid pax s' d t); [| destruct Hb].
    destruct (isValid pax s'' d' t'); [| destruct Hb'].
    destruct Hb as [<- | []]. destruct Hb' as [Hb' | []]. congruence.
Qed.

End Enumeration.

(** ** The final sort *)

Section Sorting.

Context {A : Type}.
Variable compare : A -> A -> Q.

Lemma sort_insert_perm x l :
  Permutation (x :: l) (JS.sort_insert compare x l).
Proof.
  induction l as [| y l IH]; simpl.
  - apply Permutation_refl.
  - destruct (Qle_bool (compare x y) 0).
    + apply Permutation_refl.
    + eapply perm_trans; [apply perm_swap |]. now apply perm_skip.
Qed.

Lemma Array_sort_perm l : Permutation l (JS.Array_sort compare l).
Proof.
  induction l as [| x l IH]; simpl.
  - constructor.
  - eapply perm_trans; [apply perm_skip, IH | apply sort_insert_perm].
Qed.

Lemma in_Array_sort l x : In x (JS.Array_sort compare l) <-> In x l.
Proof.
  split; apply Permutation_in;
    [apply Permutation_sym |]; apply Array_sort_perm.
Qed.

(** For a comparator that subtracts a key, the result is ordered by it. *)
Variable key : A -> Q.
Hypothesis compare_key : forall a b, (compare a b == key a - key b)%Q.

Lemma compare_le a b : Qle_bool (compare a b) 0 = true <-> JS.leBy key a b.
Proof.
  unfold JS.leBy. rewrite Qle_bool_iff, compare_key. split; intros H.
  - apply Qplus_le_l with (z := (- key b)%Q).
    rewrite Qplus_opp_r. exact H.
  - apply Qplus_le_l with (z := (- key b)%Q) in H.
    now rewrite Qplus_opp_r in H.
Qed.

Lemma sort_insert_sorted x l :
  StronglySorted (JS.leBy key) l ->
  StronglySorted (JS.leBy key) (JS.sort_insert compare x l).
Proof.
  induction 1 as [| y l Hl IH Hy]; simpl.
  - repeat constructor.
  - destruct (Qle_bool (compare x y) 0) eqn:E.
    + apply compare_le in E.
      constructor; [now constructor |].
      constructor; [exact E |].
      eapply Forall_impl; [| exact Hy].
      intros z Hz. unfold JS.leBy in *. eapply Qle_trans; eauto.
    + constructor; [exact IH |].
      assert (Hyx : JS.leBy key y x).
      { unfold JS.leBy. apply Qlt_le_weak, Qnot_le_lt.
        intros H. apply compare_le in H. congruence. }
      apply Forall_forall. intros z Hz.
      apply (Permutation_in _ (Permutation_sym (sort_insert_perm x l)))
        in Hz.
      destruct Hz as [<- | Hz]; [exact Hyx |].
      rewrite Forall_forall in Hy. now apply Hy.
Qed.

Lemma Array_sort_sorted l :
  StronglySorted (JS.leBy key) (JS.Array_sort compare l).
Proof.
  induction l as [| x l IH]; simpl.
  - constructor.
  - now apply sort_insert_sorted.
Qed.

End Sorting.

Lemma generateRoomConfigurations_perm pax :
  Permutation (numberFrom 0 (validTriples pax))
              (generateRoomConfigurations pax).
Proof.
  unfold generateRoomConfigurations. cbv zeta.
  rewrite enumerateConfigs_validTriples. apply Array_sort_perm.
Qed.

Lemma in_generateRoomConfigurations pax c :
  In c (generateRoomConfigurations pax)
  <-> In c (numberFrom 0 (validTriples pax)).
Proof.
  split; apply Permutation_in;
    [apply Permutation_sym |]; apply generateRoomConfigurations_perm.
Qed.

Lemma generated_rooms pax c :
  In c (generateRoomConfigurations pax) -> In (rooms c) (validTriples pax).
Proof.
  intros H. apply in_generateRoomConfigurations in H.
  apply (in_map rooms) in H. now rewrite map_rooms_numberFrom in H.
Qed.

Lemma generated_beds pax c :
  In c (generateRoomConfigurations pax) ->
  0 <= single c /\ 0 <= double c /\ 0 <= twin c /\ beds c = pax.
Proof.
  intros H. apply generated_rooms in H.
  unfold rooms in H. now apply in_validTriples in H.
Qed.

Lemma generated_priceDifference pax c :
  In c (generateRoomConfigurations pax) ->
  priceDifference c = inject_Z (roomCount c * 500).
Proof.
  intros H. apply in_generateRoomConfigurations in H.
  eapply numberFrom_priceDifference; eauto.
Qed.

Lemma generated_sorted pax :
  StronglySorted (fun a b => (priceDifference a <= priceDifference b)%Q)
                 (generateRoomConfigurations pax).
Proof.
  unfold generateRoomConfigurations. cbv zeta.
  apply Array_sort_sorted. intros a b. reflexivity.
Qed.

(** ** Room configurations: the claims *)

(** C1.  For every party size [pax >= 0], the configurations returned by
    [generateRoomConfigurations pax] are exactly the triples of non-negative
    integers [(single, double, twin)] with
    [single + 2 * double + 2 * twin = pax]: a triple is among the returned
    rooms if and only if it satisfies the equation, every returned
    configuration satisfies it, and no triple is returned twice.  For party
    size 0 the result is the one configuration without rooms, at price
    difference 0. *)
Theorem generateRoomConfigurations_exact (pax : Z) (Hpax : 0 <= pax) :
  (forall single double twin,
      In (single, double, twin) (map rooms (generateRoomConfigurations pax))
      <-> 0 <= single /\ 0 <= double /\ 0 <= twin
          /\ single + 2 * double + 2 * twin = pax)
  /\ (forall c, In c (generateRoomConfigurations pax) ->
                single c + 2 * double c + 2 * twin c = pax)
  /\ NoDup (map rooms (generateRoomConfigurations pax))
  /\ generateRoomConfigurations 0 = [mkRoomConfig "config-0" 0 0 0 0].
Proof.
  assert (Hperm : Permutation (validTriples pax)
                    (map rooms (generateRoomConfigurations pax))).
  { rewrite <- (map_rooms_numberFrom (validTriples pax) 0).
    apply Permutation_map, generateRoomConfigurations_perm. }
  split; [| split; [| split]].
  - intros single double twin. rewrite <- in_validTriples. split.
    + apply Permutation_in, Permutation_sym, Hperm.
    + apply Permutation_in, Hperm.
  - intros c Hc. now apply generated_beds in Hc.
  - eapply Permutation_NoDup; [exact Hperm | apply NoDup_validTriples].
  - reflexivity.
Qed.

Lemma generateRoomConfigurations_exact_witness :
  0 <= 4 /\ NoDup (map rooms (generateRoomConfigurations 4)).
Proof.
  split; [lia |].
  destruct (generateRoomConfigurations_exact 4) as (_ & _ & H & _);
    [lia | exact H].
Defined.

(** C4.  For every party size [pax >= 0] the returned sequence is sorted
    non-decreasing by [priceDifference]; it is not empty and no returned
    configuration is cheaper than the first one. *)
Theorem generateRoomConfigurations_sorted (pax : Z) (Hpax : 0 <= pax) :
  StronglySorted (fun a b => (priceDifference a <= priceDifference b)%Q)
                 (generateRoomConfigurations pax)
  /\ exists first rest,
       generateRoomConfigurations pax = first :: rest
       /\ forall c, In c (generateRoomConfigurations pax) ->
                    (priceDifference first <= priceDifference c)%Q.
Proof.
  pose proof (generated_sorted pax) as Hs. split; [exact Hs |].
  destruct (generateRoomConfigurations pax) as [| first rest] eqn:E.
  - exfalso.
    assert (Hin : In (pax, 0, 0) (validTriples pax))
      by (apply in_validTriples; lia).
    rewrite <- (map_rooms_numberFrom (validTriples pax) 0) in Hin.
    apply in_map_iff in Hin as (c & _ & Hc).
    apply in_generateRoomConfigurations in Hc. rewrite E in Hc. exact Hc.
  - exists first, rest. split; [reflexivity |].
    inversion Hs as [| ? ? _ Hall]; subst.
    intros c [<- | Hc]; [apply Qle_refl |].
    rewrite Forall_forall in Hall. now apply Hall.
Qed.

Lemma generateRoomConfigurations_sorted_witness :
  0 <= 5
  /\ StronglySorted (fun a b => (priceDifference a <= priceDifference b)%Q)
                    (generateRoomConfigurations 5).
Proof.
  split; [lia |].
  destruct (generateRoomConfigurations_sorted 5) as [H _]; [lia | exact H].
Defined.

(** C6.  Every returned configuration has
    [priceDifference = (single + double + twin) * 500]; hence the price
    difference is non-negative, and two configurations of the same party
    size with the same number of rooms have the same price difference. *)
Theorem priceDifference_by_roomCount (pax : Z) (c : RoomConfig)
    (Hc : In c (generateRoomConfigurations pax)) :
  priceDifference c = inject_Z ((single c + double c + twin c) * 500)
  /\ (0 <= priceDifference c)%Q
  /\ forall c', In c' (generateRoomConfigurations pax) ->
       single c + double c + twin c = single c' + double c' + twin c' ->
       priceDifference c = priceDifference c'.
Proof.
  pose proof (generated_priceDifference pax c Hc) as Hp.
  unfold roomCount in Hp. repeat split.
  - exact Hp.
  - rewrite Hp. apply generated_beds in Hc.
    change 0%Q with (inject_Z 0). rewrite <- Zle_Qle. lia.
  - intros c' Hc' E.
    rewrite Hp, (generated_priceDifference pax c' Hc').
    unfold roomCount. now rewrite E.
Qed.

Lemma priceDifference_by_roomCount_witness :
  priceDifference (mkRoomConfig "config-4" 2 1 0 1500)
  = inject_Z ((2 + 1 + 0) * 500).
Proof.
  apply (priceDifference_by_roomCount 4 (mkRoomConfig "config-4" 2 1 0 1500)).
  vm_compute. tauto.
Defined.

Lemma generateRoomConfigurations_4_eq :
  generateRoomConfigurations 4
  = [ mkRoomConfig "config-0" 0 0 2 1000;
      mkRoomConfig "config-1" 0 1 1 1000;
      mkRoomConfig "config-2" 0 2 0 1000;
      mkRoomConfig "config-3" 2 0 1 1500;
      mkRoomConfig "config-4" 2 1 0 1500;
      mkRoomConfig "config-5" 4 0 0 2000 ].
Proof. vm_compute. reflexivity. Qed.

(** C5, as stated, fails: for party size 4 two double rooms are not the only
    cheapest configuration; two twin rooms cost the same and are listed. *)
Lemma uniqueCheapest_4_counterexample : ~ Spec.uniqueCheapest 4 (0, 2, 0).
Proof.
  intros H.
  specialize (H (mkRoomConfig "config-0" 0 0 2 1000)).
  rewrite generateRoomConfigurations_4_eq in H.
  assert (E : rooms (mkRoomConfig "config-0" 0 0 2 1000) = (0, 2, 0)).
  { apply H.
    - simpl. tauto.
    - intros c' Hc'. simpl in Hc'.
      repeat (destruct Hc' as [<- | Hc']; [simpl; discriminate |]).
      destruct Hc'. }
  discriminate E.
Qed.

(** C5, amended.  [generateRoomConfigurations 4] includes four singles at
    2000, two doubles at 1000 and two singles with one double at 1500; the
    least price difference is 1000, and it is that of exactly three returned
    configurations: two doubles, one double with one twin, and two twins,
    each of which is returned. *)
Theorem generateRoomConfigurations_4_cheapest :
  (exists c, In c (generateRoomConfigurations 4)
             /\ rooms c = (4, 0, 0) /\ priceDifference c = 2000%Q)
  /\ (exists c, In c (generateRoomConfigurations 4)
                /\ rooms c = (0, 2, 0) /\ priceDifference c = 1000%Q)
  /\ (exists c, In c (generateRoomConfigurations 4)
                /\ rooms c = (2, 1, 0) /\ priceDifference c = 1500%Q)
  /\ Forall (fun c => (1000 <= priceDifference c)%Q)
            (generateRoomConfigurations 4)
  /\ Forall (fun c => priceDifference c = 1000%Q
                      <-> rooms c = (0, 2, 0) \/ rooms c = (0, 1, 1)
                          \/ rooms c = (0, 0, 2))
            (generateRoomConfigurations 4)
  /\ (exists c, In c (generateRoomConfigurations 4)
                /\ rooms c = (0, 1, 1) /\ priceDifference c = 1000%Q)
  /\ (exists c, In c (generateRoomConfigurations 4)
                /\ rooms c = (0, 0, 2) /\ priceDifference c = 1000%Q)
  /\ map rooms
         (filter (fun c => Qeq_bool (priceDifference c) 1000)
                 (generateRoomConfigurations 4))
     = [(0, 0, 2); (0, 1, 1); (0, 2, 0)].
Proof.
  rewrite generateRoomConfigurations_4_eq.
  split; [exists (mkRoomConfig "config-5" 4 0 0 2000); simpl; tauto |].
  split; [exists (mkRoomConfig "config-2" 0 2 0 1000); simpl; tauto |].
  split; [exists (mkRoomConfig "config-4" 2 1 0 1500); simpl; tauto |].
  split; [repeat constructor; simpl; discriminate |].
  split.
  { repeat constructor; unfold rooms; simpl;
      first [ tauto | discriminate
            | intros [H | [H | H]]; discriminate H ]. }
  split; [exists (mkRoomConfig "config-1" 0 1 1 1000); simpl; tauto |].
  split; [exists (mkRoomConfig "config-0" 0 0 2 1000); simpl; tauto |].
  reflexivity.
Qed.

(** ** Price computation: auxiliary facts *)

Lemma Math_round_comp (x y : Q) :
  (x == y)%Q -> JS.Math_round x = JS.Math_round y.
Proof. intros H. unfold JS.Math_round. now rewrite H. Qed.

Lemma or_num_nonzero (q y : Q) : ~ (q == 0)%Q -> JS.or_num (Some q) y = q.
Proof.
  intros H. unfold JS.or_num.
  destruct (Qeq_bool q 0) eqn:E; [| reflexivity].
  apply Qeq_bool_iff in E. contradiction.
Qed.

Lemma or_num_zero (q y : Q) : (q == 0)%Q -> JS.or_num (Some q) y = y.
Proof.
  intros H. unfold JS.or_num. apply Qeq_bool_iff in H. now rewrite H.
Qed.

Lemma last_tier (init : list PricingTier) (t : PricingTier) :
  nth_error (init ++ [t]) (List.length (init ++ [t]) - 1) = Some t.
Proof.
  rewrite length_app. simpl.
  replace (List.length init + 1 - 1)%nat with (List.length init) by lia.
  rewrite nth_error_app2 by lia. now rewrite Nat.sub_diag.
Qed.

(** In an array in ascending-pax order the last tier has the largest pax. *)
Lemma ascending_last_largest (init : list PricingTier) (t : PricingTier) :
  Spec.ascendingPax (init ++ [t]) ->
  forall t', In t' (init ++ [t]) -> tier_pax t' <= tier_pax t.
Proof.
  unfold Spec.ascendingPax.
  induction init as [| a init IH]; simpl; intros H t' Ht'.
  - destruct Ht' as [<- | []]. lia.
  - inversion H as [| ? ? Hs Hall]; subst. destruct Ht' as [<- | Ht'].
    + rewrite Forall_forall in Hall. apply Hall, in_or_app. right. now left.
    + now apply IH.
Qed.

Section Pricing.

Variable tour : Tour.
Variable s : State.

Lemma getPriceForPax_empty pax :
  pricingTiers tour s = [] ->
  getPriceForPax tour s pax = flatPricePerPerson tour s.
Proof. intros H. unfold getPriceForPax. now rewrite H. Qed.

Lemma getPriceForPax_match pax t :
  JS.Array_find (fun t => tier_pax t =? pax) (pricingTiers tour s) = Some t ->
  getPriceForPax tour s pax
  = JS.or_num (Some (tier_pricePerPerson t)) (flatPricePerPerson tour s).
Proof.
  intros H. unfold getPriceForPax. rewrite H.
  destruct (pricingTiers tour s); [discriminate H | reflexivity].
Qed.

Lemma getPriceForPax_last pax init t :
  pricingTiers tour s = init ++ [t] ->
  JS.Array_find (fun t => tier_pax t =? pax) (pricingTiers tour s) = None ->
  getPriceForPax tour s pax
  = JS.or_num (Some (tier_pricePerPerson t)) (flatPricePerPerson tour s).
Proof.
  intros E H. unfold getPriceForPax. rewrite H, E, last_tier.
  destruct init; reflexivity.
Qed.

Lemma flatPricePerPerson_departure d :
  selectedDeparture tour s = Some d -> ~ (dep_pricePerPerson d == 0)%Q ->
  flatPricePerPerson tour s = dep_pricePerPerson d.
Proof.
  intros E H. unfold flatPricePerPerson. rewrite E. simpl.
  now apply or_num_nonzero.
Qed.

Lemma flatPricePerPerson_tour :
  (selectedDeparture tour s = None
   \/ exists d, selectedDeparture tour s = Some d
                /\ (dep_pricePerPerson d == 0)%Q) ->
  flatPricePerPerson tour s = JS.or_num (Some (tour_pricePerPerson tour)) 0.
Proof.
  intros [E | (d & E & H)]; unfold flatPricePerPerson; rewrite E; simpl.
  - reflexivity.
  - now apply or_num_zero.
Qed.

End Pricing.

(** ** Price computation: the claims *)

(** C2, as stated, fails on two inputs.  With the tiers listed as
    [{pax:4, 18000}, {pax:2, 20000}] and 3 adults the code takes the last
    array element, [{pax:2}], not the tier with the largest pax: the rate is
    20000 and the base price 60000.  With the single tier [{pax:2, 0}], a
    tour-level rate of 24900 and 2 adults, the matching tier's zero rate is
    skipped and the rate is 24900. *)
Lemma getPriceForPax_counterexample :
  (let tour := Examples.tourWith
                 [mkPricingTier 4 18000; mkPricingTier 2 20000] 0 0 0 [] None in
   let s := Examples.stateWith "" 3 0 0 None [] in
   ~ (getPriceForPax tour s (adults s)
      == Spec.resolvedRate (pricingTiers tour s) (flatPricePerPerson tour s)
                           (adults s))%Q
   /\ basePrice tour s = 60000)
  /\ (let tour := Examples.tourWith [mkPricingTier 2 0] 24900 0 0 [] None in
      let s := Examples.stateWith "" 2 0 0 None [] in
      ~ (getPriceForPax tour s (adults s)
         == Spec.resolvedRate (pricingTiers tour s) (flatPricePerPerson tour s)
                              (adults s))%Q
      /\ basePrice tour s = 49800).
Proof.
  split; cbv zeta;
    (split; [vm_compute; discriminate | vm_compute; reflexivity]).
Qed.

(** C2, amended.  The per-person rate is resolved on the departure's tier
    array if the selected departure has one, else on the tour's:
    - with no tiers, it is the flat rate;
    - otherwise the tier chosen is the first one whose pax equals the number
      of adults or, if there is none, the last element of the array, which
      is a tier with the largest pax when the array is in ascending-pax
      order; the rate is the chosen tier's rate unless that is 0, in which
      case it is the flat rate;
    - the flat rate is the selected departure's [pricePerPerson] unless that
      is 0 or no departure is selected, in which case it is the tour's
      [pricePerPerson], or 0;
    and [basePrice = round(adults * rate)].  With tiers
    [{pax:2, 20000}, {pax:4, 18000}] and 3 adults the base price is 54000. *)
Theorem getPriceForPax_resolution (tour : Tour) (s : State) :
  let tiers := pricingTiers tour s in
  let flat := flatPricePerPerson tour s in
  let chosen (t : PricingTier) :=
    JS.Array_find (fun t => tier_pax t =? adults s) tiers = Some t
    \/ (JS.Array_find (fun t => tier_pax t =? adults s) tiers = None
        /\ exists init, tiers = init ++ [t]) in
  (tiers = [] -> pricePerPerson tour s = flat)
  /\ (forall t, chosen t -> ~ (tier_pricePerPerson t == 0)%Q ->
                pricePerPerson tour s = tier_pricePerPerson t)
  /\ (forall t, chosen t -> (tier_pricePerPerson t == 0)%Q ->
                pricePerPerson tour s = flat)
  /\ (forall init t, tiers = init ++ [t] -> Spec.ascendingPax tiers ->
                     forall t', In t' tiers -> tier_pax t' <= tier_pax t)
  /\ (forall d, selectedDeparture tour s = Some d ->
                ~ (dep_pricePerPerson d == 0)%Q ->
                flat = dep_pricePerPerson d)
  /\ ((selectedDeparture tour s = None
       \/ exists d, selectedDeparture tour s = Some d
                    /\ (dep_pricePerPerson d == 0)%Q) ->
      (~ (tour_pricePerPerson tour == 0)%Q -> flat = tour_pricePerPerson tour)
      /\ ((tour_pricePerPerson tour == 0)%Q -> flat = 0%Q))
  /\ basePrice tour s
     = JS.Math_round (inject_Z (adults s) * pricePerPerson tour s)
  /\ (tiers = [mkPricingTier 2 20000; mkPricingTier 4 18000] ->
      adults s = 3 -> basePrice tour s = 54000).
Proof.
  cbv zeta. unfold pricePerPerson.
  assert (Hchosen : forall t,
    JS.Array_find (fun t => tier_pax t =? adults s) (pricingTiers tour s)
      = Some t
    \/ (JS.Array_find (fun t => tier_pax t =? adults s) (pricingTiers tour s)
          = None
        /\ exists init, pricingTiers tour s = init ++ [t]) ->
    getPriceForPax tour s (adults s)
    = JS.or_num (Some (tier_pricePerPerson t)) (flatPricePerPerson tour s)).
  { intros t [H | (H & init & E)].
    - now apply getPriceForPax_match.
    - eapply getPriceForPax_last; eauto. }
  split; [apply getPriceForPax_empty |].
  split; [intros t Ht Hnz; rewrite (Hchosen t Ht); now apply or_num_nonzero |].
  split; [intros t Ht Hz; rewrite (Hchosen t Ht); now apply or_num_zero |].
  split; [intros init t E Hs; rewrite E in *;
          now apply ascending_last_largest |].
  split; [apply flatPricePerPerson_departure |].
  split.
  { intros H. rewrite (flatPricePerPerson_tour tour s H).
    split; intros H0; [now apply or_num_nonzero | now apply or_num_zero]. }
  split; [reflexivity |].
  intros E Ha. unfold basePrice, pricePerPerson, getPriceForPax.
  rewrite E, Ha. vm_compute. reflexivity.
Qed.

Lemma getPriceForPax_resolution_witness :
  basePrice
    (Examples.tourWith [mkPricingTier 2 20000; mkPricingTier 4 18000]
                       0 0 0 [] None)
    (Examples.stateWith "" 3 0 0 None [])
  = 54000.
Proof.
  apply (getPriceForPax_resolution
           (Examples.tourWith [mkPricingTier 2 20000; mkPricingTier 4 18000]
                              0 0 0 [] None)
           (Examples.stateWith "" 3 0 0 None []));
    reflexivity.
Defined.

(** C3.  Each of [basePrice], [childrenPrice], [roomPrice] and
    [addonsPrice] is an integer obtained by rounding its own amount to the
    nearest integer (so it lies within one half of that amount), and
    [totalPrice] is their sum.  For a tour with the single tier
    [{pax:2, 25000}], 2 adults, no children, a selected configuration with
    price difference 500 and no add-ons, the breakdown is 50000, 0, 500, 0,
    and the total 50500. *)
Theorem totalPrice_breakdown (tour : Tour) (s : State) :
  let near (n : Z) (x : Q) :=
    n = JS.Math_round x
    /\ (x - (1 # 2) < inject_Z n /\ inject_Z n <= x + (1 # 2))%Q in
  near (basePrice tour s) (inject_Z (adults s) * pricePerPerson tour s)%Q
  /\ near (childrenPrice tour s)
          (inject_Z (childrenWithBed s) * childWithBedPrice tour s
           + inject_Z (childrenWithoutBed s) * childWithoutBedPrice tour s)%Q
  /\ (forall c, selectedRoomConfig s = Some c ->
                near (roomPrice s) (priceDifference c))
  /\ (selectedRoomConfig s = None -> roomPrice s = 0)
  /\ near (addonsPrice tour s)
          (fold_left (addonReducer tour s) (selectedAddons s) 0%Q)
  /\ totalPrice tour s
     = basePrice tour s + childrenPrice tour s + roomPrice s
       + addonsPrice tour s
  /\ (forall c,
         pricingTiers tour s = [mkPricingTier 2 25000] ->
         adults s = 2 -> childrenWithBed s = 0 -> childrenWithoutBed s = 0 ->
         selectedRoomConfig s = Some c -> (priceDifference c == 500)%Q ->
         selectedAddons s = [] ->
         basePrice tour s = 50000 /\ childrenPrice tour s = 0
         /\ roomPrice s = 500 /\ addonsPrice tour s = 0
         /\ totalPrice tour s = 50500).
Proof.
  cbv zeta.
  assert (Hnear : forall x, JS.Math_round x = JS.Math_round x
            /\ (x - (1 # 2) < inject_Z (JS.Math_round x)
                /\ inject_Z (JS.Math_round x) <= x + (1 # 2))%Q)
    by (intros x; split; [reflexivity | apply Math_round_bounds]).
  assert (Htotal : totalPrice tour s
     = basePrice tour s + childrenPrice tour s + roomPrice s
       + addonsPrice tour s)
    by (unfold totalPrice; apply Math_round_inject_Z).
  split; [apply Hnear |]. split; [apply Hnear |].
  split; [intros c E; unfold roomPrice; rewrite E; apply Hnear |].
  split; [intros E; unfold roomPrice; now rewrite E |].
  split; [apply Hnear |]. split; [exact Htotal |].
  intros c Et Ha Hb Hw Ec Hp Hs.
  assert (Hbase : basePrice tour s = 50000).
  { unfold basePrice, pricePerPerson, getPriceForPax.
    rewrite Et, Ha. vm_compute. reflexivity. }
  assert (Hchildren : childrenPrice tour s = 0).
  { unfold childrenPrice. rewrite Hb, Hw.
    rewrite (Math_round_comp _ 0%Q); [reflexivity | ring]. }
  assert (Hroom : roomPrice s = 500).
  { unfold roomPrice. rewrite Ec. now rewrite (Math_round_comp _ _ Hp). }
  assert (Haddons : addonsPrice tour s = 0).
  { unfold addonsPrice. rewrite Hs. reflexivity. }
  rewrite Htotal, Hbase, Hchildren, Hroom, Haddons. repeat split.
Qed.

Lemma totalPrice_breakdown_witness :
  totalPrice
    (Examples.tourWith [mkPricingTier 2 25000] 0 14900 9900 [] None)
    (Examples.stateWith "2026-01-10" 2 0 0
       (Some (mkRoomConfig "config-0" 0 1 0 500)) [])
  = 50500.
Proof.
  destruct (totalPrice_breakdown
              (Examples.tourWith [mkPricingTier 2 25000] 0 14900 9900 [] None)
              (Examples.stateWith "2026-01-10" 2 0 0
                 (Some (mkRoomConfig "config-0" 0 1 0 500)) []))
    as (_ & _ & _ & _ & _ & _ & H).
  apply (H (mkRoomConfig "config-0" 0 1 0 500)); reflexivity.
Defined.

(** C7, as stated, fails: a departure whose [childWithBed] is present with
    value 0 does not override the tour's rate of 14900. *)
Lemma departureOverrides_counterexample :
  let d := Examples.departureWith "2026-01-10" 24900 None (Some 0%Q)
                                  None None in
  let tour := Examples.tourWith [] 24900 14900 9900 [] (Some [d]) in
  let s := Examples.stateWith "2026-01-10" 2 1 0 None [] in
  selectedDeparture tour s = Some d
  /\ childrenPrice tour s = 14900
  /\ ~ Spec.departureOverrides tour s.
Proof.
  cbv zeta. split; [reflexivity |]. split; [reflexivity |].
  intros H.
  specialize (H _ eq_refl) as (_ & _ & H & _).
  specialize (H 0%Q eq_refl). vm_compute in H. discriminate H.
Qed.

(** C7, amended.  When the selected date is that of a departure [d] of the
    schedule (the first one with that date), then
    - the departure's [pricingTiers] and [addons] arrays, when present (even
      empty), are used in place of the tour's, and the tour's when absent;
    - the departure's [childWithBed] and [childWithoutBed], when present and
      not 0, are used in place of the tour's, and the tour's when absent or 0;
    - the departure's [pricePerPerson] does not override the tiers: whenever
      the tier array in use (the departure's if present, else the tour's)
      yields a tier with a rate other than 0, the per-person rate and the
      base price are those of that tier, whatever the departure's
      [pricePerPerson] is;
    - only when the tier array in use is empty, or the tier chosen from it
      has rate 0, is the per-person rate the departure's [pricePerPerson],
      provided that is not 0, and otherwise the tour's, or 0. *)
Theorem departure_overrides_when_truthy (tour : Tour) (s : State)
    (d : Departure) (Hd : selectedDeparture tour s = Some d) :
  let tiers := pricingTiers tour s in
  let chosen (t : PricingTier) :=
    JS.Array_find (fun t => tier_pax t =? adults s) tiers = Some t
    \/ (JS.Array_find (fun t => tier_pax t =? adults s) tiers = None
        /\ exists init, tiers = init ++ [t]) in
  let noTierRate :=
    tiers = [] \/ exists t, chosen t /\ (tier_pricePerPerson t == 0)%Q in
  (date d = selectedDate s
   /\ exists departures, departureSchedule tour = Some departures
                         /\ In d departures)
  /\ (forall v, dep_pricingTiers d = Some v -> tiers = v)
  /\ (dep_pricingTiers d = None -> tiers = tour_pricingTiers tour)
  /\ (forall v, dep_addons d = Some v -> availableAddons tour s = v)
  /\ (dep_addons d = None -> availableAddons tour s = tour_addons tour)
  /\ (forall v, dep_childWithBed d = Some v -> ~ (v == 0)%Q ->
                childWithBedPrice tour s = v)
  /\ (dep_childWithBed d = None
      \/ (exists v, dep_childWithBed d = Some v /\ (v == 0)%Q) ->
      childWithBedPrice tour s = tour_childWithBed tour)
  /\ (forall v, dep_childWithoutBed d = Some v -> ~ (v == 0)%Q ->
                childWithoutBedPrice tour s = v)
  /\ (dep_childWithoutBed d = None
      \/ (exists v, dep_childWithoutBed d = Some v /\ (v == 0)%Q) ->
      childWithoutBedPrice tour s = tour_childWithoutBed tour)
  /\ (~ (dep_pricePerPerson d == 0)%Q ->
      flatPricePerPerson tour s = dep_pricePerPerson d)
  /\ ((dep_pricePerPerson d == 0)%Q ->
      (~ (tour_pricePerPerson tour == 0)%Q ->
       flatPricePerPerson tour s = tour_pricePerPerson tour)
      /\ ((tour_pricePerPerson tour == 0)%Q ->
          flatPricePerPerson tour s = 0%Q))
  /\ (forall t, chosen t -> ~ (tier_pricePerPerson t == 0)%Q ->
        pricePerPerson tour s = tier_pricePerPerson t
        /\ basePrice tour s
           = JS.Math_round (inject_Z (adults s) * tier_pricePerPerson t))
  /\ (noTierRate -> ~ (dep_pricePerPerson d == 0)%Q ->
        pricePerPerson tour s = dep_pricePerPerson d
        /\ basePrice tour s
           = JS.Math_round (inject_Z (adults s) * dep_pricePerPerson d))
  /\ (noTierRate -> (dep_pricePerPerson d == 0)%Q ->
        (~ (tour_pricePerPerson tour == 0)%Q ->
         pricePerPerson tour s = tour_pricePerPerson tour)
        /\ ((tour_pricePerPerson tour == 0)%Q ->
            pricePerPerson tour s = 0%Q)).
Proof.
  cbv zeta.
  assert (Hchosen : forall t,
    JS.Array_find (fun t => tier_pax t =? adults s) (pricingTiers tour s)
      = Some t
    \/ (JS.Array_find (fun t => tier_pax t =? adults s) (pricingTiers tour s)
          = None
        /\ exists init, pricingTiers tour s = init ++ [t]) ->
    pricePerPerson tour s
    = JS.or_num (Some (tier_pricePerPerson t)) (flatPricePerPerson tour s)).
  { intros t [H | (H & init & E)]; unfold pricePerPerson.
    - now apply getPriceForPax_match.
    - eapply getPriceForPax_last; eauto. }
  assert (Hflat :
    (pricingTiers tour s = []
     \/ exists t,
          (JS.Array_find (fun t => tier_pax t =? adults s)
                         (pricingTiers tour s) = Some t
           \/ (JS.Array_find (fun t => tier_pax t =? adults s)
                              (pricingTiers tour s) = None
               /\ exists init, pricingTiers tour s = init ++ [t]))
          /\ (tier_pricePerPerson t == 0)%Q) ->
    pricePerPerson tour s = flatPricePerPerson tour s).
  { intros [E | (t & Ht & Hz)].
    - unfold pricePerPerson. now apply getPriceForPax_empty.
    - rewrite (Hchosen t Ht). now apply or_num_zero. }
  split.
  { unfold selectedDeparture, getSelectedDeparture in Hd.
    destruct (negb (JS.truthy_str (selectedDate s))); [discriminate |].
    destruct (departureSchedule tour) as [departures |]; [| discriminate].
    unfold JS.Array_find in Hd. apply find_some in Hd as [Hin Heq].
    apply String.eqb_eq in Heq. split; [exact Heq |].
    exists departures. now split. }
  split; [intros v E; unfold pricingTiers; now rewrite Hd, E |].
  split; [intros E; unfold pricingTiers; now rewrite Hd, E |].
  split; [intros v E; unfold availableAddons; now rewrite Hd, E |].
  split; [intros E; unfold availableAddons; now rewrite Hd, E |].
  split; [intros v E Hnz; unfold childWithBedPrice; rewrite Hd, E;
          now apply or_num_nonzero |].
  split; [intros [E | (v & E & Hz)]; unfold childWithBedPrice; rewrite Hd, E;
          [reflexivity | now apply or_num_zero] |].
  split; [intros v E Hnz; unfold childWithoutBedPrice; rewrite Hd, E;
          now apply or_num_nonzero |].
  split; [intros [E | (v & E & Hz)]; unfold childWithoutBedPrice;
          rewrite Hd, E; [reflexivity | now apply or_num_zero] |].
  split; [now apply flatPricePerPerson_departure |].
  split.
  { intros Hz. rewrite (flatPricePerPerson_tour tour s) by (right; eauto).
    split; intros H0; [now apply or_num_nonzero | now apply or_num_zero]. }
  split.
  { intros t Ht Hnz.
    assert (E : pricePerPerson tour s = tier_pricePerPerson t).
    { rewrite (Hchosen t Ht). now apply or_num_nonzero. }
    split; [exact E |]. unfold basePrice. now rewrite E. }
  split.
  { intros Hno Hnz.
    assert (E : pricePerPerson tour s = dep_pricePerPerson d).
    { rewrite (Hflat Hno). now apply flatPricePerPerson_departure. }
    split; [exact E |]. unfold basePrice. now rewrite E. }
  intros Hno Hz. rewrite (Hflat Hno).
  rewrite (flatPricePerPerson_tour tour s) by (right; eauto).
  split; intros H0; [now apply or_num_nonzero | now apply or_num_zero].
Qed.

Lemma departure_overrides_when_truthy_witness :
  let d := Examples.departureWith "2026-01-10" 21900 None
                                  (Some 12500%Q) None None in
  let tour := Examples.tourWith [mkPricingTier 2 25000] 24900 14900 9900 []
                                (Some [d]) in
  let s := Examples.stateWith "2026-01-10" 2 1 0 None [] in
  childWithBedPrice tour s = 12500%Q
  /\ basePrice tour s = 50000.
Proof.
  cbv zeta.
  destruct (departure_overrides_when_truthy
              (Examples.tourWith [mkPricingTier 2 25000] 24900 14900 9900 []
                 (Some [Examples.departureWith "2026-01-10" 21900 None
                                               (Some 12500%Q) None None]))
              (Examples.stateWith "2026-01-10" 2 1 0 None [])
              (Examples.departureWith "2026-01-10" 21900 None
                                      (Some 12500%Q) None None)
              eq_refl)
    as (_ & _ & _ & _ & _ & Hchild & _ & _ & _ & _ & _ & Htier & _).
  split.
  - apply Hchild; [reflexivity | discriminate].
  - destruct (Htier (mkPricingTier 2 25000)) as [_ Hbase].
    + left. reflexivity.
    + discriminate.
    + rewrite Hbase. reflexivity.
Defined.

(** ** Invariants of the transition system *)

Section Invariants.

Variable tour : Tour.

(** [handleBooking] either reports an error or forwards a payload; in both
    cases it only writes [error] and [isProcessing]. *)
Lemma handleBooking_cases s :
  (exists msg, handleBooking tour s = (setError msg s, None))
  \/ (exists bd, handleBooking tour s
                 = (setIsProcessing true (setError "" s), Some bd)).
Proof.
  unfold handleBooking.
  repeat match goal with
         | |- context [if ?b then _ else _] =>
             destruct b; [left; eexists; reflexivity |]
         end.
  right. eexists. reflexivity.
Qed.

Lemma effect_noop prev next :
  sameParty prev next -> RoomConfiguration_effect prev next = next.
Proof.
  intros (Hd & Ha & Hb). unfold RoomConfiguration_effect, roomPanelShown,
    totalPaxForRooms.
  rewrite Hd, Ha, Hb, Z.eqb_refl. simpl.
  now destruct (JS.truthy_str (selectedDate prev) && (0 <? adults prev)).
Qed.

Lemma handleBooking_frame s :
  let s' := fst (handleBooking tour s) in
  sameParty s s'
  /\ childrenWithoutBed s' = childrenWithoutBed s
  /\ selectedRoomConfig s' = selectedRoomConfig s
  /\ selectedAddons s' = selectedAddons s
  /\ configurations s' = configurations s.
Proof.
  cbv zeta. unfold sameParty.
  destruct (handleBooking_cases s) as [(msg & E) | (bd & E)];
    rewrite E; simpl; tauto.
Qed.

Lemma handler_configurations e s :
  configurations (handler tour e s) = configurations s.
Proof.
  destruct e; try reflexivity. simpl. apply handleBooking_frame.
Qed.

Lemma handler_passenger_resets e s :
  isPassengerEvent e = true -> selectedRoomConfig (handler tour e s) = None.
Proof. destruct e; simpl; intros H; first [reflexivity | discriminate]. Qed.

Lemma effect_selection_None prev next :
  selectedRoomConfig next = None ->
  selectedRoomConfig (RoomConfiguration_effect prev next) = None.
Proof.
  intros H. unfold RoomConfiguration_effect.
  now destruct (roomPanelShown next && _).
Qed.

Lemma step_passenger_resets e s :
  isPassengerEvent e = true -> selectedRoomConfig (step tour s e) = None.
Proof.
  intros H. unfold step. now apply effect_selection_None,
    handler_passenger_resets.
Qed.

Lemma effect_selectionFits prev next :
  selectionFits next -> selectionFits (RoomConfiguration_effect prev next).
Proof.
  intros H. unfold RoomConfiguration_effect.
  destruct (roomPanelShown next && _); [| exact H].
  intros c Hc. discriminate Hc.
Qed.

Lemma effect_panelCurrent prev next :
  panelCurrent prev -> configurations next = configurations prev ->
  panelCurrent (RoomConfiguration_effect prev next).
Proof.
  intros Hprev Hconf. unfold RoomConfiguration_effect.
  destruct (roomPanelShown next) eqn:Hn; simpl.
  - destruct (roomPanelShown prev) eqn:Hp; simpl.
    + destruct (Z.eqb_spec (totalPaxForRooms prev) (totalPaxForRooms next))
        as [E | E]; simpl.
      * intros _. rewrite Hconf, <- E. now apply Hprev.
      * intros _. reflexivity.
    + intros _. reflexivity.
  - intros H. congruence.
Qed.

Lemma handler_selectionFits e s :
  selectionFits s -> panelCurrent s -> enabled tour s e ->
  selectionFits (handler tour e s).
Proof.
  intros Hfit Hcur Hen.
  destruct e; try exact Hfit;
    try (intros c Hc; discriminate Hc).
  - (* a room card *)
    destruct Hen as [Hshown Hin]. intros c Hc. simpl in Hc.
    injection Hc as <-. unfold totalPaxForRooms. simpl.
    rewrite (Hcur Hshown) in Hin. exact Hin.
  - (* the booking button *)
    simpl. destruct (handleBooking_frame s) as ((_ & Ha & Hb) & _ & Hsel & _).
    intros c Hc. unfold totalPaxForRooms. rewrite Ha, Hb.
    apply Hfit. now rewrite <- Hsel.
Qed.

Lemma toggle_NoDup addonId (l : list string) :
  NoDup l ->
  NoDup (if existsb (String.eqb addonId) l
         then filter (fun id => negb (String.eqb id addonId)) l
         else l ++ [addonId]).
Proof.
  intros Hl. destruct (existsb (String.eqb addonId) l) eqn:E.
  - now apply NoDup_filter.
  - apply NoDup_app; [exact Hl | repeat constructor; simpl; tauto |].
    intros x Hx [<- | []].
    assert (existsb (String.eqb addonId) l = true); [| congruence].
    apply existsb_exists. exists addonId.
    split; [exact Hx | apply String.eqb_refl].
Qed.

Lemma effect_selectedAddons prev next :
  selectedAddons (RoomConfiguration_effect prev next) = selectedAddons next.
Proof.
  unfold RoomConfiguration_effect.
  now destruct (roomPanelShown next && _).
Qed.

Lemma handler_NoDup e s :
  NoDup (selectedAddons s) -> NoDup (selectedAddons (handler tour e s)).
Proof.
  intros H. destruct e; try exact H.
  - simpl. now apply toggle_NoDup.
  - simpl. destruct (handleBooking_frame s) as (_ & _ & _ & E & _).
    now rewrite E.
Qed.

Theorem reachable_invariant s :
  reachable tour s ->
  selectionFits s /\ panelCurrent s /\ NoDup (selectedAddons s).
Proof.
  induction 1 as [| s e Hs (Hfit & Hcur & Hnd) Hen].
  - repeat split.
    + intros c Hc. discriminate Hc.
    + intros H. discriminate H.
    + constructor.
  - unfold step. repeat split.
    + now apply effect_selectionFits, handler_selectionFits.
    + apply effect_panelCurrent; [exact Hcur | apply handler_configurations].
    + rewrite effect_selectedAddons. now apply handler_NoDup.
Qed.

End Invariants.

(** ** Add-ons *)

Section Addons.

Lemma or_num_Some_0 (q : Q) : (JS.or_num (Some q) 0 == q)%Q.
Proof.
  unfold JS.or_num. destruct (Qeq_bool q 0) eqn:E; [| reflexivity].
  apply Qeq_bool_iff in E. now rewrite E.
Qed.

Lemma priceIn_unknown (available : list Addon) (addonId : string) :
  (forall a, In a available -> addon_id a <> addonId) ->
  priceIn available addonId = 0%Q.
Proof.
  intros H. unfold priceIn, JS.Array_find.
  destruct (find _ available) as [a |] eqn:E; [| reflexivity].
  apply find_some in E as [Hin Heq]. apply String.eqb_eq in Heq.
  now apply H in Hin.
Qed.

Lemma priceIn_cons_eq (a : Addon) (r : list Addon) :
  (priceIn (a :: r) (addon_id a) == price a)%Q.
Proof.
  unfold priceIn, JS.Array_find. simpl. rewrite String.eqb_refl. simpl.
  apply or_num_Some_0.
Qed.

Lemma priceIn_cons_neq (a : Addon) (r : list Addon) (addonId : string) :
  addon_id a <> addonId -> priceIn (a :: r) addonId = priceIn r addonId.
Proof.
  intros H. unfold priceIn, JS.Array_find. simpl.
  apply String.eqb_neq in H. now rewrite H.
Qed.

Lemma sumOver_cons (f : string -> Q) (x : string) (l : list string) :
  sumOver f (x :: l) = (f x + sumOver f l)%Q.
Proof. reflexivity. Qed.

Lemma sumOver_app (f : string -> Q) (l1 l2 : list string) :
  (sumOver f (l1 ++ l2) == sumOver f l1 + sumOver f l2)%Q.
Proof.
  induction l1 as [| x l1 IH].
  - unfold sumOver. simpl. ring.
  - rewrite <- app_comm_cons, !sumOver_cons, IH. ring.
Qed.

Lemma fold_addonReducer tour s (l : list string) : forall acc,
  (fold_left (addonReducer tour s) l acc
   == acc + sumOver (addonPriceOrZero tour s) l)%Q.
Proof.
  induction l as [| x l IH]; intros acc.
  - unfold sumOver. simpl. ring.
  - rewrite sumOver_cons. simpl. rewrite IH. unfold addonReducer. ring.
Qed.

(** One more entry [a] in front of the array adds its price once if its
    id is selected. *)
Lemma sumOver_cons_addon (a : Addon) (r : list Addon)
    (selected : list string) :
  NoDup selected ->
  priceIn r (addon_id a) = 0%Q ->
  (sumOver (priceIn (a :: r)) selected
   == (if existsb (String.eqb (addon_id a)) selected then price a else 0)
      + sumOver (priceIn r) selected)%Q.
Proof.
  intros Hnd Hz. induction selected as [| x l IH].
  - unfold sumOver. simpl. ring.
  - inversion Hnd as [| ? ? Hx Hl]; subst. specialize (IH Hl).
    rewrite !sumOver_cons. cbn [existsb].
    destruct (String.eqb_spec (addon_id a) x) as [E | E]; cbn [orb].
    + subst x.
      assert (Hex : existsb (String.eqb (addon_id a)) l = false).
      { destruct (existsb (String.eqb (addon_id a)) l) eqn:Ex;
          [| reflexivity].
        apply existsb_exists in Ex as (y & Hy & Ey).
        apply String.eqb_eq in Ey. now subst y. }
      rewrite Hex in IH. rewrite IH, Hz, priceIn_cons_eq. ring.
    + rewrite IH, (priceIn_cons_neq a r x E). ring.
Qed.

Lemma sumOver_addonsSum (available : list Addon) (selected : list string) :
  NoDup (map addon_id available) -> NoDup selected ->
  (sumOver (priceIn available) selected
   == Spec.addonsSum available selected)%Q.
Proof.
  intros Ha Hs. induction available as [| a r IH].
  - unfold Spec.addonsSum. cbn [filter map fold_right]. clear Hs.
    induction selected as [| x l IHl]; [reflexivity |].
    rewrite sumOver_cons, IHl. unfold priceIn. simpl. ring.
  - inversion Ha as [| ? ? Hnotin Hr]; subst.
    rewrite sumOver_cons_addon; [| exact Hs |].
    + rewrite (IH Hr). unfold Spec.addonsSum. cbn [filter].
      destruct (existsb (String.eqb (addon_id a)) selected);
        cbn [map fold_right]; ring.
    + apply priceIn_unknown. intros b Hb E. apply Hnotin.
      rewrite <- E. now apply in_map.
Qed.

Lemma addonsSum_integral (available : list Addon) (selected : list string) :
  (forall a, In a available -> exists z, (price a == inject_Z z)%Q) ->
  exists z, (Spec.addonsSum available selected == inject_Z z)%Q.
Proof.
  unfold Spec.addonsSum. induction available as [| a r IH]; intros H.
  - exists 0. reflexivity.
  - destruct IH as (z & Hz); [intros b Hb; apply H; now right |].
    cbn [filter].
    destruct (existsb (String.eqb (addon_id a)) selected).
    + destruct (H a (or_introl eq_refl)) as (p & Hp).
      exists (p + z). cbn [map fold_right].
      rewrite Hz, Hp, inject_Z_plus. reflexivity.
    + now exists z.
Qed.

Lemma addonsPrice_sumOver tour s :
  addonsPrice tour s
  = JS.Math_round (sumOver (addonPriceOrZero tour s) (selectedAddons s)).
Proof.
  unfold addonsPrice. apply Math_round_comp.
  rewrite fold_addonReducer. ring.
Qed.

End Addons.

(** C8, as stated, fails on two inputs.  When two entries of
    [availableAddons] carry the selected id, only the first is counted: 100,
    not 150.  When the selected prices sum to 99.5, [addonsPrice] is the
    rounded 100. *)
Lemma addonsPrice_counterexample :
  (let tour := Examples.tourWith [] 0 0 0
                 [mkAddon "a1" "Rafting" 100 None;
                  mkAddon "a1" "Rafting at dusk" 50 None] None in
   let s := Examples.stateWith "" 2 0 0 None ["a1"%string] in
   addonsPrice tour s = 100
   /\ ~ (inject_Z (addonsPrice tour s)
         == Spec.addonsSum (availableAddons tour s) (selectedAddons s))%Q)
  /\ (let tour := Examples.tourWith [] 0 0 0
                    [mkAddon "a1" "Rafting" (199 # 2) None] None in
      let s := Examples.stateWith "" 2 0 0 None ["a1"%string] in
      addonsPrice tour s = 100
      /\ ~ (inject_Z (addonsPrice tour s)
            == Spec.addonsSum (availableAddons tour s) (selectedAddons s))%Q).
Proof.
  split; cbv zeta;
    (split; [vm_compute; reflexivity | vm_compute; discriminate]).
Qed.

(** C8, amended.  [addonsPrice] is the sum, rounded to the nearest integer,
    over the selected ids, of the price of the first entry of
    [availableAddons] with that id.  A selected id that matches no entry
    contributes 0, wherever it stands among the selected ids, and nothing
    fails.  In a reachable state, when the ids of [availableAddons] are
    pairwise distinct, this is the rounded sum of the prices of every entry
    of [availableAddons] whose id is selected, and the sum itself when the
    prices are integers. *)
Theorem addonsPrice_sum_of_selected (tour : Tour) (s : State) :
  addonsPrice tour s
  = JS.Math_round (fold_right Qplus 0%Q
                     (map (addonPriceOrZero tour s) (selectedAddons s)))
  /\ (forall addonId a,
         JS.Array_find (fun a => String.eqb (addon_id a) addonId)
                       (availableAddons tour s) = Some a ->
         (addonPriceOrZero tour s addonId == price a)%Q)
  /\ (forall addonId,
         (forall a, In a (availableAddons tour s) -> addon_id a <> addonId) ->
         addonPriceOrZero tour s addonId = 0%Q
         /\ forall l1 l2,
              addonsPrice tour (setSelectedAddons (l1 ++ addonId :: l2) s)
              = addonsPrice tour (setSelectedAddons (l1 ++ l2) s))
  /\ (reachable tour s ->
      NoDup (map addon_id (availableAddons tour s)) ->
      addonsPrice tour s
      = JS.Math_round
          (Spec.addonsSum (availableAddons tour s) (selectedAddons s))
      /\ ((forall a, In a (availableAddons tour s) ->
                     exists z, (price a == inject_Z z)%Q) ->
          (inject_Z (addonsPrice tour s)
           == Spec.addonsSum (availableAddons tour s) (selectedAddons s))%Q)).
Proof.
  split; [apply addonsPrice_sumOver |].
  split.
  { intros addonId a E. unfold addonPriceOrZero. cbv zeta. rewrite E.
    apply or_num_Some_0. }
  split.
  { intros addonId H.
    assert (Hz : addonPriceOrZero tour s addonId = 0%Q)
      by (apply priceIn_unknown; exact H).
    split; [exact Hz |].
    intros l1 l2. rewrite !addonsPrice_sumOver. apply Math_round_comp.
    change (selectedAddons (setSelectedAddons (l1 ++ addonId :: l2) s))
      with (l1 ++ addonId :: l2).
    change (selectedAddons (setSelectedAddons (l1 ++ l2) s)) with (l1 ++ l2).
    change (addonPriceOrZero tour (setSelectedAddons (l1 ++ addonId :: l2) s))
      with (addonPriceOrZero tour s).
    change (addonPriceOrZero tour (setSelectedAddons (l1 ++ l2) s))
      with (addonPriceOrZero tour s).
    rewrite !sumOver_app, sumOver_cons, Hz. ring. }
  intros Hs Hids.
  destruct (reachable_invariant tour s Hs) as (_ & _ & Hnd).
  assert (Hsum : addonsPrice tour s
     = JS.Math_round
         (Spec.addonsSum (availableAddons tour s) (selectedAddons s))).
  { rewrite addonsPrice_sumOver. apply Math_round_comp.
    apply (sumOver_addonsSum _ _ Hids Hnd). }
  split; [exact Hsum |].
  intros Hint.
  destruct (addonsSum_integral _ (selectedAddons s) Hint) as (z & Hz).
  rewrite Hsum, (Math_round_comp _ _ Hz), Math_round_inject_Z.
  now rewrite Hz.
Qed.

Lemma addonsPrice_sum_of_selected_witness :
  addonPriceOrZero
    (Examples.tourWith [] 0 0 0 [mkAddon "a1" "Rafting" 100 None] None)
    (Examples.stateWith "" 2 0 0 None ["a9"%string; "a1"%string])
    "a9"
  = 0%Q.
Proof.
  destruct (addonsPrice_sum_of_selected
              (Examples.tourWith [] 0 0 0 [mkAddon "a1" "Rafting" 100 None]
                                 None)
              (Examples.stateWith "" 2 0 0 None ["a9"%string; "a1"%string]))
    as (_ & _ & H & _).
  apply (H "a9"%string).
  intros a [<- | []]. discriminate.
Defined.

(** ** Booking *)

Lemma truthy_str_iff (x : string) : JS.truthy_str x = true <-> x <> ""%string.
Proof. destruct x; simpl; split; congruence. Qed.

Lemma truthy_str_false (x : string) : JS.truthy_str x = false <-> x = ""%string.
Proof. destruct x; simpl; split; congruence. Qed.

Lemma reachable_afterRoomChoice :
  reachable Examples.plainTour Examples.afterRoomChoice.
Proof.
  unfold Examples.afterRoomChoice.
  apply reachable_step; [apply reachable_step; [apply reachable_init |] |].
  - split; [simpl; tauto | reflexivity].
  - split; [reflexivity | vm_compute; tauto].
Qed.

Lemma reachable_afterContact :
  reachable Examples.plainTour Examples.afterContact.
Proof.
  unfold Examples.afterContact.
  repeat (apply reachable_step; [| exact I]).
  apply reachable_afterRoomChoice.
Qed.

(** C9.  In every state the widget can reach, [handleBooking] forwards a
    booking request if and only if a departure date is selected, a room
    configuration is selected whenever [adults > 0] and it provides exactly
    [adults + childrenWithBed] beds, the total head count lies within
    [[minTravelers, maxTravelers]], and name, email and phone are not empty.
    Otherwise it sets a non-empty validation message, forwards nothing and
    leaves the rest of the state as it was. *)
Theorem handleBooking_forwards_iff_valid (tour : Tour) (s : State)
    (Hs : reachable tour s) :
  ((exists bd, snd (handleBooking tour s) = Some bd)
   <-> Spec.validBooking tour s)
  /\ (~ Spec.validBooking tour s ->
      exists msg, msg <> ""%string
                  /\ handleBooking tour s = (setError msg s, None)).
Proof.
  destruct (reachable_invariant tour s Hs) as (Hfit & _ & _).
  assert (Hbeds : forall c, selectedRoomConfig s = Some c ->
            single c + 2 * double c + 2 * twin c
            = adults s + childrenWithBed s).
  { intros c Hc. apply Hfit, generated_beds in Hc.
    unfold beds, totalPaxForRooms in Hc. tauto. }
  unfold Spec.validBooking, handleBooking, totalTravelers.
  destruct (JS.truthy_str (selectedDate s)) eqn:Hdate; cbn [negb].
  2:{ apply truthy_str_false in Hdate. split.
      - split; [intros (bd & H); discriminate H | tauto].
      - intros _. eexists. split; [| reflexivity]. discriminate. }
  apply truthy_str_iff in Hdate.
  destruct (isNull (selectedRoomConfig s) && (0 <? adults s)) eqn:Hroom.
  { apply andb_true_iff in Hroom as [Hnull Hpos]. apply Z.ltb_lt in Hpos.
    assert (Hnone : selectedRoomConfig s = None)
      by (destruct (selectedRoomConfig s); [discriminate | reflexivity]).
    split.
    - split; [intros (bd & H); discriminate H |].
      intros (_ & H & _). destruct (H Hpos) as (c & Hc & _). congruence.
    - intros _. eexists. split; [| reflexivity]. discriminate. }
  assert (Hsel : 0 < adults s ->
            exists c, selectedRoomConfig s = Some c
                      /\ single c + 2 * double c + 2 * twin c
                         = adults s + childrenWithBed s).
  { intros Hpos. apply Z.ltb_lt in Hpos. rewrite Hpos, andb_true_r in Hroom.
    destruct (selectedRoomConfig s) as [c |] eqn:Hc; [| discriminate].
    exists c. split; [reflexivity | now apply Hbeds]. }
  destruct (Z.ltb_spec (adults s + childrenWithBed s + childrenWithoutBed s)
                       (minTravelers tour)) as [Hmin | Hmin].
  { split.
    - split; [intros (bd & H); discriminate H | intros (_ & _ & H & _); lia].
    - intros _. eexists. split; [| reflexivity]. discriminate. }
  destruct (Z.ltb_spec (maxTravelers tour)
                       (adults s + childrenWithBed s + childrenWithoutBed s))
    as [Hmax | Hmax].
  { split.
    - split; [intros (bd & H); discriminate H | intros (_ & _ & H & _); lia].
    - intros _. eexists. split; [| reflexivity]. discriminate. }
  destruct (JS.truthy_str (customerName s)) eqn:Hname; cbn [negb orb].
  2:{ apply truthy_str_false in Hname. split.
      - split; [intros (bd & H); discriminate H | tauto].
      - intros _. eexists. split; [| reflexivity]. discriminate. }
  destruct (JS.truthy_str (customerEmail s)) eqn:Hemail; cbn [negb orb].
  2:{ apply truthy_str_false in Hemail. split.
      - split; [intros (bd & H); discriminate H | tauto].
      - intros _. eexists. split; [| reflexivity]. discriminate. }
  destruct (JS.truthy_str (customerPhone s)) eqn:Hphone; cbn [negb orb].
  2:{ apply truthy_str_false in Hphone. split.
      - split; [intros (bd & H); discriminate H | tauto].
      - intros _. eexists. split; [| reflexivity]. discriminate. }
  apply truthy_str_iff in Hname, Hemail, Hphone.
  assert (Hvalid : selectedDate s <> ""%string
    /\ (0 < adults s ->
        exists c, selectedRoomConfig s = Some c
                  /\ single c + 2 * double c + 2 * twin c
                     = adults s + childrenWithBed s)
    /\ minTravelers tour
       <= adults s + childrenWithBed s + childrenWithoutBed s
       <= maxTravelers tour
    /\ customerName s <> ""%string
    /\ customerEmail s <> ""%string
    /\ customerPhone s <> ""%string)
    by (repeat split; auto).
  split.
  - split; [intros _; exact Hvalid | intros _; eexists; reflexivity].
  - intros H. contradiction.
Qed.

Lemma handleBooking_forwards_iff_valid_witness :
  Spec.validBooking Examples.plainTour Examples.afterContact.
Proof.
  apply (handleBooking_forwards_iff_valid
           Examples.plainTour Examples.afterContact reachable_afterContact).
  eexists. vm_compute. reflexivity.
Defined.

(** ** Resetting the room selection *)

(** C10, as stated, fails for a change of date: after picking 10 January,
    choosing the double room and then picking 14 February, the double room
    is still selected. *)
Lemma resetsSelection_counterexample :
  reachable Examples.plainTour Examples.afterRoomChoice
  /\ enabled Examples.plainTour Examples.afterRoomChoice
             (ClickDate "2026-02-14")
  /\ selectedDate Examples.afterRoomChoice = "2026-01-10"%string
  /\ selectedRoomConfig
       (step Examples.plainTour Examples.afterRoomChoice
             (ClickDate "2026-02-14"))
     = Some Examples.doubleRoom
  /\ ~ Spec.resetsSelection Examples.plainTour.
Proof.
  split; [apply reachable_afterRoomChoice |].
  split; [split; [simpl; tauto | reflexivity] |].
  split; [reflexivity |].
  split; [reflexivity |].
  intros H.
  specialize (H Examples.afterRoomChoice (ClickDate "2026-02-14")).
  assert (E : selectedRoomConfig
                (step Examples.plainTour Examples.afterRoomChoice
                      (ClickDate "2026-02-14")) = None).
  { apply H. right. exists "2026-02-14"%string.
    split; [reflexivity | discriminate]. }
  discriminate E.
Qed.

(** C10, amended.  After any event whose handler sets a passenger count
    (adults, children with bed or children without bed) the selected room
    configuration is "no selection".  Picking a date while the room panel is
    already shown leaves the selection as it is; picking the first date,
    which mounts the panel, clears it.  In every reachable state a selected
    configuration is one of those generated for the current
    [adults + childrenWithBed], so it provides exactly that many beds: no
    configuration of another party size stays selected. *)
Theorem passenger_change_resets_selection (tour : Tour) :
  (forall s e, isPassengerEvent e = true ->
               selectedRoomConfig (step tour s e) = None)
  /\ (forall s dateStr,
         roomPanelShown s = true -> dateStr <> ""%string ->
         selectedRoomConfig (step tour s (ClickDate dateStr))
         = selectedRoomConfig s)
  /\ (forall s dateStr,
         roomPanelShown s = false -> dateStr <> ""%string -> 0 < adults s ->
         selectedRoomConfig (step tour s (ClickDate dateStr)) = None)
  /\ (forall s, reachable tour s ->
        forall c, selectedRoomConfig s = Some c ->
          In c (generateRoomConfigurations (adults s + childrenWithBed s))
          /\ single c + 2 * double c + 2 * twin c
             = adults s + childrenWithBed s).
Proof.
  split; [intros s e; apply step_passenger_resets |].
  split.
  { intros s dateStr Hshown Hd. unfold step, RoomConfiguration_effect.
    rewrite Hshown. cbn [negb orb].
    change (totalPaxForRooms (handler tour (ClickDate dateStr) s))
      with (totalPaxForRooms s).
    rewrite Z.eqb_refl. cbn [negb]. rewrite andb_false_r. reflexivity. }
  split.
  { intros s dateStr Hshown Hd Ha. unfold step, RoomConfiguration_effect.
    rewrite Hshown. cbn [negb orb]. rewrite andb_true_r.
    assert (E : roomPanelShown (handler tour (ClickDate dateStr) s) = true).
    { unfold roomPanelShown. cbn [handler].
      change (selectedDate (setSelectedDate dateStr s)) with dateStr.
      change (adults (setSelectedDate dateStr s)) with (adults s).
      apply andb_true_iff. split; [now apply truthy_str_iff |].
      now apply Z.ltb_lt. }
    rewrite E. reflexivity. }
  intros s Hs c Hc.
  destruct (reachable_invariant tour s Hs) as (Hfit & _ & _).
  specialize (Hfit c Hc). split; [exact Hfit |].
  apply generated_beds in Hfit. unfold beds, totalPaxForRooms in Hfit. tauto.
Qed.

Lemma passenger_change_resets_selection_witness :
  In Examples.doubleRoom (generateRoomConfigurations (2 + 0))
  /\ selectedRoomConfig
       (step Examples.plainTour Examples.afterRoomChoice ClickAdultsPlus)
     = None.
Proof.
  destruct (passenger_change_resets_selection Examples.plainTour)
    as (Hreset & _ & _ & Hfit).
  split.
  - apply (Hfit Examples.afterRoomChoice reachable_afterRoomChoice
                Examples.doubleRoom).
    reflexivity.
  - apply (Hreset Examples.afterRoomChoice ClickAdultsPlus). reflexivity.
Defined.

(** * Further properties of the code *)

(** ** The order of the generated configurations *)

Section LoopOrder.

Lemma StronglySorted_app {A : Type} (R : A -> A -> Prop) (l1 l2 : list A) :
  StronglySorted R l1 -> StronglySorted R l2 ->
  (forall x y, In x l1 -> In y l2 -> R x y) ->
  StronglySorted R (l1 ++ l2).
Proof.
  induction 1 as [| a l1 Hl1 IH Ha]; intros Hl2 Hcross; simpl.
  - exact Hl2.
  - constructor.
    + apply IH; [exact Hl2 |]. intros x y Hx. apply Hcross. now right.
    + apply Forall_app. split; [exact Ha |].
      apply Forall_forall. intros y Hy. apply Hcross; [now left | exact Hy].
Qed.

Lemma StronglySorted_in_impl {A : Type} (R R' : A -> A -> Prop) (l : list A) :
  (forall x y, In x l -> In y l -> R x y -> R' x y) ->
  StronglySorted R l -> StronglySorted R' l.
Proof.
  intros Himp H. induction H as [| a l Hl IH Ha].
  - constructor.
  - constructor.
    + apply IH. intros x y Hx Hy. apply Himp; now right.
    + rewrite Forall_forall in *. intros y Hy.
      apply Himp; [now left | now right | now apply Ha].
Qed.

(** Blocks produced for increasing loop values, each block tagged by its
    loop value, are ordered by the tag. *)
Lemma flat_map_sorted_by_tag {B : Type} (tag : B -> Z) (f : Z -> list B)
    (l : list Z) :
  StronglySorted Z.le l ->
  (forall a x, In x (f a) -> tag x = a) ->
  StronglySorted (fun x y => tag x <= tag y) (flat_map f l).
Proof.
  intros Hl Htag. induction Hl as [| a l Hl IH Ha]; simpl.
  - constructor.
  - apply StronglySorted_app; [| exact IH |].
    + assert (Hall : Forall (fun x => tag x = a) (f a))
        by (apply Forall_forall; intros x Hx; now apply Htag).
      induction Hall as [| x r Hx Hr IHr]; constructor; [exact IHr |].
      rewrite Forall_forall in *. intros y Hy. rewrite Hx, (Hr y Hy). lia.
    + intros x y Hx Hy. apply in_flat_map in Hy as (b & Hb & Hy).
      rewrite (Htag _ _ Hx), (Htag _ _ Hy).
      rewrite Forall_forall in Ha. now apply Ha.
Qed.

Lemma upto_sorted (hi : Z) : StronglySorted Z.le (JS.upto hi).
Proof.
  unfold JS.upto. generalize (Z.to_nat (hi + 1)) as n. generalize 0%nat as k.
  intros k n. revert k. induction n as [| n IH]; intros k; simpl.
  - constructor.
  - constructor; [apply IH |].
    apply Forall_forall. intros y Hy. apply in_map_iff in Hy as (m & <- & Hm).
    apply in_seq in Hm. lia.
Qed.

Lemma validTriples_sorted_by_single (pax : Z) :
  StronglySorted (fun x y => fst (fst x) <= fst (fst y)) (validTriples pax).
Proof.
  unfold validTriples. apply flat_map_sorted_by_tag; [apply upto_sorted |].
  intros single x Hx.
  apply in_flat_map in Hx as (double & _ & Hx).
  apply in_flat_map in Hx as (twin & _ & Hx).
  destruct (isValid pax single double twin); [| destruct Hx].
  destruct Hx as [<- | []]. reflexivity.
Qed.

Lemma validTriples_sorted_by_count (pax : Z) :
  StronglySorted
    (fun x y => fst (fst x) + snd (fst x) + snd x
                <= fst (fst y) + snd (fst y) + snd y)
    (validTriples pax).
Proof.
  eapply StronglySorted_in_impl; [| apply validTriples_sorted_by_single].
  intros [[s d] t] [[s' d'] t'] Hx Hy. simpl.
  apply in_validTriples in Hx, Hy. lia.
Qed.

Lemma numberFrom_in (l : list (Z * Z * Z)) : forall n c,
  In c (numberFrom n l) ->
  In (rooms c) l /\ priceDifference c = inject_Z (roomCount c * 500).
Proof.
  induction l as [| [[s d] t] l IH]; intros n c; simpl.
  - tauto.
  - intros [<- | Hc]; [split; [now left | reflexivity] |].
    destruct (IH _ _ Hc). split; [now right | assumption].
Qed.

Lemma numberFrom_sorted (l : list (Z * Z * Z)) :
  StronglySorted
    (fun x y => fst (fst x) + snd (fst x) + snd x
                <= fst (fst y) + snd (fst y) + snd y) l ->
  forall n, StronglySorted (JS.leBy priceDifference) (numberFrom n l).
Proof.
  induction 1 as [| [[s d] t] l Hl IH Ha]; intros n; simpl.
  - constructor.
  - constructor; [apply IH |].
    apply Forall_forall. intros c Hc. apply numberFrom_in in Hc as [Hin Hp].
    rewrite Forall_forall in Ha. specialize (Ha _ Hin).
    unfold JS.leBy, rooms, roomCount in *. simpl in *. rewrite Hp.
    rewrite <- Zle_Qle. lia.
Qed.

(** Sorting an array that is already in order changes nothing. *)
Lemma Array_sort_sorted_id {A : Type} (compare : A -> A -> Q) (key : A -> Q)
    (l : list A) :
  (forall a b, (compare a b == key a - key b)%Q) ->
  StronglySorted (JS.leBy key) l -> JS.Array_sort compare l = l.
Proof.
  intros Hkey. induction 1 as [| x l Hl IH Hx]; simpl.
  - reflexivity.
  - rewrite IH. destruct l as [| y r]; [reflexivity |]. simpl.
    inversion Hx as [| ? ? Hxy _]; subst.
    apply (compare_le compare key Hkey) in Hxy. now rewrite Hxy.
Qed.

Lemma numberFrom_ids (l : list (Z * Z * Z)) : forall n,
  map id (numberFrom (Z.of_nat n) l)
  = map (fun k => ("config-" ++ JS.toString (Z.of_nat k))%string)
        (seq n (List.length l)).
Proof.
  induction l as [| [[s d] t] l IH]; intros n; simpl.
  - reflexivity.
  - f_equal. rewrite <- IH. do 2 f_equal. lia.
Qed.

End LoopOrder.

Lemma generateRoomConfigurations_sorted_id (pax : Z) :
  generateRoomConfigurations pax = numberFrom 0 (validTriples pax).
Proof.
  unfold generateRoomConfigurations. cbv zeta.
  rewrite enumerateConfigs_validTriples.
  apply Array_sort_sorted_id with (key := priceDifference).
  - intros a b. reflexivity.
  - apply numberFrom_sorted, validTriples_sorted_by_count.
Qed.

Lemma generateRoomConfigurations_loop_order_aux (pax : Z) :
  exists n,
    map id (generateRoomConfigurations pax)
    = map (fun k => ("config-" ++ JS.toString (Z.of_nat k))%string) (seq 0 n).
Proof.
  rewrite generateRoomConfigurations_sorted_id.
  exists (List.length (validTriples pax)).
  change 0 with (Z.of_nat 0). apply numberFrom_ids.
Qed.

(** X1.  The final sort never reorders anything: the loops already push the
    configurations in non-decreasing price, so the result is the array in
    push order and its identifiers read config-0, config-1, ... from the
    first card to the last. *)
Theorem generateRoomConfigurations_loop_order (pax : Z) :
  generateRoomConfigurations pax = fst (enumerateConfigs pax)
  /\ map id (generateRoomConfigurations pax)
     = map (fun k => ("config-" ++ JS.toString (Z.of_nat k))%string)
           (seq 0 (List.length (generateRoomConfigurations pax))).
Proof.
  assert (E : generateRoomConfigurations pax = fst (enumerateConfigs pax)).
  { unfold generateRoomConfigurations. cbv zeta.
    apply Array_sort_sorted_id with (key := priceDifference).
    - intros a b. reflexivity.
    - rewrite enumerateConfigs_validTriples.
      apply numberFrom_sorted, validTriples_sorted_by_count. }
  split; [exact E |].
  rewrite E, enumerateConfigs_validTriples.
  change 0 with (Z.of_nat 0).
  rewrite (numberFrom_ids (validTriples pax) 0).
  f_equal. f_equal.
  rewrite <- (map_rooms_numberFrom (validTriples pax) (Z.of_nat 0)) at 1.
  now rewrite length_map.
Qed.

(** ** Identifiers and the highlighted card *)

Lemma to_int_nonnil (z : Z) :
  Z.to_int z <> Decimal.Pos Decimal.Nil /\ Z.to_int z <> Decimal.Neg Decimal.Nil.
Proof.
  destruct z; simpl; split; try discriminate; intros H; injection H as H;
    now apply DecimalPos.Unsigned.to_uint_nonnil in H.
Qed.

Lemma toString_inj (a b : Z) : JS.toString a = JS.toString b -> a = b.
Proof.
  unfold JS.toString. intros H.
  apply (f_equal NilZero.int_of_string) in H.
  destruct (to_int_nonnil a), (to_int_nonnil b).
  rewrite !NilZero.isi in H by assumption.
  injection H as H. now apply DecimalZ.to_int_inj.
Qed.

Lemma generated_ids_NoDup (pax : Z) :
  NoDup (map id (generateRoomConfigurations pax)).
Proof.
  destruct (generateRoomConfigurations_loop_order_aux pax) as [n ->].
  apply Injective_map_NoDup; [| apply seq_NoDup].
  intros a b H. injection H as H.
  apply toString_inj in H. lia.
Qed.

Lemma NoDup_map_eq {A B : Type} (f : A -> B) (l : list A) (x y : A) :
  NoDup (map f l) -> In x l -> In y l -> f x = f y -> x = y.
Proof.
  induction l as [| a l IH]; simpl; intros Hnd Hx Hy E; [tauto |].
  inversion Hnd as [| ? ? Hnotin Hnd']; subst.
  destruct Hx as [<- | Hx], Hy as [<- | Hy]; auto.
  - exfalso. apply Hnotin. rewrite E. now apply in_map.
  - exfalso. apply Hnotin. rewrite <- E. now apply in_map.
Qed.

(** X2.  The identifiers of the generated configurations are pairwise
    distinct.  Hence, in every reachable state with the room panel shown and
    a configuration selected, the test [selectedConfig?.id === config.id]
    holds for exactly one card of the panel: the selected one. *)
Theorem selected_card_unique (tour : Tour) (s : State) (c : RoomConfig)
    (Hs : reachable tour s) (Hshown : roomPanelShown s = true)
    (Hc : selectedRoomConfig s = Some c) :
  NoDup (map id (configurations s))
  /\ In c (configurations s)
  /\ forall config, In config (configurations s) ->
       (isSelected (selectedRoomConfig s) config = true <-> config = c).
Proof.
  destruct (reachable_invariant tour s Hs) as (Hfit & Hcur & _).
  specialize (Hcur Hshown). specialize (Hfit c Hc). rewrite Hcur.
  split; [apply generated_ids_NoDup |]. split; [exact Hfit |].
  intros config Hconfig. rewrite Hc. unfold isSelected.
  rewrite String.eqb_eq. split.
  - intros E. symmetry.
    eapply NoDup_map_eq; eauto using generated_ids_NoDup.
  - now intros ->.
Qed.

Lemma selected_card_unique_witness :
  isSelected (selectedRoomConfig Examples.afterRoomChoice) Examples.doubleRoom
  = true.
Proof.
  destruct (selected_card_unique Examples.plainTour Examples.afterRoomChoice
              Examples.doubleRoom reachable_afterRoomChoice
              eq_refl eq_refl) as (_ & Hin & H).
  apply (H Examples.doubleRoom Hin). reflexivity.
Defined.

(** ** The "Best Value" badge *)

Lemma Math_min_spec (l : list Q) :
  l <> [] ->
  exists m, Math_min l = Some m /\ In m l
            /\ forall x, In x l -> (m <= x)%Q.
Proof.
  induction l as [| x r IH]; [congruence |]. intros _. simpl.
  destruct r as [| y r'].
  - exists x. simpl. repeat split; [now left |].
    intros z [<- | []]. apply Qle_refl.
  - destruct IH as (m & -> & Hin & Hmin); [discriminate |].
    destruct (Qle_bool x m) eqn:E.
    + apply Qle_bool_iff in E. exists x. repeat split; [now left |].
      intros z [<- | Hz]; [apply Qle_refl |].
      eapply Qle_trans; [exact E | now apply Hmin].
    + exists m. repeat split; [now right |].
      intros z [<- | Hz]; [| now apply Hmin].
      apply Qlt_le_weak, Qnot_le_lt. intros H.
      apply Qle_bool_iff in H. congruence.
Qed.

Lemma generated_roomCount_lower (pax : Z) (c : RoomConfig) :
  In c (generateRoomConfigurations pax) -> (pax + 1) / 2 <= roomCount c.
Proof.
  intros Hc. apply generated_beds in Hc. unfold beds, roomCount in *.
  apply Z.lt_succ_r, Z.div_lt_upper_bound; lia.
Qed.

Lemma generated_fewest_rooms (pax : Z) :
  0 <= pax ->
  exists c, In c (generateRoomConfigurations pax)
            /\ roomCount c = (pax + 1) / 2.
Proof.
  intros Hpax.
  assert (Hin : In (pax mod 2, pax / 2, 0) (validTriples pax)).
  { apply in_validTriples.
    pose proof (Z.mod_pos_bound pax 2 ltac:(lia)).
    pose proof (Z.div_mod pax 2 ltac:(lia)).
    pose proof (Z.div_pos pax 2 Hpax ltac:(lia)). lia. }
  rewrite <- (map_rooms_numberFrom (validTriples pax) 0) in Hin.
  apply in_map_iff in Hin as (c & Hrooms & Hc).
  exists c. split; [now apply in_generateRoomConfigurations |].
  unfold rooms in Hrooms. injection Hrooms as Hs Hd Ht.
  unfold roomCount. rewrite Hs, Hd, Ht.
  pose proof (Z.mod_pos_bound pax 2 ltac:(lia)).
  pose proof (Z.div_mod pax 2 ltac:(lia)).
  apply Z.div_unique with (r := 1 - pax mod 2); lia.
Qed.

Lemma Math_min_generated (pax : Z) :
  0 <= pax ->
  Math_min (map priceDifference (generateRoomConfigurations pax))
  = Some (inject_Z ((pax + 1) / 2 * 500)).
Proof.
  intros Hpax.
  destruct (generated_fewest_rooms pax Hpax) as (c0 & Hc0 & Hrc0).
  destruct (Math_min_spec (map priceDifference (generateRoomConfigurations pax)))
    as (m & -> & Hin & Hmin).
  { intros E. apply (in_map priceDifference) in Hc0. rewrite E in Hc0.
    exact Hc0. }
  apply in_map_iff in Hin as (cm & <- & Hcm).
  specialize (Hmin _ (in_map priceDifference _ _ Hc0)).
  rewrite (generated_priceDifference pax cm Hcm) in *.
  rewrite (generated_priceDifference pax c0 Hc0) in Hmin.
  rewrite <- Zle_Qle in Hmin.
  pose proof (generated_roomCount_lower pax cm Hcm).
  do 2 f_equal. lia.
Qed.

(** X3.  For a party of [pax >= 0], a card carries the recommendation test
    [priceDifference === Math.min(...)] exactly when its configuration uses
    the fewest rooms possible, [ceil(pax / 2)]; no configuration uses fewer,
    and the first card of the list always passes the test. *)
Theorem isRecommended_fewest_rooms (pax : Z) (c : RoomConfig)
    (Hpax : 0 <= pax) (Hc : In c (generateRoomConfigurations pax)) :
  (isRecommended (generateRoomConfigurations pax) c = true
   <-> single c + double c + twin c = (pax + 1) / 2)
  /\ (pax + 1) / 2 <= single c + double c + twin c
  /\ exists first rest,
       generateRoomConfigurations pax = first :: rest
       /\ isRecommended (generateRoomConfigurations pax) first = true.
Proof.
  assert (Hrec : forall c', In c' (generateRoomConfigurations pax) ->
            (isRecommended (generateRoomConfigurations pax) c' = true
             <-> roomCount c' = (pax + 1) / 2)).
  { intros c' Hc'. unfold isRecommended.
    rewrite (Math_min_generated pax Hpax), Qeq_bool_iff.
    rewrite (generated_priceDifference pax c' Hc'), inject_Z_injective.
    lia. }
  split; [apply (Hrec c Hc) |].
  split; [apply (generated_roomCount_lower pax c Hc) |].
  destruct (generated_fewest_rooms pax Hpax) as (c0 & Hc0 & Hrc0).
  pose proof (generated_sorted pax) as Hsorted.
  assert (Hshape : exists first rest,
            generateRoomConfigurations pax = first :: rest).
  { destruct (generateRoomConfigurations pax) as [| first rest];
      [destruct Hc0 | eauto]. }
  destruct Hshape as (first & rest & E).
  exists first, rest. split; [exact E |].
  assert (Hfirst : In first (generateRoomConfigurations pax))
    by (rewrite E; now left).
  apply (Hrec first Hfirst).
  pose proof (generated_roomCount_lower pax first Hfirst) as Hlow.
  assert (Hle : (priceDifference first <= priceDifference c0)%Q).
  { rewrite E in Hsorted, Hc0.
    inversion Hsorted as [| ? ? _ Hall]; subst.
    destruct Hc0 as [<- | Hc0]; [apply Qle_refl |].
    rewrite Forall_forall in Hall. now apply Hall. }
  rewrite (generated_priceDifference pax first Hfirst),
    (generated_priceDifference pax c0 Hc0), <- Zle_Qle in Hle.
  lia.
Qed.

Lemma isRecommended_fewest_rooms_witness :
  isRecommended (generateRoomConfigurations 5)
                (mkRoomConfig "config-2" 1 2 0 1500)
  = true.
Proof.
  apply (isRecommended_fewest_rooms 5 (mkRoomConfig "config-2" 1 2 0 1500));
    [lia | vm_compute; tauto | reflexivity].
Defined.

(** ** The number of cards *)

Section Counting.

Lemma in_triplesByPairs (pax single double twin : Z) :
  0 <= pax ->
  (In (single, double, twin) (triplesByPairs pax)
   <-> 0 <= single /\ 0 <= double /\ 0 <= twin
       /\ single + 2 * double + 2 * twin = pax).
Proof.
  intros Hpax. unfold triplesByPairs. rewrite in_flat_map.
  pose proof (Z.mod_pos_bound pax 2 ltac:(lia)).
  pose proof (Z.div_mod pax 2 ltac:(lia)).
  split.
  - intros (k & Hk & Hin). apply in_map_iff in Hin as (d & E & Hd).
    apply in_upto in Hk, Hd.
    assert (Hs : pax - 2 * k = single) by congruence.
    assert (Hd' : d = double) by congruence.
    assert (Ht : k - d = twin) by congruence. lia.
  - intros (Hs & Hd & Ht & E). exists (double + twin). split.
    + apply in_upto. split; [lia |]. apply Z.div_le_lower_bound; lia.
    + apply in_map_iff. exists double. split; [f_equal; [f_equal |]; lia |].
      apply in_upto. lia.
Qed.

Lemma NoDup_triplesByPairs (pax : Z) : NoDup (triplesByPairs pax).
Proof.
  unfold triplesByPairs.
  apply NoDup_flat_map_disjoint; [apply NoDup_upto | |].
  - intros k _. apply Injective_map_NoDup; [| apply NoDup_upto].
    intros d d' E. now injection E.
  - intros k k' b _ _ Hb Hb'.
    apply in_map_iff in Hb as (d & <- & _).
    apply in_map_iff in Hb' as (d' & E & _).
    assert (E' : pax - 2 * k' = pax - 2 * k) by congruence. lia.
Qed.

Lemma length_upto (hi : Z) : List.length (JS.upto hi) = Z.to_nat (hi + 1).
Proof. unfold JS.upto. now rewrite length_map, length_seq. Qed.

Lemma sum_successors (n k : nat) :
  (2 * list_sum (map (fun i => S i) (seq k n)) = n * (2 * k + n + 1))%nat.
Proof.
  revert k. induction n as [| n IH]; intros k; simpl.
  - reflexivity.
  - specialize (IH (S k)). lia.
Qed.

Lemma length_triplesByPairs (pax : Z) :
  0 <= pax ->
  2 * Z.of_nat (List.length (triplesByPairs pax))
  = (pax / 2 + 1) * (pax / 2 + 2).
Proof.
  intros Hpax. unfold triplesByPairs.
  pose proof (Z.div_pos pax 2 Hpax ltac:(lia)) as Hm.
  rewrite length_flat_map. unfold JS.upto at 2. rewrite map_map.
  rewrite (map_ext_in _ (fun i => S i)).
  - pose proof (sum_successors (Z.to_nat (pax / 2 + 1)) 0) as H.
    apply (f_equal Z.of_nat) in H.
    rewrite !Nat2Z.inj_mul, Nat2Z.inj_add, Nat2Z.inj_add, Nat2Z.inj_mul in H.
    rewrite Z2Nat.id in H by lia. simpl Z.of_nat in H. lia.
  - intros i _. rewrite length_map, length_upto. lia.
Qed.

End Counting.

(** X4.  For a party of [pax >= 0] the panel shows
    [(m + 1) * (m + 2) / 2] cards, where [m = floor(pax / 2)]: one for party
    sizes 0 and 1, six for party size 4, twenty-one for party size 10. *)
Theorem generateRoomConfigurations_count (pax : Z) (Hpax : 0 <= pax) :
  Z.of_nat (List.length (generateRoomConfigurations pax))
  = (pax / 2 + 1) * (pax / 2 + 2) / 2.
Proof.
  assert (Hlen : List.length (generateRoomConfigurations pax)
                 = List.length (triplesByPairs pax)).
  { rewrite generateRoomConfigurations_sorted_id.
    rewrite <- (length_map rooms), map_rooms_numberFrom.
    apply Permutation_length, NoDup_Permutation.
    - apply NoDup_validTriples.
    - apply NoDup_triplesByPairs.
    - intros [[s d] t].
      now rewrite (in_triplesByPairs pax s d t Hpax), in_validTriples. }
  rewrite Hlen. pose proof (length_triplesByPairs pax Hpax) as H.
  apply Z.div_unique with (r := 0); lia.
Qed.

Lemma generateRoomConfigurations_count_witness :
  Z.of_nat (List.length (generateRoomConfigurations 10)) = 21.
Proof.
  rewrite (generateRoomConfigurations_count 10); [reflexivity | lia].
Defined.

(** ** The text of a card *)

Section CardText.

Lemma chars_append (a b : string) :
  rev (list_ascii_of_string (a ++ b))
  = rev (list_ascii_of_string b) ++ rev (list_ascii_of_string a).
Proof.
  rewrite <- rev_app_distr. f_equal.
  induction a as [| ch a IH]; simpl; [reflexivity | now rewrite IH].
Qed.

Lemma append_suffix_cancel (a b t : string) :
  (a ++ t)%string = (b ++ t)%string -> a = b.
Proof.
  intros H. apply (f_equal (fun x => rev (list_ascii_of_string x))) in H.
  rewrite !chars_append in H. apply app_inv_head in H.
  apply (f_equal (@rev _)) in H. rewrite !rev_involutive in H.
  apply (f_equal string_of_list_ascii) in H.
  now rewrite !string_of_list_ascii_of_string in H.
Qed.

Lemma room_text_cancel (a b : Z) (t : string) :
  (JS.toString a ++ t)%string = (JS.toString b ++ t)%string -> a = b.
Proof. intros H. now apply append_suffix_cancel, toString_inj in H. Qed.

End CardText.

Ltac room_text_mismatch H :=
  exfalso;
  apply (f_equal (fun x => rev (list_ascii_of_string x))) in H;
  rewrite !chars_append in H; cbn [list_ascii_of_string rev app] in H;
  discriminate H.

Ltac room_texts :=
  repeat match goal with
         | H : (_ ++ _)%string = (_ ++ _)%string |- _ =>
             first [ apply room_text_cancel in H
                   | solve [room_text_mismatch H] ]
         end.

(** X5.  The lines of a card identify its configuration: two generated
    configurations, of any party sizes, with the same lines have the same
    rooms and belong to the same party size.  Only the configuration of
    party size 0 has no line at all. *)
Theorem formatRoomConfig_identifies (pax : Z) (c : RoomConfig)
    (Hc : In c (generateRoomConfigurations pax)) :
  (formatRoomConfig c = [] <-> pax = 0)
  /\ forall pax' c', In c' (generateRoomConfigurations pax') ->
       formatRoomConfig c = formatRoomConfig c' ->
       rooms c = rooms c' /\ pax = pax'.
Proof.
  apply generated_beds in Hc. destruct Hc as (Hs & Hd & Ht & Hb).
  unfold beds in Hb. split.
  - unfold formatRoomConfig.
    destruct (Z.ltb_spec 0 (single c)), (Z.ltb_spec 0 (double c)),
      (Z.ltb_spec 0 (twin c)); cbn [app];
      (split; [intros E; first [discriminate E | lia] | intros E; first [reflexivity | lia]]).
  - intros pax' c' Hc' E.
    apply generated_beds in Hc'. destruct Hc' as (Hs' & Hd' & Ht' & Hb').
    unfold beds in Hb'. unfold formatRoomConfig in E.
    assert (Hrooms : single c = single c' /\ double c = double c'
                     /\ twin c = twin c').
    { destruct (Z.ltb_spec 0 (single c)), (Z.ltb_spec 0 (double c)),
        (Z.ltb_spec 0 (twin c)), (Z.ltb_spec 0 (single c')),
        (Z.ltb_spec 0 (double c')), (Z.ltb_spec 0 (twin c'));
        cbn [app] in E; try discriminate E;
        try (injection E; intros); room_texts; lia. }
    destruct Hrooms as (E1 & E2 & E3).
    split; [unfold rooms; congruence | lia].
Qed.

Lemma formatRoomConfig_identifies_witness :
  formatRoomConfig (mkRoomConfig "config-0" 0 0 0 0) = [].
Proof.
  apply (formatRoomConfig_identifies 0 (mkRoomConfig "config-0" 0 0 0 0));
    [vm_compute; tauto | reflexivity].
Defined.

(** ** Passenger counters *)

Lemma effect_counts (prev next : State) :
  adults (RoomConfiguration_effect prev next) = adults next
  /\ childrenWithBed (RoomConfiguration_effect prev next) = childrenWithBed next
  /\ childrenWithoutBed (RoomConfiguration_effect prev next)
     = childrenWithoutBed next
  /\ selectedDate (RoomConfiguration_effect prev next) = selectedDate next.
Proof.
  unfold RoomConfiguration_effect.
  destruct (roomPanelShown next && _); repeat split.
Qed.

Lemma passenger_counts_bounded_aux (tour : Tour) (s : State) :
  reachable tour s ->
  1 <= adults s <= 10 /\ 0 <= childrenWithBed s /\ 0 <= childrenWithoutBed s.
Proof.
  induction 1 as [| s e Hs IH Hen]; [simpl; lia |].
  unfold step.
  destruct (effect_counts s (handler tour e s)) as (-> & -> & -> & _).
  destruct e; simpl; try lia.
  destruct (handleBooking_frame tour s) as ((_ & -> & ->) & -> & _). lia.
Qed.

(** X6.  In every reachable state the number of adults lies between 1 and
    10 and neither count of children is negative; so the head count is at
    least 1, and the room panel is shown exactly when a date is selected. *)
Theorem passenger_counts_bounded (tour : Tour) (s : State)
    (Hs : reachable tour s) :
  1 <= adults s <= 10
  /\ 0 <= childrenWithBed s
  /\ 0 <= childrenWithoutBed s
  /\ 1 <= totalTravelers s
  /\ (roomPanelShown s = true <-> selectedDate s <> ""%string).
Proof.
  assert (H : 1 <= adults s <= 10 /\ 0 <= childrenWithBed s
              /\ 0 <= childrenWithoutBed s)
    by (now apply (passenger_counts_bounded_aux tour)).
  destruct H as (Ha & Hb & Hw). repeat split; try lia.
  - unfold totalTravelers. lia.
  - unfold roomPanelShown. intros E. apply andb_true_iff in E as [E _].
    now apply truthy_str_iff.
  - intros E. unfold roomPanelShown. apply andb_true_iff. split.
    + now apply truthy_str_iff.
    + apply Z.ltb_lt. lia.
Qed.

Lemma passenger_counts_bounded_witness :
  1 <= adults Examples.afterContact <= 10.
Proof.
  apply (passenger_counts_bounded Examples.plainTour Examples.afterContact
           reachable_afterContact).
Defined.

(** ** Toggling an add-on *)

Lemma sumOver_perm (f : string -> Q) (l l' : list string) :
  Permutation l l' -> (sumOver f l == sumOver f l')%Q.
Proof.
  induction 1 as [| x l l' _ IH | x y l | l l' l'' _ IH1 _ IH2].
  - reflexivity.
  - rewrite !sumOver_cons, IH. reflexivity.
  - rewrite !sumOver_cons. ring.
  - now rewrite IH1.
Qed.

Lemma filter_neq_notin (addonId : string) (l : list string) :
  ~ In addonId l ->
  filter (fun x => negb (String.eqb x addonId)) l = l.
Proof.
  induction l as [| x l IH]; simpl; intros H; [reflexivity |].
  destruct (String.eqb_spec x addonId) as [E | E]; simpl.
  - exfalso. apply H. now left.
  - f_equal. apply IH. tauto.
Qed.

Lemma filter_neq_perm (addonId : string) (l : list string) :
  NoDup l -> In addonId l ->
  Permutation (filter (fun x => negb (String.eqb x addonId)) l ++ [addonId]) l.
Proof.
  induction l as [| x l IH]; simpl; intros Hnd Hin; [destruct Hin |].
  inversion Hnd as [| ? ? Hx Hl]; subst.
  destruct (String.eqb_spec x addonId) as [E | E]; simpl.
  - subst x. rewrite (filter_neq_notin addonId l Hx).
    apply Permutation_sym, Permutation_cons_append.
  - apply perm_skip, IH; [exact Hl |]. destruct Hin; [contradiction | assumption].
Qed.

(** X7.  Clicking an add-on flips whether its id is selected and leaves
    every other id as it was.  In a reachable state, clicking the same add-on
    twice leaves [addonsPrice] unchanged; if the add-on was not selected, the
    list of selected ids itself is restored. *)
Theorem handleAddonToggle_flips (tour : Tour) (s : State) (addonId : string) :
  let s1 := handleAddonToggle addonId s in
  let s2 := handleAddonToggle addonId s1 in
  (In addonId (selectedAddons s1) <-> ~ In addonId (selectedAddons s))
  /\ (forall other, other <> addonId ->
        (In other (selectedAddons s1) <-> In other (selectedAddons s)))
  /\ (~ In addonId (selectedAddons s) -> selectedAddons s2 = selectedAddons s)
  /\ (reachable tour s -> addonsPrice tour s2 = addonsPrice tour s).
Proof.
  cbv zeta.
  assert (Hmem : forall l, existsb (String.eqb addonId) l = true <-> In addonId l).
  { intros l. rewrite existsb_exists. split.
    - intros (x & Hx & E). apply String.eqb_eq in E. now subst.
    - intros H. exists addonId. split; [exact H | apply String.eqb_refl]. }
  assert (Hfilter : forall x l,
            In x (filter (fun y => negb (String.eqb y addonId)) l)
            <-> In x l /\ x <> addonId).
  { intros x l. rewrite filter_In, negb_true_iff, String.eqb_neq. tauto. }
  unfold handleAddonToggle. cbn [selectedAddons setSelectedAddons].
  destruct (existsb (String.eqb addonId) (selectedAddons s)) eqn:E.
  - (* selected: removed, then appended *)
    apply Hmem in E.
    assert (E' : existsb (String.eqb addonId)
                   (filter (fun y => negb (String.eqb y addonId))
                           (selectedAddons s)) = false).
    { destruct (existsb _ (filter _ _)) eqn:E'; [| reflexivity].
      apply Hmem, Hfilter in E'. tauto. }
    rewrite E'. split; [rewrite Hfilter; tauto |].
    split; [intros other Ho; rewrite Hfilter; tauto |].
    split; [tauto |].
    intros Hs. destruct (reachable_invariant tour s Hs) as (_ & _ & Hnd).
    rewrite !addonsPrice_sumOver. apply Math_round_comp.
    cbn [selectedAddons setSelectedAddons].
    apply (sumOver_perm (addonPriceOrZero tour s)).
    now apply filter_neq_perm.
  - (* not selected: appended, then removed *)
    assert (Hnot : ~ In addonId (selectedAddons s))
      by (intros H; apply Hmem in H; congruence).
    assert (E' : existsb (String.eqb addonId) (selectedAddons s ++ [addonId])
                 = true)
      by (apply Hmem, in_or_app; right; now left).
    rewrite E'.
    assert (Hback : filter (fun y => negb (String.eqb y addonId))
                           (selectedAddons s ++ [addonId])
                    = selectedAddons s).
    { rewrite filter_app, (filter_neq_notin addonId _ Hnot). simpl.
      rewrite String.eqb_refl. simpl. apply app_nil_r. }
    split; [rewrite in_app_iff; simpl; tauto |].
    split.
    { intros other Ho. rewrite in_app_iff. simpl. split; [| tauto].
      intros [H | [H | []]]; [exact H | congruence]. }
    split; [intros _; exact Hback |].
    intros _. rewrite Hback.
    rewrite !addonsPrice_sumOver. reflexivity.
Qed.

Lemma handleAddonToggle_flips_witness :
  addonsPrice Examples.plainTour
    (handleAddonToggle "a1" (handleAddonToggle "a1" Examples.afterContact))
  = addonsPrice Examples.plainTour Examples.afterContact.
Proof.
  apply (handleAddonToggle_flips Examples.plainTour Examples.afterContact "a1").
  apply reachable_afterContact.
Defined.

(** ** The forwarded payload *)

Lemma handleBooking_payload (tour : Tour) (s : State) (bd : BookingData) :
  snd (handleBooking tour s) = Some bd ->
  bd = mkBookingData
         (tour_id tour) (slug tour) (name tour)
         (customerName s) (customerEmail s) (customerPhone s)
         (selectedDate s)
         (adults s) (childrenWithBed s) (childrenWithoutBed s)
         (selectedRoomConfig s) (selectedAddons s)
         (basePrice tour s) (childrenPrice tour s)
         (JS.or_num (option_map priceDifference (selectedRoomConfig s)) 0)
         (addonsPrice tour s) (totalPrice tour s) "".
Proof.
  unfold handleBooking.
  repeat match goal with
         | |- context [if ?b then _ else _] =>
             destruct b; [intros H; discriminate H |]
         end.
  intros H. now injection H as <-.
Qed.

Lemma or_num_inject_Z (z : Z) : JS.or_num (Some (inject_Z z)) 0 = inject_Z z.
Proof.
  unfold JS.or_num. destruct (Qeq_bool (inject_Z z) 0) eqn:E; [| reflexivity].
  apply Qeq_bool_iff in E. change 0%Q with (inject_Z 0) in E.
  rewrite inject_Z_injective in E. rewrite E. reflexivity.
Qed.

(** A request is forwarded only from a state that passes every test of
    [handleBooking]. *)
Lemma handleBooking_valid (tour : Tour) (s : State) :
  (exists bd, snd (handleBooking tour s) = Some bd) ->
  selectedDate s <> ""%string
  /\ (0 < adults s -> exists c, selectedRoomConfig s = Some c)
  /\ minTravelers tour <= totalTravelers s <= maxTravelers tour
  /\ customerName s <> ""%string
  /\ customerEmail s <> ""%string
  /\ customerPhone s <> ""%string.
Proof.
  intros (bd & H). unfold handleBooking in H.
  destruct (JS.truthy_str (selectedDate s)) eqn:Hdate; cbn [negb] in H;
    [| discriminate H].
  destruct (isNull (selectedRoomConfig s) && (0 <? adults s)) eqn:Hroom;
    [discriminate H |].
  destruct (Z.ltb_spec (totalTravelers s) (minTravelers tour));
    [discriminate H |].
  destruct (Z.ltb_spec (maxTravelers tour) (totalTravelers s));
    [discriminate H |].
  destruct (JS.truthy_str (customerName s)) eqn:Hname; cbn [negb orb] in H;
    [| discriminate H].
  destruct (JS.truthy_str (customerEmail s)) eqn:Hemail; cbn [negb orb] in H;
    [| discriminate H].
  destruct (JS.truthy_str (customerPhone s)) eqn:Hphone; cbn [negb orb] in H;
    [| discriminate H].
  apply truthy_str_iff in Hdate, Hname, Hemail, Hphone.
  repeat split; try assumption.
  intros Hpos. apply Z.ltb_lt in Hpos. rewrite Hpos, andb_true_r in Hroom.
  destruct (selectedRoomConfig s) as [c |]; [eauto | discriminate].
Qed.

(** X8.  Whenever a reachable state forwards a booking, the payload carries
    the numbers of the state, its room configuration is one generated for
    [adults + childrenWithBed] people, its [roomPrice] is 500 per room of
    that configuration, and its [totalPrice] is exactly the sum of its
    [basePrice], [childrenPrice], [roomPrice] and [addonsPrice]. *)
Theorem forwarded_payload_consistent (tour : Tour) (s : State)
    (bd : BookingData) (Hs : reachable tour s)
    (Hbd : snd (handleBooking tour s) = Some bd) :
  bd_adults bd = adults s
  /\ bd_childrenWithBed bd = childrenWithBed s
  /\ bd_childrenWithoutBed bd = childrenWithoutBed s
  /\ bd_departureDate bd = selectedDate s
  /\ bd_addons bd = selectedAddons s
  /\ (exists c,
        bd_roomConfiguration bd = Some c
        /\ In c (generateRoomConfigurations
                   (bd_adults bd + bd_childrenWithBed bd))
        /\ bd_roomPrice bd
           = inject_Z ((single c + double c + twin c) * 500))
  /\ (inject_Z (bd_totalPrice bd)
      == inject_Z (bd_basePrice bd) + inject_Z (bd_childrenPrice bd)
         + bd_roomPrice bd + inject_Z (bd_addonsPrice bd))%Q.
Proof.
  pose proof (handleBooking_payload tour s bd Hbd) as ->.
  cbn [bd_adults bd_childrenWithBed bd_childrenWithoutBed bd_departureDate
       bd_addons bd_roomConfiguration bd_roomPrice bd_totalPrice
       bd_basePrice bd_childrenPrice bd_addonsPrice].
  destruct (reachable_invariant tour s Hs) as (Hfit & _ & _).
  destruct (passenger_counts_bounded_aux tour s Hs) as (Ha & _).
  destruct (handleBooking_valid tour s) as (_ & Hsel & _).
  { exists (mkBookingData
         (tour_id tour) (slug tour) (name tour)
         (customerName s) (customerEmail s) (customerPhone s)
         (selectedDate s)
         (adults s) (childrenWithBed s) (childrenWithoutBed s)
         (selectedRoomConfig s) (selectedAddons s)
         (basePrice tour s) (childrenPrice tour s)
         (JS.or_num (option_map priceDifference (selectedRoomConfig s)) 0)
         (addonsPrice tour s) (totalPrice tour s) ""). exact Hbd. }
  destruct Hsel as (c & Hc); [lia |].
  pose proof (Hfit c Hc) as Hin.
  pose proof (generated_priceDifference _ c Hin) as Hp.
  unfold roomCount in Hp.
  assert (Hroom : JS.or_num (option_map priceDifference (selectedRoomConfig s)) 0
                  = inject_Z ((single c + double c + twin c) * 500)).
  { rewrite Hc. simpl. rewrite Hp. apply or_num_inject_Z. }
  repeat split; try reflexivity.
  - exists c. repeat split; assumption.
  - rewrite Hroom. unfold totalPrice. rewrite Math_round_inject_Z.
    unfold roomPrice. rewrite Hc, Hp, Math_round_inject_Z.
    rewrite !inject_Z_plus. reflexivity.
Qed.

Lemma forwarded_payload_consistent_witness :
  exists bd, snd (handleBooking Examples.plainTour Examples.afterContact)
             = Some bd
             /\ bd_adults bd = adults Examples.afterContact.
Proof.
  eexists. split; [vm_compute; reflexivity |].
  apply (forwarded_payload_consistent Examples.plainTour Examples.afterContact
           _ reachable_afterContact).
  vm_compute. reflexivity.
Defined.

(** ** The selected date *)

Lemma selectedDeparture_status (tour : Tour) (s : State) (d : Departure) :
  selectedDeparture tour s = Some d ->
  dateStatus tour (selectedDate s) = status d.
Proof.
  unfold selectedDeparture, getSelectedDeparture, dateStatus.
  destruct (negb (JS.truthy_str (selectedDate s))); [discriminate |].
  destruct (departureSchedule tour) as [departures |]; [| discriminate].
  now intros ->.
Qed.

Lemma reachable_selectedDate (tour : Tour) (s : State) :
  reachable tour s ->
  selectedDate s = ""%string
  \/ (In (selectedDate s) (availableDates tour)
      /\ isSoldOut (dateStatus tour (selectedDate s)) = false).
Proof.
  induction 1 as [| s e Hs IH Hen]; [now left |].
  unfold step.
  destruct (effect_counts s (handler tour e s)) as (_ & _ & _ & ->).
  destruct e; try exact IH.
  - right. exact Hen.
  - simpl. destruct (handleBooking_frame tour s) as ((-> & _) & _).
    exact IH.
Qed.

(** X9.  A booking is only ever forwarded for a date listed in
    [tour.availableDates] whose departure, if the schedule has one for that
    date, is not marked [sold_out]. *)
Theorem forwarded_date_available (tour : Tour) (s : State) (bd : BookingData)
    (Hs : reachable tour s) (Hbd : snd (handleBooking tour s) = Some bd) :
  In (bd_departureDate bd) (availableDates tour)
  /\ bd_departureDate bd <> ""%string
  /\ forall d, selectedDeparture tour s = Some d ->
               date d = bd_departureDate bd /\ status d <> sold_out.
Proof.
  pose proof (handleBooking_payload tour s bd Hbd) as ->.
  cbn [bd_departureDate].
  destruct (handleBooking_valid tour s) as (Hdate & _); [eauto |].
  destruct (reachable_selectedDate tour s Hs) as [E | [Hin Hsold]];
    [contradiction |].
  split; [exact Hin |]. split; [exact Hdate |].
  intros d Hd. split.
  - unfold selectedDeparture, getSelectedDeparture in Hd.
    destruct (negb (JS.truthy_str (selectedDate s))); [discriminate |].
    destruct (departureSchedule tour) as [departures |]; [| discriminate].
    apply find_some in Hd as [_ Hd]. now apply String.eqb_eq in Hd.
  - rewrite (selectedDeparture_status tour s d Hd) in Hsold.
    intros E. rewrite E in Hsold. discriminate Hsold.
Qed.

Lemma forwarded_date_available_witness :
  exists bd, snd (handleBooking Examples.plainTour Examples.afterContact)
             = Some bd
             /\ In (bd_departureDate bd) (availableDates Examples.plainTour).
Proof.
  eexists. split; [vm_compute; reflexivity |].
  apply (forwarded_date_available Examples.plainTour Examples.afterContact
           _ reachable_afterContact).
  vm_compute. reflexivity.
Defined.

(** ** Prices without a matching departure, whole prices, signs *)

Lemma tour_level_pricing_without_departure_aux (tour : Tour) (s : State) :
  selectedDate s = ""%string
  \/ departureSchedule tour = None
  \/ (exists departures,
        departureSchedule tour = Some departures
        /\ forall d, In d departures -> date d <> selectedDate s) ->
  selectedDeparture tour s = None
  /\ pricingTiers tour s = tour_pricingTiers tour
  /\ childWithBedPrice tour s = tour_childWithBed tour
  /\ childWithoutBedPrice tour s = tour_childWithoutBed tour
  /\ availableAddons tour s = tour_addons tour
  /\ flatPricePerPerson tour s
     = JS.or_num (Some (tour_pricePerPerson tour)) 0.
Proof.
  intros Hno.
  assert (E : selectedDeparture tour s = None).
  { unfold selectedDeparture, getSelectedDeparture.
    destruct Hno as [H | [H | (departures & H & Hall)]].
    - now rewrite H.
    - rewrite H. now destruct (negb _).
    - rewrite H. destruct (negb _); [reflexivity |].
      unfold JS.Array_find.
      destruct (find _ departures) as [d |] eqn:F; [| reflexivity].
      apply find_some in F as [Hin Heq]. apply String.eqb_eq in Heq.
      now apply Hall in Hin. }
  unfold pricingTiers, childWithBedPrice, childWithoutBedPrice,
    availableAddons, flatPricePerPerson.
  rewrite E. cbn [option_map JS.or_array]. repeat split.
Qed.

(** X10.  When no date is selected, the tour has no schedule, or no
    departure of the schedule has the selected date, every price input is
    the tour-level one: tiers, child rates and add-ons are the tour's, and
    the flat rate is the tour's [pricePerPerson]. *)
Theorem tour_level_pricing_without_departure (tour : Tour) (s : State)
    (Hno : selectedDate s = ""%string
           \/ departureSchedule tour = None
           \/ exists departures,
                departureSchedule tour = Some departures
                /\ forall d, In d departures -> date d <> selectedDate s) :
  selectedDeparture tour s = None
  /\ pricingTiers tour s = tour_pricingTiers tour
  /\ childWithBedPrice tour s = tour_childWithBed tour
  /\ childWithoutBedPrice tour s = tour_childWithoutBed tour
  /\ availableAddons tour s = tour_addons tour
  /\ (flatPricePerPerson tour s == tour_pricePerPerson tour)%Q.
Proof.
  destruct (tour_level_pricing_without_departure_aux tour s Hno)
    as (H1 & H2 & H3 & H4 & H5 & H6).
  repeat split; try assumption.
  rewrite H6. apply or_num_Some_0.
Qed.

Lemma tour_level_pricing_without_departure_witness :
  pricingTiers Examples.plainTour Examples.afterContact
  = [mkPricingTier 2 25000].
Proof.
  apply (tour_level_pricing_without_departure
           Examples.plainTour Examples.afterContact).
  right. left. reflexivity.
Defined.

Lemma Math_round_nonneg (x : Q) : (0 <= x)%Q -> 0 <= JS.Math_round x.
Proof.
  intros H. unfold JS.Math_round.
  change 0 with (Qfloor 0). apply Qfloor_resp_le.
  apply Qle_trans with x; [exact H |].
  rewrite <- (Qplus_0_r x) at 1. apply Qplus_le_r. discriminate.
Qed.

Lemma sumOver_nonneg (f : string -> Q) (l : list string) :
  (forall x, (0 <= f x)%Q) -> (0 <= sumOver f l)%Q.
Proof.
  intros Hf. induction l as [| x l IH].
  - apply Qle_refl.
  - rewrite sumOver_cons.
    change 0%Q with (0 + 0)%Q. now apply Qplus_le_compat.
Qed.

Lemma priceIn_nonneg (available : list Addon) (addonId : string) :
  (forall a, In a available -> (0 <= price a)%Q) ->
  (0 <= priceIn available addonId)%Q.
Proof.
  intros H. unfold priceIn, JS.Array_find.
  destruct (find _ available) as [a |] eqn:E; simpl; [| apply Qle_refl].
  apply find_some in E as [Hin _]. specialize (H a Hin).
  destruct (Qeq_bool (price a) 0); [apply Qle_refl | exact H].
Qed.

(** X11.  In a reachable state, when the resolved per-person rate, the two
    child rates and the prices of the available add-ons are not negative,
    no component of the breakdown is negative, and the total is at least
    each component. *)
Theorem breakdown_nonnegative (tour : Tour) (s : State)
    (Hs : reachable tour s)
    (Hrate : (0 <= pricePerPerson tour s)%Q)
    (Hbed : (0 <= childWithBedPrice tour s)%Q)
    (Hnobed : (0 <= childWithoutBedPrice tour s)%Q)
    (Haddons : forall a, In a (availableAddons tour s) -> (0 <= price a)%Q) :
  0 <= basePrice tour s
  /\ 0 <= childrenPrice tour s
  /\ 0 <= roomPrice s
  /\ 0 <= addonsPrice tour s
  /\ basePrice tour s <= totalPrice tour s
  /\ childrenPrice tour s <= totalPrice tour s
  /\ roomPrice s <= totalPrice tour s
  /\ addonsPrice tour s <= totalPrice tour s.
Proof.
  destruct (passenger_counts_bounded_aux tour s Hs) as (Ha & Hb & Hw).
  destruct (reachable_invariant tour s Hs) as (Hfit & _ & _).
  assert (H1 : 0 <= basePrice tour s).
  { apply Math_round_nonneg, Qmult_le_0_compat; [| exact Hrate].
    change 0%Q with (inject_Z 0). rewrite <- Zle_Qle. lia. }
  assert (H2 : 0 <= childrenPrice tour s).
  { apply Math_round_nonneg. change 0%Q with (0 + 0)%Q.
    apply Qplus_le_compat; apply Qmult_le_0_compat; try assumption;
      change 0%Q with (inject_Z 0); rewrite <- Zle_Qle; lia. }
  assert (H3 : 0 <= roomPrice s).
  { unfold roomPrice. destruct (selectedRoomConfig s) as [c |] eqn:Hc; [| lia].
    specialize (Hfit c Hc).
    rewrite (generated_priceDifference _ c Hfit), Math_round_inject_Z.
    apply generated_beds in Hfit. unfold roomCount. lia. }
  assert (H4 : 0 <= addonsPrice tour s).
  { rewrite addonsPrice_sumOver. apply Math_round_nonneg, sumOver_nonneg.
    intros x. now apply priceIn_nonneg. }
  assert (Ht : totalPrice tour s
               = basePrice tour s + childrenPrice tour s + roomPrice s
                 + addonsPrice tour s)
    by (unfold totalPrice; apply Math_round_inject_Z).
  lia.
Qed.

Lemma breakdown_nonnegative_witness :
  0 <= basePrice Examples.plainTour Examples.afterContact.
Proof.
  apply (breakdown_nonnegative Examples.plainTour Examples.afterContact
           reachable_afterContact); try discriminate.
  intros a [].
Defined.

(** X12.  With whole prices nothing is rounded: in a reachable state with a
    selected configuration, whole per-person and child rates, and available
    add-ons with pairwise distinct ids and whole prices, the total is
    exactly [adults * rate + childrenWithBed * bedRate
    + childrenWithoutBed * noBedRate + 500 * rooms] plus the prices of the
    selected add-ons. *)
Theorem total_for_whole_prices (tour : Tour) (s : State) (c : RoomConfig)
    (rate bedRate noBedRate : Z)
    (Hs : reachable tour s)
    (Hc : selectedRoomConfig s = Some c)
    (Hrate : (pricePerPerson tour s == inject_Z rate)%Q)
    (Hbed : (childWithBedPrice tour s == inject_Z bedRate)%Q)
    (Hnobed : (childWithoutBedPrice tour s == inject_Z noBedRate)%Q)
    (Hids : NoDup (map addon_id (availableAddons tour s)))
    (Hwhole : forall a, In a (availableAddons tour s) ->
                        exists z, (price a == inject_Z z)%Q) :
  basePrice tour s = adults s * rate
  /\ childrenPrice tour s
     = childrenWithBed s * bedRate + childrenWithoutBed s * noBedRate
  /\ roomPrice s = (single c + double c + twin c) * 500
  /\ (inject_Z (totalPrice tour s)
      == inject_Z (adults s * rate + childrenWithBed s * bedRate
                   + childrenWithoutBed s * noBedRate
                   + (single c + double c + twin c) * 500)
         + Spec.addonsSum (availableAddons tour s) (selectedAddons s))%Q.
Proof.
  destruct (reachable_invariant tour s Hs) as (Hfit & _ & Hnd).
  assert (H1 : basePrice tour s = adults s * rate).
  { unfold basePrice. rewrite <- Math_round_inject_Z.
    apply Math_round_comp. now rewrite Hrate, inject_Z_mult. }
  assert (H2 : childrenPrice tour s
               = childrenWithBed s * bedRate + childrenWithoutBed s * noBedRate).
  { unfold childrenPrice. rewrite <- Math_round_inject_Z.
    apply Math_round_comp.
    now rewrite Hbed, Hnobed, inject_Z_plus, !inject_Z_mult. }
  assert (H3 : roomPrice s = (single c + double c + twin c) * 500).
  { unfold roomPrice. rewrite Hc.
    rewrite (generated_priceDifference _ c (Hfit c Hc)).
    apply Math_round_inject_Z. }
  destruct (addonsSum_integral _ (selectedAddons s) Hwhole) as (z & Hz).
  assert (H4 : addonsPrice tour s = z).
  { rewrite addonsPrice_sumOver, <- (Math_round_inject_Z z).
    apply Math_round_comp. rewrite <- Hz.
    apply (sumOver_addonsSum _ _ Hids Hnd). }
  repeat split; try assumption.
  unfold totalPrice. rewrite Math_round_inject_Z, H1, H2, H3, H4, Hz.
  rewrite <- inject_Z_plus, inject_Z_injective. lia.
Qed.

Lemma total_for_whole_prices_witness :
  basePrice Examples.plainTour Examples.afterContact = 2 * 25000.
Proof.
  apply (total_for_whole_prices Examples.plainTour Examples.afterContact
           Examples.doubleRoom 25000 14900 9900 reachable_afterContact);
    try reflexivity.
  - constructor.
  - intros a [].
Defined.

(** ** Tours built by [toursAPI.getById] *)

Lemma transformed_availableDates (id : string) (wpTour : WpTour)
    (schedule : option DepartureSchedule) (dateStr : string) :
  In dateStr (availableDates (transformedTour id wpTour schedule)) ->
  exists sch d, schedule = Some sch /\ In d (departures sch)
                /\ date d = dateStr /\ status d <> sold_out.
Proof.
  unfold transformedTour. cbn [availableDates].
  destruct schedule as [sch |]; [| intros []].
  intros H. apply in_map_iff in H as (d & Hd & Hin).
  apply filter_In in Hin as [Hin Hst].
  exists sch, d. repeat split; try assumption.
  intros E. rewrite E in Hst. discriminate Hst.
Qed.

(** X13.  For a tour built by [toursAPI.getById], whenever a date is
    selected in a reachable state the schedule has a departure for it that
    is not sold out, and this departure is the one whose prices are used. *)
Theorem transformed_tour_date_has_departure (id : string) (wpTour : WpTour)
    (schedule : option DepartureSchedule) (s : State)
    (Hs : reachable (transformedTour id wpTour schedule) s)
    (Hdate : selectedDate s <> ""%string) :
  exists sch d,
    schedule = Some sch
    /\ In d (departures sch)
    /\ selectedDeparture (transformedTour id wpTour schedule) s = Some d
    /\ date d = selectedDate s
    /\ status d <> sold_out.
Proof.
  destruct (reachable_selectedDate _ s Hs) as [E | [Hin Hsold]];
    [contradiction |].
  apply transformed_availableDates in Hin
    as (sch & d0 & Hsch & Hd0 & Hdate0 & _).
  subst schedule. exists sch.
  assert (Hfind : exists d,
            JS.Array_find (fun d => String.eqb (date d) (selectedDate s))
                          (departures sch) = Some d).
  { unfold JS.Array_find.
    destruct (find _ (departures sch)) as [d |] eqn:F; [eauto |].
    apply (find_none _ _ F) in Hd0. apply String.eqb_neq in Hd0.
    contradiction. }
  destruct Hfind as (d & Hfind). exists d.
  assert (Hsel : selectedDeparture (transformedTour id wpTour (Some sch)) s
                 = Some d).
  { unfold selectedDeparture, getSelectedDeparture.
    apply truthy_str_iff in Hdate. rewrite Hdate. exact Hfind. }
  pose proof Hfind as Hd. unfold JS.Array_find in Hd.
  apply find_some in Hd as [Hin Heq]. apply String.eqb_eq in Heq.
  repeat split; try assumption.
  rewrite (selectedDeparture_status _ s d Hsel) in Hsold.
  intros E. rewrite E in Hsold. discriminate Hsold.
Qed.

Lemma reachable_afterDate : reachable Samples.tour Samples.afterDate.
Proof.
  unfold Samples.afterDate. apply reachable_step; [apply reachable_init |].
  split; [simpl; tauto | reflexivity].
Qed.

Lemma transformed_tour_date_has_departure_witness :
  exists sch d,
    Some Samples.schedule = Some sch
    /\ In d (departures sch)
    /\ selectedDeparture Samples.tour Samples.afterDate = Some d
    /\ date d = selectedDate Samples.afterDate
    /\ status d <> sold_out.
Proof.
  apply (transformed_tour_date_has_departure
           "himachal" (mkWpTour 101 "himachal" "Himachal")
           (Some Samples.schedule) Samples.afterDate reachable_afterDate).
  discriminate.
Defined.

(** X14.  A tour built by [toursAPI.getById] from a missing schedule, or
    from one whose departures are all sold out, can never be booked: in
    every reachable state no date is selected and [handleBooking] answers
    "Please select a departure date" without forwarding anything. *)
Theorem no_open_departure_never_forwards (id : string) (wpTour : WpTour)
    (schedule : option DepartureSchedule) (s : State)
    (Hclosed : schedule = None
               \/ exists sch, schedule = Some sch
                              /\ forall d, In d (departures sch) ->
                                           status d = sold_out)
    (Hs : reachable (transformedTour id wpTour schedule) s) :
  selectedDate s = ""%string
  /\ handleBooking (transformedTour id wpTour schedule) s
     = (setError "Please select a departure date" s, None).
Proof.
  assert (Hdates : availableDates (transformedTour id wpTour schedule) = []).
  { unfold transformedTour. cbn [availableDates].
    destruct Hclosed as [-> | (sch & -> & Hall)]; [reflexivity |].
    induction (departures sch) as [| d l IH]; [reflexivity |]. simpl.
    rewrite (Hall d (or_introl eq_refl)). simpl.
    apply IH. intros d' Hd'. apply Hall. now right. }
  assert (Hdate : selectedDate s = ""%string).
  { destruct (reachable_selectedDate _ s Hs) as [E | [Hin _]]; [exact E |].
    rewrite Hdates in Hin. destruct Hin. }
  split; [exact Hdate |].
  unfold handleBooking. rewrite Hdate. reflexivity.
Qed.

Lemma no_open_departure_never_forwards_witness :
  selectedDate initialState = ""%string.
Proof.
  apply (no_open_departure_never_forwards
           "himachal" (mkWpTour 101 "himachal" "Himachal") None initialState).
  - now left.
  - apply reachable_init.
Defined.

(** X15.  For a tour built by [toursAPI.getById], the price inputs used
    before any date is selected, and those used once the schedule's first
    departure is the selected one, are the first departure's own: its tiers
    and add-ons (none when absent), its child rates (0 when absent) and its
    [pricePerPerson]. *)
Theorem first_departure_prices (id : string) (wpTour : WpTour)
    (sch : DepartureSchedule) (d : Departure) (s : State)
    (Hfirst : nth_error (departures sch) 0 = Some d)
    (Hsel : selectedDate s = ""%string
            \/ selectedDeparture (transformedTour id wpTour (Some sch)) s
               = Some d) :
  let tour := transformedTour id wpTour (Some sch) in
  pricingTiers tour s = JS.or_array (dep_pricingTiers d) []
  /\ availableAddons tour s = JS.or_array (dep_addons d) []
  /\ (childWithBedPrice tour s
      == match dep_childWithBed d with Some v => v | None => 0 end)%Q
  /\ (childWithoutBedPrice tour s
      == match dep_childWithoutBed d with Some v => v | None => 0 end)%Q
  /\ (flatPricePerPerson tour s == dep_pricePerPerson d)%Q.
Proof.
  cbv zeta.
  assert (Hnum : forall x : option Q,
            (JS.or_num x (JS.or_num x 0)
             == match x with Some v => v | None => 0 end)%Q).
  { intros [v |]; simpl; [| reflexivity].
    destruct (Qeq_bool v 0) eqn:E; [| reflexivity].
    apply Qeq_bool_iff in E. rewrite E. reflexivity. }
  assert (Hnum0 : forall x : option Q,
            (JS.or_num x 0 == match x with Some v => v | None => 0 end)%Q).
  { intros [v |]; simpl; [| reflexivity].
    destruct (Qeq_bool v 0) eqn:E; [| reflexivity].
    apply Qeq_bool_iff in E. now rewrite E. }
  destruct Hsel as [Hdate | Hsel].
  - destruct (tour_level_pricing_without_departure_aux
                (transformedTour id wpTour (Some sch)) s) as (_ & -> & -> & -> & -> & ->).
    { now left. }
    unfold transformedTour, firstDeparture.
    cbn [tour_pricingTiers tour_addons tour_childWithBed tour_childWithoutBed
         tour_pricePerPerson].
    rewrite Hfirst. cbn [option_map].
    repeat split; try apply Hnum0.
    unfold JS.or_num.
    destruct (Qeq_bool (dep_pricePerPerson d) 0) eqn:E.
    + apply Qeq_bool_iff in E. rewrite E. reflexivity.
    + rewrite E. reflexivity.
  - unfold pricingTiers, availableAddons, childWithBedPrice,
      childWithoutBedPrice, flatPricePerPerson.
    rewrite Hsel. unfold transformedTour, firstDeparture.
    cbn [tour_pricingTiers tour_addons tour_childWithBed tour_childWithoutBed
         tour_pricePerPerson].
    rewrite Hfirst. cbn [option_map].
    split; [now destruct (dep_pricingTiers d) |].
    split; [now destruct (dep_addons d) |].
    split; [apply Hnum |]. split; [apply Hnum |].
    unfold JS.or_num.
    destruct (Qeq_bool (dep_pricePerPerson d) 0) eqn:E.
    + apply Qeq_bool_iff in E. rewrite E. reflexivity.
    + reflexivity.
Qed.

Lemma first_departure_prices_witness :
  pricingTiers Samples.tour initialState = [mkPricingTier 2 21900].
Proof.
  apply (first_departure_prices
           "himachal" (mkWpTour 101 "himachal" "Himachal") Samples.schedule
           (mkDeparture "d1" "2026-03-01" 21900 sold_out
                        (Some [mkPricingTier 2 21900]) (Some 12500%Q) None None)
           initialState eq_refl).
  now left.
Defined.

(** ** [PaymentResponse.tsx]: verifying a payment *)

(** X16.  [verifyPayment] never leaves the page loading or pending.  It ends
    in [success] exactly when the URL carries an order id, the verification
    request succeeds, a pending booking is stored and parses, and the
    booking request succeeds; it then has posted the verification, posted
    the booking, removed the pending booking and scheduled the return to the
    home page, in this order. *)
Theorem verifyPayment_success_iff (Json ServerBooking : Type)
    (JSON_parse : string -> option Json)
    (searchParams : list (string * string))
    (verifyResult : Outcome VerifyData) (pendingBooking : option string)
    (bookingResult : Outcome (BookingResponse ServerBooking)) (now : string) :
  let run := verifyPayment JSON_parse searchParams verifyResult pendingBooking
                           bookingResult now in
  (pp_status (fst run) = StatusSuccess \/ pp_status (fst run) = StatusFailed)
  /\ (pp_status (fst run) = StatusSuccess
      <-> exists orderId data pending bookingData response,
            urlOrderId searchParams = Some orderId
            /\ verifyResult = Resolved data /\ vd_success data = true
            /\ whenTruthy pendingBooking = Some pending
            /\ JSON_parse pending = Some bookingData
            /\ bookingResult = Resolved response
            /\ br_success response = true
            /\ snd run
               = [PostVerify (paramsObject searchParams);
                  PostBooking bookingData orderId (vd_paymentMode data)
                              (vd_paymentStatus data) now;
                  RemovePendingBooking;
                  NavigateHome (br_booking response)]).
Proof.
  cbv zeta. unfold verifyPayment.
  destruct (urlOrderId searchParams) as [orderId |].
  2:{ split; [now right |]. split; [discriminate |].
      intros (? & ? & ? & ? & ? & H & _). discriminate H. }
  destruct verifyResult as [data | error].
  2:{ split; [now right |]. split; [discriminate |].
      intros (? & ? & ? & ? & ? & _ & H & _). discriminate H. }
  destruct (vd_success data) eqn:Hok.
  2:{ split; [now right |]. split; [discriminate |].
      intros (? & d & ? & ? & ? & _ & H & H' & _).
      injection H as <-. congruence. }
  destruct (whenTruthy pendingBooking) as [pending |].
  2:{ split; [now right |]. split; [discriminate |].
      intros (? & ? & ? & ? & ? & _ & _ & _ & H & _). discriminate H. }
  destruct (JSON_parse pending) as [bookingData |] eqn:Hparse.
  2:{ split; [now right |]. split; [discriminate |].
      intros (? & ? & p & ? & ? & _ & _ & _ & H & H' & _).
      injection H as <-. congruence. }
  destruct bookingResult as [response | error].
  2:{ split; [now right |]. split; [discriminate |].
      intros (? & ? & ? & ? & ? & _ & _ & _ & _ & _ & H & _). discriminate H. }
  destruct (br_success response) eqn:Hbooked.
  2:{ split; [now right |]. split; [discriminate |].
      intros (? & ? & ? & ? & r & _ & _ & _ & _ & _ & H & H' & _).
      injection H as <-. congruence. }
  split; [now left |]. split; [| reflexivity].
  intros _. exists orderId, data, pending, bookingData, response.
  repeat split; assumption.
Qed.

Ltac flow_leaf :=
  cbn [fst snd pp_status pp_message pp_orderDetails In];
  repeat (first [split | intro]);
  repeat match goal with
         | H : _ \/ _ |- _ => destruct H
         | H : False |- _ => destruct H
         | H : _ /\ _ |- _ => destruct H
         | H : ex _ |- _ => destruct H
         end;
  try discriminate; try congruence;
  repeat match goal with
         | H : PostBooking _ _ _ _ _ = PostBooking _ _ _ _ _ |- _ =>
             injection H as <- <- <- <- <-
         | H : Resolved _ = Resolved _ |- _ => injection H as <-
         | H : Some _ = Some _ |- _ => injection H as <-
         end;
  try congruence; eauto.

(** X17.  Whatever the outcomes, [verifyPayment] posts a booking only after
    a verification that succeeded, for the order id of the URL and with the
    parsed pending booking; without an order id it sends no request at all;
    whenever it ends in [failed], the pending booking is not removed and no
    return to the home page is scheduled; and a failure after a successful
    verification keeps the verification details and reports the order id at
    the end of its message. *)
Theorem verifyPayment_failure_safe (Json ServerBooking : Type)
    (JSON_parse : string -> option Json)
    (searchParams : list (string * string))
    (verifyResult : Outcome VerifyData) (pendingBooking : option string)
    (bookingResult : Outcome (BookingResponse ServerBooking)) (now : string) :
  let run := verifyPayment JSON_parse searchParams verifyResult pendingBooking
                           bookingResult now in
  (forall bookingData orderId mode st verifiedAt,
      In (PostBooking bookingData orderId mode st verifiedAt) (snd run) ->
      urlOrderId searchParams = Some orderId
      /\ (exists data, verifyResult = Resolved data /\ vd_success data = true)
      /\ (exists pending, whenTruthy pendingBooking = Some pending
                          /\ JSON_parse pending = Some bookingData))
  /\ (urlOrderId searchParams = None -> snd run = [])
  /\ (pp_status (fst run) = StatusFailed ->
      ~ In RemovePendingBooking (snd run)
      /\ forall booking, ~ In (NavigateHome booking) (snd run))
  /\ (forall data orderId,
        pp_status (fst run) = StatusFailed ->
        verifyResult = Resolved data -> vd_success data = true ->
        urlOrderId searchParams = Some orderId ->
        pp_orderDetails (fst run) = Some data
        /\ exists text, pp_message (fst run) = (text ++ orderId)%string).
Proof.
  cbv zeta. unfold verifyPayment.
  destruct (urlOrderId searchParams) as [orderId |]; [| flow_leaf].
  destruct verifyResult as [data | error]; [| flow_leaf].
  destruct (vd_success data) eqn:Hok; [| flow_leaf].
  destruct (whenTruthy pendingBooking) as [pending |]; [| flow_leaf].
  destruct (JSON_parse pending) as [bookingData |] eqn:Hparse; [| flow_leaf].
  destruct bookingResult as [response | error]; [| flow_leaf].
  destruct (br_success response) eqn:Hbooked; flow_leaf.
Qed.

Lemma verifyPayment_success_iff_witness :
  pp_status
    (fst (verifyPayment (fun doc : string => Some doc)
            [("order_id", "ORD-7")]%string
            (Resolved (mkVerifyData true None (Some "HDFC"%string) None))
            (Some "{}"%string)
            (Resolved (mkBookingResponse true (Some tt)))
            "2026-01-10T10:00:00.000Z"))
  = StatusSuccess.
Proof.
  apply (verifyPayment_success_iff string unit (fun doc => Some doc)).
  repeat eexists.
Defined.

Lemma verifyPayment_failure_safe_witness :
  snd (verifyPayment (fun doc : string => Some doc)
         [("status", "ok")]%string
         (Resolved (mkVerifyData true None None None))
         (Some "{}"%string)
         (Resolved (mkBookingResponse true (Some tt)))
         "2026-01-10T10:00:00.000Z")
  = [].
Proof.
  apply (verifyPayment_failure_safe string unit (fun doc => Some doc)).
  reflexivity.
Defined.

(** ** [BookingWidget.tsx]: handing a booking to the payment flow *)

Ltac widget_leaf :=
  cbn [fst snd option_map In cr_success cr_booking bookingsAPI_create
       paymentsAPI_createOrder od_success od_error od_order od_paymentMode
       od_paymentLink od_redirectUrl od_key negb];
  repeat (first [split | intro]);
  repeat match goal with
         | H : _ \/ _ |- _ => destruct H
         | H : False |- _ => destruct H
         | H : _ /\ _ |- _ => destruct H
         | H : ex _ |- _ => destruct H
         end;
  try discriminate; try congruence; eauto.

(** X18.  Whenever [BookingWidget.handleBooking] rejects, the message of
    its error is "Failed to initiate payment. Please try again.", whatever
    the server answered: the errors raised inside carry no response, and the
    API wrappers let no request error through.  [TourDetail] then shows
    exactly this message and re-enables the button. *)
Theorem widget_rejection_message (ServerBooking : Type)
    (bookingData : BookingData) (testModeEnv : option string)
    (clock : nat -> Z)
    (bookingPost : Outcome (BookingResponse ServerBooking))
    (orderPost : Outcome OrderData)
    (razorpayKeyEnv : option string) (razorpayLoaded : bool)
    (message : string)
    (Hrejects : snd (widgetHandleBooking bookingData testModeEnv clock
                       bookingPost orderPost razorpayKeyEnv razorpayLoaded)
                = Some message) :
  message = "Failed to initiate payment. Please try again."%string
  /\ forall tour s,
       error (step tour s (BookingThrew message))
       = "Failed to initiate payment. Please try again."%string
       /\ isProcessing (step tour s (BookingThrew message)) = false.
Proof.
  assert (Hmsg : message = "Failed to initiate payment. Please try again."%string).
  { unfold widgetHandleBooking in Hrejects.
    destruct (handleBooking_try bookingData testModeEnv clock bookingPost
                orderPost razorpayKeyEnv razorpayLoaded)
      as [effects thrown] eqn:E.
    cbn [snd] in Hrejects.
    destruct thrown as [[msg | | err] |]; cbn in Hrejects;
      try (injection Hrejects as <-; reflexivity); try discriminate.
    exfalso. unfold handleBooking_try in E.
    repeat match type of E with
           | context [if ?b then _ else _] => destruct b
           | context [match ?x with _ => _ end] => destruct x
           end; try discriminate E. }
  split; [exact Hmsg |].
  intros tour s. subst message. unfold step.
  rewrite effect_noop; [split; reflexivity |].
  unfold sameParty. repeat split.
Qed.

Lemma widget_rejection_message_witness :
  let bookingData :=
    mkBookingData "101" "himachal" "Himachal" "Asha" "a@example.org"
                  "+91 98765 43210" "2026-01-10" 2 0 0 None [] 50000
                  0 500 0 50500 "" in
  let refused : Outcome (BookingResponse unit) :=
    Resolved (mkBookingResponse false None) in
  let declined :=
    Resolved (mkOrderData false (Some "Card declined"%string)
                          None None None None None) in
  snd (widgetHandleBooking bookingData (Some "true"%string)
         (fun _ => 1767000000000) refused declined None true)
  = Some "Failed to initiate payment. Please try again."%string
  /\ error (step Examples.plainTour Examples.afterContact
              (BookingThrew "Failed to initiate payment. Please try again."))
     = "Failed to initiate payment. Please try again."%string.
Proof.
  cbv zeta.
  split; [vm_compute; reflexivity |].
  destruct (widget_rejection_message unit
              (mkBookingData "101" "himachal" "Himachal" "Asha"
                 "a@example.org" "+91 98765 43210" "2026-01-10" 2 0 0 None []
                 50000 0 500 0 50500 "")
              (Some "true"%string) (fun _ => 1767000000000)
              (Resolved (mkBookingResponse false None))
              (Resolved (mkOrderData false (Some "Card declined"%string)
                                     None None None None None))
              None true
              "Failed to initiate payment. Please try again."%string)
    as [_ Hshown].
  - vm_compute; reflexivity.
  - apply Hshown.
Defined.

(** X19.  In test mode [handleBooking] posts one booking, marked
    ['confirmed'] and carrying the booking data unchanged, and nothing else
    reaches a payment gateway.  It rejects exactly when the server answers
    without success or without a booking object; when the request itself
    fails, [bookingsAPI.create] makes up a booking and the confirmation page
    is shown all the same. *)
Theorem widget_test_mode (ServerBooking : Type)
    (bookingData : BookingData) (clock : nat -> Z)
    (bookingPost : Outcome (BookingResponse ServerBooking))
    (orderPost : Outcome OrderData)
    (razorpayKeyEnv : option string) (razorpayLoaded : bool) :
  let run := widgetHandleBooking bookingData (Some "true"%string) clock
               bookingPost orderPost razorpayKeyEnv razorpayLoaded in
  let request :=
    mkBookingRequest bookingData
      ("test_payment_" ++ JS.toString (clock 0%nat)) "confirmed"
      (TestDetails ("test_order_" ++ JS.toString (clock 1%nat))
                   ("test_payment_" ++ JS.toString (clock 2%nat))) in
  (fst run = [PostBookings request]
   \/ exists booking,
        fst run = [PostBookings request; SetConfirmedBooking (Some booking)])
  /\ (snd run = None
      <-> exists booking, In (SetConfirmedBooking (Some booking)) (fst run))
  /\ (snd run <> None
      <-> exists response,
            bookingPost = Resolved response
            /\ (br_success response = false \/ br_booking response = None))
  /\ (forall error, bookingPost = Rejected error ->
        run = ([PostBookings request;
                SetConfirmedBooking
                  (Some (Simulated ("BK-" ++ JS.toString (clock 3%nat))
                                   ("BK-" ++ JS.toString (clock 4%nat))
                                   request))],
               None)).
Proof.
  cbv zeta. unfold widgetHandleBooking, handleBooking_try.
  cbn [String.eqb Ascii.eqb Bool.eqb].
  destruct bookingPost as [response | error];
    cbn [bookingsAPI_create cr_success cr_booking].
  - destruct (br_success response) eqn:Hok.
    + destruct (br_booking response) as [b |] eqn:Hb; cbn [option_map fst snd].
      * split; [right; eauto |]. split; [split; [intros _ | reflexivity] |].
        { eexists. right. left. reflexivity. }
        split; [| intros e H; discriminate H].
        split; [intros H; now contradiction H |].
        intros (r & H & [H' | H']); injection H as <-; congruence.
      * split; [now left |]. split; [split; [discriminate |] |].
        { intros (b & [H | []]). discriminate H. }
        split; [| intros e H; discriminate H].
        split; [intros _; exists response; auto | discriminate].
    + cbn [option_map fst snd].
      split; [now left |]. split; [split; [discriminate |] |].
      { intros (b & [H | []]). discriminate H. }
      split; [| intros e H; discriminate H].
      split; [intros _; exists response; auto | discriminate].
  - cbn [option_map fst snd].
    split; [right; eauto |]. split; [split; [intros _ | reflexivity] |].
    { eexists. right. left. reflexivity. }
    split; [| reflexivity].
    split; [intros H; now contradiction H |].
    intros (r & H & _). discriminate H.
Qed.

Lemma widget_test_mode_witness :
  exists booking,
    In (SetConfirmedBooking (Some booking))
       (fst (widgetHandleBooking
               (mkBookingData "101" "himachal" "Himachal" "Asha"
                              "a@example.org" "+91 98765 43210" "2026-01-10"
                              2 0 0 None [] 50000 0 500 0 50500 "")
               (Some "true"%string) (fun _ => 1767000000000)
               (Resolved (mkBookingResponse true (Some tt)))
               (Rejected (mkAxiosError None "Network Error" None None))
               None false)).
Proof.
  apply (widget_test_mode unit). reflexivity.
Defined.

Lemma whenTruthy_Some (x : option string) (v : string) :
  whenTruthy x = Some v <-> x = Some v /\ v <> ""%string.
Proof.
  unfold whenTruthy. destruct x as [w |].
  - destruct w; simpl; split.
    + discriminate.
    + intros [E H]. injection E as <-. now destruct H.
    + intros E. injection E as <-. split; [reflexivity | discriminate].
    + intros [E _]. exact E.
  - split; [discriminate | intros [E _]; discriminate E].
Qed.

Ltac live_leaf :=
  cbn [fst snd option_map In];
  repeat match goal with
         | |- _ /\ _ => split
         | |- forall _, _ => intro
         | |- ~ _ => intro
         end;
  repeat match goal with
         | H : _ \/ _ |- _ => destruct H
         | H : False |- _ => destruct H
         | H : _ /\ _ |- _ => destruct H
         | H : ex _ |- _ => destruct H
         end;
  try discriminate; try congruence;
  try (eexists _, _; repeat split; reflexivity);
  try (eexists; reflexivity).

(** X20.  Outside test mode [handleBooking] first requests a payment order
    for the booking's [totalPrice] in INR and never creates or confirms a
    booking itself.  A redirect happens exactly for a successful HDFC answer
    that carries an order and a non-empty [paymentLink] or, failing that,
    [redirectUrl]: the redirect goes to that link, right after the booking
    data and the order id were stored as the pending booking, and nothing is
    stored otherwise.  The Razorpay dialog is opened only for a RAZORPAY
    answer, for the order's id and amount, and never together with a
    redirect.  When the order request itself fails, the made-up order names
    no gateway: nothing is opened, nothing is stored, and the promise
    fulfils without any error. *)
Theorem widget_live_mode (ServerBooking : Type)
    (bookingData : BookingData) (testModeEnv : option string)
    (clock : nat -> Z)
    (bookingPost : Outcome (BookingResponse ServerBooking))
    (orderPost : Outcome OrderData)
    (razorpayKeyEnv : option string) (razorpayLoaded : bool)
    (Hlive : testModeEnv <> Some "true"%string) :
  let run := widgetHandleBooking bookingData testModeEnv clock bookingPost
               orderPost razorpayKeyEnv razorpayLoaded in
  let linkOf (data : OrderData) (url : string) :=
    whenTruthy (od_paymentLink data) = Some url
    \/ (whenTruthy (od_paymentLink data) = None
        /\ whenTruthy (od_redirectUrl data) = Some url) in
  (exists request rest,
      fst run = PostCreateOrder request :: rest
      /\ oq_amount request = bd_totalPrice bookingData
      /\ oq_currency request = Some "INR"%string)
  /\ (forall request, ~ In (PostBookings request) (fst run))
  /\ (forall booking, ~ In (SetConfirmedBooking booking) (fst run))
  /\ (forall url, In (RedirectTo url) (fst run) ->
        snd run = None
        /\ exists request order data,
             orderPost = Resolved data
             /\ od_paymentMode data = Some "HDFC"%string
             /\ od_order data = Some order
             /\ fst run = [PostCreateOrder request;
                           StorePendingBooking bookingData (order_id order);
                           RedirectTo url])
  /\ (forall error, orderPost = Rejected error ->
        snd run = None /\ exists request, fst run = [PostCreateOrder request])
  /\ (forall url, In (RedirectTo url) (fst run) ->
        url <> ""%string
        /\ exists data, orderPost = Resolved data
                        /\ od_success data = true /\ linkOf data url)
  /\ (forall data order url,
        orderPost = Resolved data -> od_success data = true ->
        od_paymentMode data = Some "HDFC"%string ->
        od_order data = Some order -> linkOf data url ->
        exists request,
          fst run = [PostCreateOrder request;
                     StorePendingBooking bookingData (order_id order);
                     RedirectTo url])
  /\ (forall stored orderId,
        In (StorePendingBooking stored orderId) (fst run) ->
        exists url, In (RedirectTo url) (fst run))
  /\ (forall options, In (OpenRazorpay options) (fst run) ->
        snd run = None /\ razorpayLoaded = true
        /\ (forall url, ~ In (RedirectTo url) (fst run))
        /\ exists request order data,
             orderPost = Resolved data
             /\ od_success data = true
             /\ od_paymentMode data = Some "RAZORPAY"%string
             /\ od_order data = Some order
             /\ rz_order_id options = order_id order
             /\ rz_amount options = order_amount order
             /\ fst run = [PostCreateOrder request; OpenRazorpay options]).
Proof.
  cbv zeta. unfold widgetHandleBooking, handleBooking_try.
  assert (Htest : match testModeEnv with
                  | Some v => String.eqb v "true"
                  | None => false
                  end = false).
  { destruct testModeEnv as [v |]; [| reflexivity].
    apply String.eqb_neq. congruence. }
  rewrite Htest.
  destruct orderPost as [data | error]; cbn [paymentsAPI_createOrder].
  2:{ cbn [od_success od_error od_order od_paymentMode od_paymentLink
           od_redirectUrl od_key negb whenTruthy].
      live_leaf. }
  destruct (od_success data) eqn:Hsuccess; cbn [negb]; [| live_leaf].
  destruct (whenTruthy (od_paymentLink data)) as [link |] eqn:Hlink;
    [| destruct (whenTruthy (od_redirectUrl data)) as [link |] eqn:Hredirect].
  all: destruct (od_paymentMode data) as [mode |] eqn:Hmode;
    [destruct (String.eqb_spec mode "HDFC") as [-> | Hhdfc] |].
  all: try (destruct (String.eqb_spec mode "RAZORPAY") as [-> | Hrazorpay]).
  all: cbn [String.eqb Ascii.eqb Bool.eqb].
  all: destruct (od_order data) as [order |] eqn:Horder.
  all: try destruct razorpayLoaded.
  all: cbn [fst snd option_map In].
  all: (split; [eexists _, _; repeat split |]).
  all: (split; [intros r Hin;
                repeat (destruct Hin as [Hin | Hin]; try discriminate Hin);
                exact Hin |]).
  all: (split; [intros r Hin;
                repeat (destruct Hin as [Hin | Hin]; try discriminate Hin);
                exact Hin |]).
  all: (split;
        [intros url Hin;
         repeat (destruct Hin as [Hin | Hin]; try discriminate Hin);
         try (exfalso; exact Hin);
         injection Hin as <-; (split; [reflexivity |]);
         eexists _, _, data; repeat split; eauto |]).
  all: (split; [intros e He; discriminate He |]).
  all: (split;
        [intros url Hin;
         repeat (destruct Hin as [Hin | Hin]; try discriminate Hin);
         try (exfalso; exact Hin);
         injection Hin as <-;
         (split;
          [first [ apply (whenTruthy_Some _ _) in Hlink; tauto
                 | apply (whenTruthy_Some _ _) in Hredirect; tauto ]
          | exists data; repeat split; auto ]) |]).
  all: (split;
        [intros data' order' url E Hs Hm Ho Hl; injection E as <-;
         first [ congruence
               | destruct Hl as [Hl | [Hl1 Hl2]]; congruence
               | eexists;
                 destruct Hl as [Hl | [Hl1 Hl2]];
                 repeat match goal with
                        | H1 : ?x = Some _, H2 : ?x = Some _ |- _ =>
                            rewrite H1 in H2; injection H2 as <-
                        end;
                 first [ reflexivity | congruence ] ] |]).
  all: (split;
        [intros stored orderId Hin;
         repeat (destruct Hin as [Hin | Hin]; try discriminate Hin);
         try (exfalso; exact Hin);
         eexists; right; right; left; reflexivity |]).
  all: intros options Hin;
       repeat (destruct Hin as [Hin | Hin]; try discriminate Hin);
       try (exfalso; exact Hin);
       injection Hin as <-;
       (split; [reflexivity |]);
       (split; [reflexivity |]);
       (split;
        [intros url Hin;
         repeat (destruct Hin as [Hin | Hin]; try discriminate Hin);
         exact Hin |]);
       eexists _, order, data; repeat split; auto.
Qed.

Lemma widget_live_mode_witness :
  let bookingData :=
    mkBookingData "101" "himachal" "Himachal" "Asha" "a@example.org"
                  "+91 98765 43210" "2026-01-10" 2 0 0 None [] 50000
                  0 500 0 50500 "" in
  let answer :=
    mkOrderData true None (Some (mkOrder "order_7" 5050000 "INR"))
                (Some "HDFC"%string) None
                (Some "https://pay.example.org/7"%string) None in
  exists request,
    fst (widgetHandleBooking bookingData None (fun _ => 1767000000000)
           (Resolved (mkBookingResponse true (Some tt)))
           (Resolved answer) None false)
    = [PostCreateOrder request;
       StorePendingBooking bookingData "order_7";
       RedirectTo "https://pay.example.org/7"].
Proof.
  cbv zeta.
  destruct (widget_live_mode unit
              (mkBookingData "101" "himachal" "Himachal" "Asha"
                             "a@example.org" "+91 98765 43210" "2026-01-10"
                             2 0 0 None [] 50000 0 500 0 50500 "")
              None (fun _ => 1767000000000)
              (Resolved (mkBookingResponse true (Some tt)))
              (Resolved
                 (mkOrderData true None (Some (mkOrder "order_7" 5050000 "INR"))
                              (Some "HDFC"%string) None
                              (Some "https://pay.example.org/7"%string) None))
              None false)
    as (_ & _ & _ & _ & _ & _ & H & _); [discriminate |].
  apply (H (mkOrderData true None (Some (mkOrder "order_7" 5050000 "INR"))
                        (Some "HDFC"%string) None
                        (Some "https://pay.example.org/7"%string) None)
           (mkOrder "order_7" 5050000 "INR")
           "https://pay.example.org/7"%string
           eq_refl eq_refl eq_refl eq_refl).
  right. split; reflexivity.
Defined.

(** X21.  The Razorpay [handler] never creates a booking for a payment the
    server declared unverified; it always ends in exactly one of two ways:
    the confirmation is set and the return to the site is scheduled right
    after it (to https://immersivetrips.in, after 9000 ms), or an alert
    names the payment id.  The confirmation is set exactly when the
    verification is not refused and the booking request either fails or is
    answered with success; it then holds the server's booking or, when the
    request failed, a made-up one.  In particular, when both requests fail
    the wrappers answer success and the confirmation is set. *)
Theorem razorpayHandler_outcome (ServerBooking : Type)
    (bookingData : BookingData) (orderId paymentId signature : string)
    (verifyPost : Outcome bool)
    (bookingPost : Outcome (BookingResponse ServerBooking))
    (clock : nat -> Z) :
  let effects := razorpayHandler bookingData orderId paymentId signature
                   verifyPost bookingPost clock in
  let alert :=
    Alert ("Payment successful but booking failed. Please contact support with payment ID: "
           ++ paymentId) in
  let request :=
    mkBookingRequest bookingData paymentId "confirmed"
                     (RazorpayDetails orderId paymentId signature) in
  let confirmed (booking : option (Booking ServerBooking)) :=
    [PostVerifyPayment orderId paymentId signature; PostBookings request;
     SetConfirmedBooking booking;
     RedirectLater "https://immersivetrips.in" 9000] in
  (exists rest, effects = PostVerifyPayment orderId paymentId signature :: rest)
  /\ (verifyPost = Resolved false ->
      effects = [PostVerifyPayment orderId paymentId signature; alert])
  /\ (forall request, In (PostBookings request) effects ->
        verifyPost <> Resolved false
        /\ rq_bookingData request = bookingData
        /\ rq_paymentId request = paymentId
        /\ rq_paymentStatus request = "confirmed"%string)
  /\ ((exists booking, In (SetConfirmedBooking booking) effects)
      <-> ~ In alert effects)
  /\ (forall message, In (Alert message) effects -> message = 
        ("Payment successful but booking failed. Please contact support with payment ID: "
         ++ paymentId)%string)
  /\ (forall e1 e2, verifyPost = Rejected e1 -> bookingPost = Rejected e2 ->
        exists request,
          effects
          = [PostVerifyPayment orderId paymentId signature;
             PostBookings request;
             SetConfirmedBooking
               (Some (Simulated ("BK-" ++ JS.toString (clock 0%nat))
                                ("BK-" ++ JS.toString (clock 1%nat)) request));
             RedirectLater "https://immersivetrips.in" 9000])
  /\ (forall booking, In (SetConfirmedBooking booking) effects ->
        effects = confirmed booking)
  /\ (forall url delay, In (RedirectLater url delay) effects ->
        url = "https://immersivetrips.in"%string /\ delay = 9000
        /\ exists booking, effects = confirmed booking)
  /\ (verifyPost <> Resolved false ->
      (forall response, bookingPost = Resolved response ->
         br_success response = true ->
         effects = confirmed (option_map ServerSent (br_booking response)))
      /\ (forall response, bookingPost = Resolved response ->
            br_success response = false ->
            effects = [PostVerifyPayment orderId paymentId signature;
                       PostBookings request; alert])
      /\ (forall e, bookingPost = Rejected e ->
            effects
            = confirmed
                (Some (Simulated ("BK-" ++ JS.toString (clock 0%nat))
                                 ("BK-" ++ JS.toString (clock 1%nat))
                                 request)))).
Proof.
  cbv zeta. unfold razorpayHandler.
  destruct verifyPost as [[|] | e1]; cbn [paymentsAPI_verify];
    destruct bookingPost as [response | e2];
    cbn [bookingsAPI_create cr_success cr_booking];
    try destruct (br_success response) eqn:Hsuccess;
    cbn [In];
    (split; [eexists; reflexivity |]);
    (split; [intros H; first [discriminate H | reflexivity] |]);
    (split;
     [intros request Hin;
      repeat (destruct Hin as [Hin | Hin]; try discriminate Hin);
      try (exfalso; exact Hin);
      try (injection Hin as <-; repeat split;
           first [discriminate | reflexivity]) |]);
    (split;
     [split;
      [intros (booking & Hin) Halert;
       repeat (destruct Hin as [Hin | Hin]; try discriminate Hin);
       try (exfalso; exact Hin);
       repeat (destruct Halert as [Halert | Halert]; try discriminate Halert);
       try (exfalso; exact Halert)
      | intros Halert;
        first [ eexists; right; right; left; reflexivity
              | exfalso; apply Halert; tauto ] ] |]);
    (split;
     [intros message Hin;
      repeat (destruct Hin as [Hin | Hin]; try discriminate Hin);
      try (exfalso; exact Hin);
      try (injection Hin as <-; reflexivity) |]);
    (split;
     [intros e1' e2' H1 H2; try discriminate H1; try discriminate H2;
      eexists; reflexivity |]);
    (split;
     [intros booking Hin;
      repeat (destruct Hin as [Hin | Hin]; try discriminate Hin);
      try (exfalso; exact Hin);
      try (injection Hin as <-; reflexivity) |]);
    (split;
     [intros url delay Hin;
      repeat (destruct Hin as [Hin | Hin]; try discriminate Hin);
      try (exfalso; exact Hin);
      try (injection Hin as <- <-;
           split; [reflexivity |]; split; [reflexivity |];
           eexists; reflexivity) |]);
    intros Hverified;
    try (exfalso; apply Hverified; reflexivity);
    (split;
     [intros response' E Hs; try discriminate E;
      try (injection E as <-); first [congruence | reflexivity] |]);
    (split;
     [intros response' E Hs; try discriminate E;
      try (injection E as <-); first [congruence | reflexivity] |]);
    intros e E; first [discriminate E | reflexivity].
Qed.

Lemma razorpayHandler_outcome_witness :
  razorpayHandler
    (mkBookingData "101" "himachal" "Himachal" "Asha"
                   "a@example.org" "+91 98765 43210" "2026-01-10"
                   2 0 0 None [] 50000 0 500 0 50500 "")
    "order_9" "pay_3" "sig" (Resolved true)
    (Resolved (mkBookingResponse true (Some tt))) (fun _ => 1767000000000)
  = [PostVerifyPayment "order_9" "pay_3" "sig";
     PostBookings
       (mkBookingRequest
          (mkBookingData "101" "himachal" "Himachal" "Asha"
                         "a@example.org" "+91 98765 43210" "2026-01-10"
                         2 0 0 None [] 50000 0 500 0 50500 "")
          "pay_3" "confirmed" (RazorpayDetails "order_9" "pay_3" "sig"));
     SetConfirmedBooking (Some (ServerSent tt));
     RedirectLater "https://immersivetrips.in" 9000].
Proof.
  destruct (razorpayHandler_outcome unit
              (mkBookingData "101" "himachal" "Himachal" "Asha"
                             "a@example.org" "+91 98765 43210" "2026-01-10"
                             2 0 0 None [] 50000 0 500 0 50500 "")
              "order_9" "pay_3" "sig" (Resolved true)
              (Resolved (mkBookingResponse true (Some tt)))
              (fun _ => 1767000000000))
    as (_ & _ & _ & _ & _ & _ & _ & _ & H).
  destruct H as [H _]; [discriminate |].
  apply (H (mkBookingResponse true (Some tt))); reflexivity.
Defined.

(** ** Loading the tour *)





